(** * A shallow embedding of the blog API's controllers and post router

    Sources embedded here:
    - [server/controllers/categoryController.js]  (category handlers)
    - [server/controllers/postController.js]      (post handlers)
    - [server/utils/validation.js]                ([handleValidationErrors])
    - [server/routes/posts.js]                    (the post router)

    Conventions.
    - JavaScript numbers are embedded as [Z]; every number the handlers
      touch is an integer (page numbers, counts), exact below 2^53.
    - An [ObjectId] is kept as its canonical 24-character lower-case
      hexadecimal string, so [toString()] is the identity.
    - The document store is a pair of collections kept in natural
      (insertion) order, plus a script of outages: the outcome of the
      successive round trips to the store ([true]: the driver rejects).
    - Handlers run in a state-and-exception monad; the [try]/[catch] of
      every handler is [try_catch]. *)

From Stdlib Require Import List String Ascii ZArith Bool Lia Arith DecimalString.
From Stdlib Require Import Permutation Sorted.
Import ListNotations.

Local Open Scope string_scope.
Local Open Scope Z_scope.

(** ** JavaScript built-ins used by the handlers *)

Module JS.

Definition in_range (lo hi : nat) (c : ascii) : bool :=
  (Nat.leb lo (nat_of_ascii c) && Nat.leb (nat_of_ascii c) hi)%bool.

Definition is_digit (c : ascii) : bool := in_range 48 57 c.
Definition is_upper (c : ascii) : bool := in_range 65 90 c.
Definition is_lower (c : ascii) : bool := in_range 97 122 c.

(** The character class [[0-9a-fA-F]]. *)
Definition is_hex_digit (c : ascii) : bool :=
  (is_digit c || in_range 97 102 c || in_range 65 70 c)%bool.

Definition to_lower_ascii (c : ascii) : ascii :=
  if is_upper c then ascii_of_nat (nat_of_ascii c + 32) else c.

Fixpoint toLowerCase (s : string) : string :=
  match s with
  | EmptyString => EmptyString
  | String c r => String (to_lower_ascii c) (toLowerCase r)
  end.

Fixpoint all_chars (f : ascii -> bool) (s : string) : bool :=
  match s with
  | EmptyString => true
  | String c r => (f c && all_chars f r)%bool
  end.

(** [/^[0-9a-fA-F]{24}$/.test(id)] *)
Definition isObjectId (id : string) : bool :=
  (Nat.eqb (String.length id) 24 && all_chars is_hex_digit id)%bool.

(** A JavaScript number as the handlers see it: an integer or [NaN]. *)
Inductive number := NaN | Num (z : Z).

Definition is_ws (c : ascii) : bool :=
  let n := nat_of_ascii c in
  (Nat.eqb n 32 || (Nat.leb 9 n && Nat.leb n 13))%bool.

Fixpoint trim_start (s : string) : string :=
  match s with
  | String c r => if is_ws c then trim_start r else s
  | EmptyString => EmptyString
  end.

Definition digit_value (radix : Z) (c : ascii) : option Z :=
  let n := Z.of_nat (nat_of_ascii c) in
  let v := if is_digit c then Some (n - 48)
           else if is_lower c then Some (n - 87)
           else if is_upper c then Some (n - 55)
           else None in
  match v with
  | Some d => if d <? radix then Some d else None
  | None => None
  end.

(** The longest prefix of digits of [s] in [radix]; [None] when the
    prefix is empty. *)
Fixpoint digits (radix : Z) (s : string) (acc : option Z) : option Z :=
  match s with
  | EmptyString => acc
  | String c r =>
      match digit_value radix c with
      | Some d =>
          digits radix r
            (Some (match acc with Some a => a * radix + d | None => d end))
      | None => acc
      end
  end.

Definition strip_sign (s : string) : Z * string :=
  match s with
  | String "-" r => (-1, r)
  | String "+" r => (1, r)
  | _ => (1, s)
  end.

Definition strip_hex_prefix (s : string) : option string :=
  match s with
  | String "0" (String "x" r) => Some r
  | String "0" (String "X" r) => Some r
  | _ => None
  end.

(** [parseInt(v)] with no radix, on a query-string value ([None] is
    [undefined]): leading ASCII white space, an optional sign, an
    optional [0x] prefix, then the longest run of digits. *)
Definition parseInt (v : option string) : number :=
  match v with
  | None => NaN
  | Some s =>
      let (sign, s1) := strip_sign (trim_start s) in
      let parsed :=
        match strip_hex_prefix s1 with
        | Some r => digits 16 r None
        | None => digits 10 s1 None
        end in
      match parsed with
      | Some z => Num (sign * z)
      | None => NaN
      end
  end.

(** [n || d] on numbers: [NaN] and zero are falsy. *)
Definition num_or (n : number) (d : Z) : Z :=
  match n with
  | NaN => d
  | Num 0 => d
  | Num z => z
  end.

(** Truthiness of a possibly undefined string: [if (s)]. *)
Definition truthy (s : option string) : bool :=
  match s with
  | Some (String _ _) => true
  | _ => false
  end.

(** [Math.ceil(a / b)] on integers, [b] non-zero. *)
Definition ceil_div (a b : Z) : Z := - ((- a) / b).

End JS.

(** ** Data model *)

Definition ObjectId := string.

Module User.
Record t := mk {
  _id : ObjectId;
  username : string;
  role : string            (* 'user' | 'admin' | 'moderator' *)
}.
End User.

Module Comment.
Record t := mk {
  user : ObjectId;
  content : string
}.
End Comment.

Module Post.
Record t := mk {
  _id : ObjectId;
  title : string;
  content : string;
  excerpt : string;
  slug : string;
  featuredImage : string;
  isPublished : bool;
  viewCount : Z;
  tags : list string;
  comments : list Comment.t;
  author : ObjectId;
  category : ObjectId;
  createdAt : Z
}.

Definition set_title (v : string) (p : t) : t :=
  mk (_id p) v (content p) (excerpt p) (slug p) (featuredImage p)
     (isPublished p) (viewCount p) (tags p) (comments p) (author p)
     (category p) (createdAt p).
Definition set_content (v : string) (p : t) : t :=
  mk (_id p) (title p) v (excerpt p) (slug p) (featuredImage p)
     (isPublished p) (viewCount p) (tags p) (comments p) (author p)
     (category p) (createdAt p).
Definition set_excerpt (v : string) (p : t) : t :=
  mk (_id p) (title p) (content p) v (slug p) (featuredImage p)
     (isPublished p) (viewCount p) (tags p) (comments p) (author p)
     (category p) (createdAt p).
Definition set_featuredImage (v : string) (p : t) : t :=
  mk (_id p) (title p) (content p) (excerpt p) (slug p) v
     (isPublished p) (viewCount p) (tags p) (comments p) (author p)
     (category p) (createdAt p).
Definition set_isPublished (v : bool) (p : t) : t :=
  mk (_id p) (title p) (content p) (excerpt p) (slug p) (featuredImage p)
     v (viewCount p) (tags p) (comments p) (author p)
     (category p) (createdAt p).
Definition set_viewCount (v : Z) (p : t) : t :=
  mk (_id p) (title p) (content p) (excerpt p) (slug p) (featuredImage p)
     (isPublished p) v (tags p) (comments p) (author p)
     (category p) (createdAt p).
Definition set_tags (v : list string) (p : t) : t :=
  mk (_id p) (title p) (content p) (excerpt p) (slug p) (featuredImage p)
     (isPublished p) (viewCount p) v (comments p) (author p)
     (category p) (createdAt p).
Definition set_comments (v : list Comment.t) (p : t) : t :=
  mk (_id p) (title p) (content p) (excerpt p) (slug p) (featuredImage p)
     (isPublished p) (viewCount p) (tags p) v (author p)
     (category p) (createdAt p).
Definition set_category (v : ObjectId) (p : t) : t :=
  mk (_id p) (title p) (content p) (excerpt p) (slug p) (featuredImage p)
     (isPublished p) (viewCount p) (tags p) (comments p) (author p)
     v (createdAt p).

(** The order the store puts two posts in when sorting on the field
    called [field]: numbers and dates numerically, strings and ids
    bytewise, [false] before [true].  A field that is absent from every
    post, or array-valued, is not ordered here: all posts tie on it. *)
Definition compare_field (field : string) (a b : t) : comparison :=
  if String.eqb field "createdAt" then Z.compare (createdAt a) (createdAt b)
  else if String.eqb field "viewCount" then Z.compare (viewCount a) (viewCount b)
  else if String.eqb field "title" then String.compare (title a) (title b)
  else if String.eqb field "content" then String.compare (content a) (content b)
  else if String.eqb field "excerpt" then String.compare (excerpt a) (excerpt b)
  else if String.eqb field "slug" then String.compare (slug a) (slug b)
  else if String.eqb field "featuredImage"
    then String.compare (featuredImage a) (featuredImage b)
  else if String.eqb field "_id" then String.compare (_id a) (_id b)
  else if String.eqb field "author" then String.compare (author a) (author b)
  else if String.eqb field "category" then String.compare (category a) (category b)
  else if String.eqb field "isPublished"
    then Bool.compare (isPublished a) (isPublished b)
  else Eq.
End Post.

Module Category.
Record t := mk {
  _id : ObjectId;
  name : string;
  description : string;
  color : string;
  icon : string;
  isActive : bool;
  slug : string
}.

Definition set_name (v : string) (c : t) : t :=
  mk (_id c) v (description c) (color c) (icon c) (isActive c) (slug c).
Definition set_description (v : string) (c : t) : t :=
  mk (_id c) (name c) v (color c) (icon c) (isActive c) (slug c).
Definition set_color (v : string) (c : t) : t :=
  mk (_id c) (name c) (description c) v (icon c) (isActive c) (slug c).
Definition set_icon (v : string) (c : t) : t :=
  mk (_id c) (name c) (description c) (color c) v (isActive c) (slug c).
Definition set_isActive (v : bool) (c : t) : t :=
  mk (_id c) (name c) (description c) (color c) (icon c) v (slug c).

Definition compare_name (a b : t) : comparison :=
  String.compare (name a) (name b).
End Category.

(** ** The document store and the handler monad *)

Record Store := mkStore {
  posts : list Post.t;
  categories : list Category.t;
  clock : Z;
  outages : list bool
}.

Definition with_posts (ps : list Post.t) (s : Store) : Store :=
  mkStore ps (categories s) (clock s) (outages s).
Definition with_categories (cs : list Category.t) (s : Store) : Store :=
  mkStore (posts s) cs (clock s) (outages s).
Definition with_outages (o : list bool) (s : Store) : Store :=
  mkStore (posts s) (categories s) (clock s) o.
Definition tick (s : Store) : Store :=
  mkStore (posts s) (categories s) (clock s + 1) (outages s).

Inductive Exn :=
  CastError | ValidationError | MongoError | SyntaxError | TypeError.

Inductive Outcome (A : Type) :=
| Done (a : A) (s : Store)
| Raised (e : Exn) (s : Store).
Arguments Done {A} a s.
Arguments Raised {A} e s.

Definition M (A : Type) := Store -> Outcome A.

Definition ret {A} (a : A) : M A := fun s => Done a s.
Definition throw {A} (e : Exn) : M A := fun s => Raised e s.
Definition bind {A B} (m : M A) (k : A -> M B) : M B :=
  fun s => match m s with
           | Done a s' => k a s'
           | Raised e s' => Raised e s'
           end.

Notation "x <- m ;; k" := (bind m (fun x => k))
  (at level 61, m at next level, right associativity).
Notation "m ;;; k" := (bind m (fun _ => k))
  (at level 61, right associativity).

(** One round trip to the store: the next entry of the outage script
    decides whether the driver rejects; an exhausted script never does. *)
Definition roundtrip {A} (op : Store -> A * Store) : M A :=
  fun s =>
    match outages s with
    | true :: rest => Raised MongoError (with_outages rest s)
    | false :: rest => let (a, s') := op (with_outages rest s) in Done a s'
    | [] => let (a, s') := op s in Done a s'
    end.

Definition query {A} (f : Store -> A) : M A := roundtrip (fun s => (f s, s)).

(** ** Generic list operations of the query layer *)

Fixpoint insert_by {A} (cmp : A -> A -> comparison) (x : A) (l : list A)
  : list A :=
  match l with
  | [] => [x]
  | y :: r =>
      match cmp x y with
      | Gt => y :: insert_by cmp x r
      | _ => x :: l
      end
  end.

(** A stable sort: ties keep their natural order. *)
Definition sort_by {A} (cmp : A -> A -> comparison) (l : list A) : list A :=
  fold_right (insert_by cmp) [] l.

(** [{ field: 1 }] sorts ascending, [{ field: -1 }] descending. *)
Definition directed {A} (cmp : A -> A -> comparison) (order : Z)
  : A -> A -> comparison :=
  fun a b => if order <? 0 then CompOpp (cmp a b) else cmp a b.

(** [.skip(skip).limit(limit)]; a negative limit is taken by magnitude. *)
Definition window {A} (skip limit : Z) (l : list A) : list A :=
  firstn (Z.to_nat (Z.abs limit)) (skipn (Z.to_nat skip) l).

Fixpoint assoc (k : string) (l : list (string * string)) : option string :=
  match l with
  | [] => None
  | (k', v) :: r => if String.eqb k k' then Some v else assoc k r
  end.

(** ** Requests and responses *)

Inductive Method := GET | POST | PUT | DELETE.

Module Body.
(** [req.body]: the fields the handlers destructure; [None] is
    [undefined]. *)
Record t := mk {
  title : option string;
  content : option string;
  excerpt : option string;
  category : option string;
  tags : option (list string);
  isPublished : option bool;
  name : option string;
  description : option string;
  color : option string;
  icon : option string;
  isActive : option bool
}.
Definition empty : t :=
  mk None None None None None None None None None None None.
End Body.

Module Req.
Record t := mk {
  method : Method;
  path : list string;                 (* the segments of the URL path *)
  params_id : string;                 (* req.params.id *)
  query : list (string * string);     (* req.query *)
  body : Body.t;                      (* req.body *)
  user : option User.t;               (* req.user, set by [protect] *)
  file : option string                (* req.file.filename *)
}.
Definition with_params_id (id : string) (r : t) : t :=
  mk (method r) (path r) id (query r) (body r) (user r) (file r).
Definition with_user (u : option User.t) (r : t) : t :=
  mk (method r) (path r) (params_id r) (query r) (body r) u (file r).
End Req.

Record Pagination := mkPagination {
  currentPage : Z;
  totalPages : Z;
  totalPosts : Z;
  postsPerPage : Z;
  hasNextPage : option bool;
  hasPrevPage : option bool;
  searched : option string              (* the [query] key of searchPosts *)
}.

Inductive Data :=
| Categories (cs : list Category.t)
| ACategory (c : Category.t)
| Posts (ps : list Post.t)
| APost (p : option Post.t)
| CategoryPosts (c : Category.t) (ps : list Post.t) (pg : Pagination).

Record FieldError := mkFieldError {
  field : string;
  message_of : string;
  value : option string
}.

(** The JSON object handed to [res.json]; [None] is an absent key. *)
Record Json := mkJson {
  success : bool;
  error : option string;
  errors : option (list FieldError);
  message : option string;
  data : option Data;
  pagination : option Pagination
}.

Record Response := mkResponse {
  status : Z;
  json : Json
}.

Definition failure (code : Z) (msg : string) : Response :=
  mkResponse code (mkJson false (Some msg) None None None None).
Definition ok_data (code : Z) (d : Data) : Response :=
  mkResponse code (mkJson true None None None (Some d) None).
Definition ok_page (d : Data) (pg : Pagination) : Response :=
  mkResponse 200 (mkJson true None None None (Some d) (Some pg)).
Definition ok_message (msg : string) : Response :=
  mkResponse 200 (mkJson true None None (Some msg) None None).

Definition server_error : Response := failure 500 "Server error".

Definition Handler := Req.t -> Store -> Response * Store.

(** [try { ... } catch (error) { console.error(...); res.status(500)... }] *)
Definition try_catch (m : M Response) : Store -> Response * Store :=
  fun s => match m s with
           | Done r s' => (r, s')
           | Raised _ s' => (server_error, s')
           end.

Definition show_number (z : Z) : string :=
  NilZero.string_of_int (Z.to_int z).

(** ** The query layer

    What the handlers ask of the object-document mapper, as far as they
    use it.  Regular expressions, slug derivation and identifier
    generation belong to the platform and are taken as parameters. *)

Record Platform := mkPlatform {
  (** does [new RegExp(pattern, 'i')] compile *)
  regex_valid : string -> bool;
  (** does the compiled pattern, flag [i], match somewhere in the subject *)
  regex_test : string -> string -> bool;
  slugify : string -> string;
  new_id : Z -> ObjectId
}.

(** A value compared with an ObjectId field: a string still to be cast,
    or an ObjectId read from a document. *)
Inductive IdArg := Raw (s : string) | Oid (o : ObjectId).

Definition castable (v : IdArg) : bool :=
  match v with
  | Raw s => JS.isObjectId s
  | Oid _ => true
  end.

Definition cast (v : IdArg) : ObjectId :=
  match v with
  | Raw s => JS.toLowerCase s
  | Oid o => o
  end.

Inductive TextField := Title | Content | Excerpt.

Definition text_of (f : TextField) (p : Post.t) : string :=
  match f with
  | Title => Post.title p
  | Content => Post.content p
  | Excerpt => Post.excerpt p
  end.

(** The conditions the post handlers put in a query object. *)
#[warnings="-register-all"]
Inductive Cond :=
| IsPublished (b : bool)                     (* { isPublished: b } *)
| IdIs (v : IdArg)                           (* { _id: v } *)
| SlugIs (s : string)                        (* { slug: s } *)
| CategoryIs (v : IdArg)                     (* { category: v } *)
| AuthorIs (v : IdArg)                       (* { author: v } *)
| Regex (f : TextField) (pattern : string)   (* { f: { $regex, $options: 'i' } } *)
| TagsInRegex (pattern : string)             (* { tags: { $in: [RegExp] } } *)
| And (cs : list Cond)                       (* { $and: [...] } *)
| Or (cs : list Cond).                       (* { $or: [...] } *)

(** The conditions the category handlers use. *)
Inductive CatCond :=
| CatIsActive (b : bool)
| CatIdIs (v : IdArg)
| CatSlugIs (s : string)
| CatNameIs (n : option string).

Section QueryLayer.

Context (P : Platform).

Fixpoint matches (c : Cond) (p : Post.t) : bool :=
  match c with
  | IsPublished b => Bool.eqb (Post.isPublished p) b
  | IdIs v => String.eqb (Post._id p) (cast v)
  | SlugIs s => String.eqb (Post.slug p) s
  | CategoryIs v => String.eqb (Post.category p) (cast v)
  | AuthorIs v => String.eqb (Post.author p) (cast v)
  | Regex f pat => regex_test P pat (text_of f p)
  | TagsInRegex pat => existsb (regex_test P pat) (Post.tags p)
  | And cs => forallb (fun c' => matches c' p) cs
  | Or cs => existsb (fun c' => matches c' p) cs
  end.

Fixpoint well_cast (c : Cond) : bool :=
  match c with
  | IdIs v | CategoryIs v | AuthorIs v => castable v
  | And cs | Or cs => forallb well_cast cs
  | _ => true
  end.

(** A query object is the conjunction of its keys. *)
Definition selects (q : list Cond) (p : Post.t) : bool :=
  forallb (fun c => matches c p) q.

Definition cat_matches (c : CatCond) (k : Category.t) : bool :=
  match c with
  | CatIsActive b => Bool.eqb (Category.isActive k) b
  | CatIdIs v => String.eqb (Category._id k) (cast v)
  | CatSlugIs s => String.eqb (Category.slug k) s
  | CatNameIs (Some n) => String.eqb (Category.name k) n
  | CatNameIs None => false
  end.

Definition cat_well_cast (c : CatCond) : bool :=
  match c with
  | CatIdIs v => castable v
  | _ => true
  end.

Definition casting {A} (ok : bool) (m : M A) : M A :=
  if ok then m else throw CastError.

(** [Post.find(q).sort({ [sortBy]: sortOrder }).skip(skip).limit(limit)];
    the store refuses a negative skip. *)
Definition Post_find (q : list Cond) (sortBy : string) (sortOrder : Z)
    (skip limit : Z) : M (list Post.t) :=
  casting (forallb well_cast q)
    (if skip <? 0 then throw MongoError
     else query (fun s =>
       window skip limit
         (sort_by (directed (Post.compare_field sortBy) sortOrder)
            (filter (selects q) (posts s))))).

Definition Post_countDocuments (q : list Cond) : M Z :=
  casting (forallb well_cast q)
    (query (fun s => Z.of_nat (List.length (filter (selects q) (posts s))))).

Definition Post_findOne (q : list Cond) : M (option Post.t) :=
  casting (forallb well_cast q)
    (query (fun s => find (selects q) (posts s))).

Definition Post_findById (id : IdArg) : M (option Post.t) :=
  Post_findOne [IdIs id].

Definition replace_post (p : Post.t) (ps : list Post.t) : list Post.t :=
  map (fun d => if String.eqb (Post._id d) (Post._id p) then p else d) ps.

(** [post.save()] on a document read from the store. *)
Definition Post_save (p : Post.t) : M Post.t :=
  roundtrip (fun s => (p, with_posts (replace_post p (posts s)) s)).

Definition Post_findByIdAndDelete (id : IdArg) : M unit :=
  casting (castable id)
    (roundtrip (fun s =>
       (tt, with_posts
              (filter (fun d => negb (String.eqb (Post._id d) (cast id)))
                 (posts s)) s))).

Definition Category_find_sorted (q : list CatCond) : M (list Category.t) :=
  casting (forallb cat_well_cast q)
    (query (fun s =>
       sort_by Category.compare_name
         (filter (fun k => forallb (fun c => cat_matches c k) q)
            (categories s)))).

Definition Category_findOne (q : list CatCond) : M (option Category.t) :=
  casting (forallb cat_well_cast q)
    (query (fun s =>
       find (fun k => forallb (fun c => cat_matches c k) q) (categories s))).

Definition Category_findById (id : IdArg) : M (option Category.t) :=
  Category_findOne [CatIdIs id].

Definition replace_category (c : Category.t) (cs : list Category.t)
  : list Category.t :=
  map (fun d => if String.eqb (Category._id d) (Category._id c)
                then c else d) cs.

Definition Category_save (c : Category.t) : M Category.t :=
  roundtrip (fun s =>
    (c, with_categories (replace_category c (categories s)) s)).

Definition Category_findByIdAndDelete (id : IdArg) : M unit :=
  casting (castable id)
    (roundtrip (fun s =>
       (tt, with_categories
              (filter (fun d => negb (String.eqb (Category._id d) (cast id)))
                 (categories s)) s))).

End QueryLayer.

(** ** The model layer

    [models/Post.js] and [models/Category.js] are not among the sources;
    the document methods and the creation defaults the controllers rely on
    are written from the specification. *)

Section Models.

Context (P : Platform).

(** Modelled from the spec: [post.incrementViewCount()] of the absent
    [models/Post.js]; "a post's view count increases by exactly one per
    read of a published post", stored with the document. *)
Definition Post_incrementViewCount (p : Post.t) : M Post.t :=
  Post_save (Post.set_viewCount (Post.viewCount p + 1) p).

(** Modelled from the spec: [post.addComment(user, content)] of the
    absent [models/Post.js]; a comment is "content plus a reference to
    the commenting User", embedded in the post and append-only. *)
Definition Post_addComment (p : Post.t) (user : ObjectId)
    (content : option string) : M Post.t :=
  match content with
  | None => throw ValidationError
  | Some c =>
      Post_save (Post.set_comments
                   (Post.comments p ++ [Comment.mk user c])%list p)
  end.

(** Modelled from the spec: [Post.create] with the schema of the absent
    [models/Post.js]; title, content and category are required, the slug
    is derived from the title, the view counter starts at zero and the
    comment list empty. *)
Definition Post_create (title content excerpt category : option string)
    (tags : list string) (isPublished : bool) (featuredImage : string)
    (author : ObjectId) : M Post.t :=
  match title, content, category with
  | Some t, Some c, Some cat =>
      casting (JS.isObjectId cat)
        (roundtrip (fun s =>
           let doc :=
             Post.mk (new_id P (clock s)) t c
               (match excerpt with Some e => e | None => "" end)
               (slugify P t) featuredImage isPublished 0 tags []
               author (JS.toLowerCase cat) (clock s) in
           (doc, tick (with_posts (posts s ++ [doc])%list s))))
  | _, _, _ => throw ValidationError
  end.

(** Modelled from the spec: [Category.create] with the schema of the
    absent [models/Category.js]; the name is required, a new category is
    active, and its slug is derived from its name. *)
Definition Category_create (name description color icon : option string)
  : M Category.t :=
  match name with
  | Some n =>
      roundtrip (fun s =>
        let opt o := match o with Some v => v | None => "" end in
        let doc :=
          Category.mk (new_id P (clock s)) n (opt description) (opt color)
            (opt icon) true (slugify P n) in
        (doc, tick (with_categories (categories s ++ [doc])%list s)))
  | None => throw ValidationError
  end.

End Models.

(** ** categoryController.js *)

Section CategoryController.

Context (P : Platform).

Definition page_of (req : Req.t) : Z :=
  JS.num_or (JS.parseInt (assoc "page" (Req.query req))) 1.
Definition limit_of (req : Req.t) : Z :=
  JS.num_or (JS.parseInt (assoc "limit" (Req.query req))) 10.

(** "Check if id is ObjectId or slug": the query of [getCategory] and
    [getPostsByCategory]. *)
Definition category_lookup (id : string) : list CatCond :=
  let isObjectId := JS.isObjectId id in
  if isObjectId then [CatIdIs (Raw id)] else [CatSlugIs id].

Definition getAllCategories : Handler := fun req =>
  try_catch (
    categories <- Category_find_sorted [CatIsActive true] ;;
    ret (ok_data 200 (Categories categories))).

Definition getCategory : Handler := fun req =>
  try_catch (
    let id := Req.params_id req in
    category <- Category_findOne (category_lookup id) ;;
    match category with
    | None => ret (failure 404 "Category not found")
    | Some category => ret (ok_data 200 (ACategory category))
    end).

Definition createCategory : Handler := fun req =>
  try_catch (
    let b := Req.body req in
    existingCategory <- Category_findOne [CatNameIs (Body.name b)] ;;
    match existingCategory with
    | Some _ => ret (failure 400 "Category with this name already exists")
    | None =>
        category <- Category_create P (Body.name b) (Body.description b)
                      (Body.color b) (Body.icon b) ;;
        ret (ok_data 201 (ACategory category))
    end).

Definition assign_if_truthy (v : option string)
    (set : string -> Category.t -> Category.t) (c : Category.t)
  : Category.t :=
  match v with
  | Some x => if JS.truthy v then set x c else c
  | None => c
  end.

Definition assign_if_defined {A} (v : option A)
    (set : A -> Category.t -> Category.t) (c : Category.t) : Category.t :=
  match v with
  | Some x => set x c
  | None => c
  end.

Definition updateCategory : Handler := fun req =>
  try_catch (
    let id := Req.params_id req in
    let b := Req.body req in
    category <- Category_findById (Raw id) ;;
    match category with
    | None => ret (failure 404 "Category not found")
    | Some category =>
        conflict <-
          match Body.name b with
          | Some name =>
              if (JS.truthy (Some name)
                  && negb (String.eqb name (Category.name category)))%bool
              then existingCategory <- Category_findOne [CatNameIs (Some name)] ;;
                   ret (match existingCategory with
                        | Some _ => true
                        | None => false
                        end)
              else ret false
          | None => ret false
          end ;;
        if (conflict : bool)
        then ret (failure 400 "Category with this name already exists")
        else
          let category := assign_if_truthy (Body.name b) Category.set_name category in
          let category :=
            assign_if_defined (Body.description b) Category.set_description category in
          let category := assign_if_truthy (Body.color b) Category.set_color category in
          let category := assign_if_truthy (Body.icon b) Category.set_icon category in
          let category :=
            assign_if_defined (Body.isActive b) Category.set_isActive category in
          updatedCategory <- Category_save category ;;
          ret (ok_data 200 (ACategory updatedCategory))
    end).

Definition deleteCategory : Handler := fun req =>
  try_catch (
    let id := Req.params_id req in
    category <- Category_findById (Raw id) ;;
    match category with
    | None => ret (failure 404 "Category not found")
    | Some _ =>
        postCount <- Post_countDocuments P [CategoryIs (Raw id)] ;;
        if postCount >? 0
        then ret (failure 400
                    ("Cannot delete category. It has " ++ show_number postCount
                     ++ " associated posts."))
        else
          Category_findByIdAndDelete (Raw id) ;;;
          ret (ok_message "Category deleted successfully")
    end).

Definition getPostsByCategory : Handler := fun req =>
  try_catch (
    let id := Req.params_id req in
    let page := page_of req in
    let limit := limit_of req in
    category <- Category_findOne (category_lookup id) ;;
    match category with
    | None => ret (failure 404 "Category not found")
    | Some category =>
        let skip := (page - 1) * limit in
        let q := [CategoryIs (Oid (Category._id category)); IsPublished true] in
        posts <- Post_find P q "createdAt" (-1) skip limit ;;
        total <- Post_countDocuments P q ;;
        let totalPages := JS.ceil_div total limit in
        ret (ok_data 200
               (CategoryPosts category posts
                  (mkPagination page totalPages total limit None None None)))
    end).

End CategoryController.

(** ** postController.js *)

Section PostController.

Context (P : Platform).

(** The [$or] over the four searchable fields, as both handlers write it. *)
Definition text_search (pattern : string) : Cond :=
  Or [Regex Title pattern; Regex Content pattern; Regex Excerpt pattern;
      TagsInRegex pattern].

(** [new RegExp(pattern, 'i')] throws on a pattern that does not compile. *)
Definition new_RegExp (pattern : string) : M unit :=
  if regex_valid P pattern then ret tt else throw SyntaxError.

(** [req.query.sortBy || 'createdAt'] *)
Definition sortBy_of (req : Req.t) : string :=
  match assoc "sortBy" (Req.query req) with
  | Some f => if JS.truthy (Some f) then f else "createdAt"
  | None => "createdAt"
  end.

(** [req.query.sortOrder === 'asc' ? 1 : -1] *)
Definition sortOrder_of (req : Req.t) : Z :=
  match assoc "sortOrder" (Req.query req) with
  | Some o => if String.eqb o "asc" then 1 else -1
  | None => -1
  end.

(** The "Build query" block of [getAllPosts]. *)
Definition build_query (req : Req.t) : M (list Cond) :=
  let category := assoc "category" (Req.query req) in
  let author := assoc "author" (Req.query req) in
  let search := assoc "search" (Req.query req) in
  let query := [IsPublished true] in
  let query :=
    match category with
    | Some c => if JS.truthy category then (query ++ [CategoryIs (Raw c)])%list
                else query
    | None => query
    end in
  let query :=
    match author with
    | Some a => if JS.truthy author then (query ++ [AuthorIs (Raw a)])%list
                else query
    | None => query
    end in
  match search with
  | Some t => if JS.truthy search
              then new_RegExp t ;;; ret (query ++ [text_search t])%list
              else ret query
  | None => ret query
  end.

Definition getAllPosts : Handler := fun req =>
  try_catch (
    let page := page_of req in
    let limit := limit_of req in
    let sortBy := sortBy_of req in
    let sortOrder := sortOrder_of req in
    query <- build_query req ;;
    let skip := (page - 1) * limit in
    posts <- Post_find P query sortBy sortOrder skip limit ;;
    total <- Post_countDocuments P query ;;
    let totalPages := JS.ceil_div total limit in
    let hasNextPage := page <? totalPages in
    let hasPrevPage := page >? 1 in
    ret (ok_page (Posts posts)
           (mkPagination page totalPages total limit
              (Some hasNextPage) (Some hasPrevPage) None))).

(** "Check if id is ObjectId or slug": the query of [getPost]. *)
Definition post_lookup (id : string) : list Cond :=
  let isObjectId := JS.isObjectId id in
  if isObjectId then [IdIs (Raw id)] else [SlugIs id].

Definition getPost : Handler := fun req =>
  try_catch (
    let id := Req.params_id req in
    post <- Post_findOne P (post_lookup id) ;;
    match post with
    | None => ret (failure 404 "Post not found")
    | Some post =>
        post <- (if Post.isPublished post
                 then Post_incrementViewCount post
                 else ret post) ;;
        ret (ok_data 200 (APost (Some post)))
    end).

Definition createPost : Handler := fun req =>
  try_catch (
    let b := Req.body req in
    let isPublished :=
      match Body.isPublished b with Some v => v | None => false end in
    let featuredImage :=
      match Req.file req with Some f => f | None => "default-post.jpg" end in
    let tags := match Body.tags b with Some ts => ts | None => [] end in
    match Req.user req with
    | None => throw TypeError
    | Some user =>
        post <- Post_create P (Body.title b) (Body.content b) (Body.excerpt b)
                  (Body.category b) tags isPublished featuredImage
                  (User._id user) ;;
        populatedPost <- Post_findById P (Oid (Post._id post)) ;;
        ret (ok_data 201 (APost populatedPost))
    end).

(** [post.author.toString() !== req.user._id.toString()
     && req.user.role !== 'admin'] *)
Definition not_author_nor_admin (post : Post.t) (user : User.t) : bool :=
  (negb (String.eqb (Post.author post) (User._id user))
   && negb (String.eqb (User.role user) "admin"))%bool.

Definition set_if_truthy (v : option string)
    (set : string -> Post.t -> Post.t) (p : Post.t) : Post.t :=
  match v with
  | Some x => if JS.truthy v then set x p else p
  | None => p
  end.

Definition set_if_defined {A} (v : option A)
    (set : A -> Post.t -> Post.t) (p : Post.t) : Post.t :=
  match v with
  | Some x => set x p
  | None => p
  end.

(** The assignments of [updatePost], in source order. *)
Definition apply_update (req : Req.t) (post : Post.t) : Post.t :=
  let b := Req.body req in
  let post := set_if_truthy (Body.title b) Post.set_title post in
  let post := set_if_truthy (Body.content b) Post.set_content post in
  let post := set_if_defined (Body.excerpt b) Post.set_excerpt post in
  let post :=
    set_if_truthy (Body.category b)
      (fun c => Post.set_category (JS.toLowerCase c)) post in
  let post := set_if_defined (Body.tags b) Post.set_tags post in
  let post := set_if_defined (Body.isPublished b) Post.set_isPublished post in
  set_if_defined (Req.file req) Post.set_featuredImage post.

(** A category that is assigned must cast to an ObjectId for the save to
    go through. *)
Definition category_casts (req : Req.t) : bool :=
  match Body.category (Req.body req) with
  | Some c => if JS.truthy (Some c) then JS.isObjectId c else true
  | None => true
  end.

Definition updatePost : Handler := fun req =>
  try_catch (
    let id := Req.params_id req in
    post <- Post_findById P (Raw id) ;;
    match post with
    | None => ret (failure 404 "Post not found")
    | Some post =>
        match Req.user req with
        | None => throw TypeError
        | Some user =>
            if not_author_nor_admin post user
            then ret (failure 403 "Not authorized to update this post")
            else
              let post := apply_update req post in
              updatedPost <- casting (category_casts req) (Post_save post) ;;
              populatedPost <- Post_findById P (Oid (Post._id updatedPost)) ;;
              ret (ok_data 200 (APost populatedPost))
        end
    end).

Definition deletePost : Handler := fun req =>
  try_catch (
    let id := Req.params_id req in
    post <- Post_findById P (Raw id) ;;
    match post with
    | None => ret (failure 404 "Post not found")
    | Some post =>
        match Req.user req with
        | None => throw TypeError
        | Some user =>
            if not_author_nor_admin post user
            then ret (failure 403 "Not authorized to delete this post")
            else
              Post_findByIdAndDelete (Raw id) ;;;
              ret (ok_message "Post deleted successfully")
        end
    end).

Definition addComment : Handler := fun req =>
  try_catch (
    let id := Req.params_id req in
    let content := Body.content (Req.body req) in
    post <- Post_findById P (Raw id) ;;
    match post with
    | None => ret (failure 404 "Post not found")
    | Some post =>
        match Req.user req with
        | None => throw TypeError
        | Some user =>
            Post_addComment post (User._id user) content ;;;
            updatedPost <- Post_findById P (Raw id) ;;
            ret (ok_data 200 (APost updatedPost))
        end
    end).

Definition searchPosts : Handler := fun req =>
  try_catch (
    let query := assoc "q" (Req.query req) in
    let page := page_of req in
    let limit := limit_of req in
    match query with
    | Some q =>
        if negb (JS.truthy query)
        then ret (failure 400 "Search query is required")
        else
          new_RegExp q ;;;
          let searchQuery := [And [IsPublished true; text_search q]] in
          let skip := (page - 1) * limit in
          posts <- Post_find P searchQuery "createdAt" (-1) skip limit ;;
          total <- Post_countDocuments P searchQuery ;;
          let totalPages := JS.ceil_div total limit in
          ret (ok_page (Posts posts)
                 (mkPagination page totalPages total limit None None (Some q)))
    | None => ret (failure 400 "Search query is required")
    end).

Definition getMyPosts : Handler := fun req =>
  try_catch (
    let page := page_of req in
    let limit := limit_of req in
    let skip := (page - 1) * limit in
    match Req.user req with
    | None => throw TypeError
    | Some user =>
        let q := [AuthorIs (Oid (User._id user))] in
        posts <- Post_find P q "createdAt" (-1) skip limit ;;
        total <- Post_countDocuments P q ;;
        let totalPages := JS.ceil_div total limit in
        ret (ok_page (Posts posts)
               (mkPagination page totalPages total limit None None None))
    end).

End PostController.

(** ** validation.js *)

(** An entry of [validationResult(req).array()]. *)
Record ValidationIssue := mkIssue {
  issue_path : string;
  issue_msg : string;
  issue_value : option string
}.

(** [handleValidationErrors]: [None] stands for the call to [next()]. *)
Definition handleValidationErrors (validationResult : list ValidationIssue)
  : option Response :=
  match validationResult with
  | [] => None
  | _ =>
      Some (mkResponse 400
              (mkJson false None
                 (Some (map (fun e => mkFieldError (issue_path e) (issue_msg e)
                                        (issue_value e))
                          validationResult))
                 None None None))
  end.

(** ** routes/posts.js *)

(** A middleware either answers or passes the request on with [next()]. *)
Inductive Step :=
| Answer (r : Response) (s : Store)
| Next (req : Req.t) (s : Store).

Definition Middleware := Req.t -> Store -> Step.

Definition final (h : Handler) : Middleware :=
  fun req s => let (r, s') := h req s in Answer r s'.

(** A validation array: the field chains, which sanitise the request and
    collect the issues, then [handleValidationErrors]. *)
Definition validating (chains : Req.t -> Req.t * list ValidationIssue)
  : Middleware :=
  fun req s =>
    let (req', issues) := chains req in
    match handleValidationErrors issues with
    | Some r => Answer r s
    | None => Next req' s
    end.

Inductive Segment := Lit (s : string) | Param.

Record Route := mkRoute {
  route_method : Method;
  route_path : list Segment;
  route_stack : list Middleware
}.

Definition method_eqb (a b : Method) : bool :=
  match a, b with
  | GET, GET | POST, POST | PUT, PUT | DELETE, DELETE => true
  | _, _ => false
  end.

(** Matching a route path against the segments of the URL; literals are
    compared without regard to case, [:id] takes any one segment.  The
    result is the value bound to [:id], if the pattern has one. *)
Fixpoint match_path (pat : list Segment) (url : list string)
  : option (option string) :=
  match pat, url with
  | [], [] => Some None
  | Lit l :: pat', seg :: url' =>
      if String.eqb (JS.toLowerCase l) (JS.toLowerCase seg)
      then match_path pat' url' else None
  | Param :: pat', seg :: url' =>
      match match_path pat' url' with
      | Some _ => Some (Some seg)
      | None => None
      end
  | _, _ => None
  end.

Fixpoint run_stack (stack : list Middleware) (req : Req.t) (s : Store) : Step :=
  match stack with
  | [] => Next req s
  | m :: rest =>
      match m req s with
      | Answer r s' => Answer r s'
      | Next req' s' => run_stack rest req' s'
      end
  end.

(** Routes are tried in registration order; a stack that ends in [next()]
    hands over to the routes registered after it.  [None]: no route of
    this router answered. *)
Fixpoint dispatch (routes : list Route) (req : Req.t) (s : Store)
  : option (Response * Store) :=
  match routes with
  | [] => None
  | r :: rest =>
      if method_eqb (route_method r) (Req.method req)
      then match match_path (route_path r) (Req.path req) with
           | Some binding =>
               let req' := match binding with
                           | Some id => Req.with_params_id id req
                           | None => req
                           end in
               match run_stack (route_stack r) req' s with
               | Answer resp s' => Some (resp, s')
               | Next req'' s' => dispatch rest req'' s'
               end
           | None => dispatch rest req s
           end
      else dispatch rest req s
  end.

Section PostRoutes.

Context (P : Platform).

(** [protect] and [uploadSingle] come from middleware modules that are
    not among the sources; the validation chains are built by the
    validator library from the rules of [validation.js]. *)
Context (protect uploadSingle : Middleware).
Context (validatePost_chains validateComment_chains
           : Req.t -> Req.t * list ValidationIssue).

Definition validatePost := validating validatePost_chains.
Definition validateComment := validating validateComment_chains.

Definition router : list Route :=
  [ mkRoute GET [] [final (getAllPosts P)];
    mkRoute GET [Lit "search"] [final (searchPosts P)];
    mkRoute GET [Param] [final (getPost P)];
    mkRoute GET [Lit "my-posts"] [protect; final (getMyPosts P)];
    mkRoute POST [] [protect; uploadSingle; validatePost; final (createPost P)];
    mkRoute PUT [Param]
      [protect; uploadSingle; validatePost; final (updatePost P)];
    mkRoute DELETE [Param] [protect; final (deletePost P)];
    mkRoute POST [Param; Lit "comments"]
      [protect; validateComment; final (addComment P)] ].

End PostRoutes.

(** ** The handlers by name *)

Inductive Endpoint :=
| GetAllCategories | GetCategory | CreateCategory | UpdateCategory
| DeleteCategory | GetPostsByCategory
| GetAllPosts | GetPost | CreatePost | UpdatePost | DeletePost
| AddComment | SearchPosts | GetMyPosts.

Definition handler_of (P : Platform) (e : Endpoint) : Handler :=
  match e with
  | GetAllCategories => getAllCategories
  | GetCategory => getCategory
  | CreateCategory => createCategory P
  | UpdateCategory => updateCategory
  | DeleteCategory => deleteCategory P
  | GetPostsByCategory => getPostsByCategory P
  | GetAllPosts => getAllPosts P
  | GetPost => getPost P
  | CreatePost => createPost P
  | UpdatePost => updatePost P
  | DeletePost => deletePost P
  | AddComment => addComment P
  | SearchPosts => searchPosts P
  | GetMyPosts => getMyPosts P
  end.

(** ** Vocabulary of the statements *)

(** The response envelope: an error status carries [success: false] and an
    [error] string or an [errors] array; any other status carries
    [success: true]. *)
Definition envelope_ok (r : Response) : bool :=
  if 400 <=? status r
  then (negb (success (json r))
        && (match error (json r) with Some _ => true | None => false end
            || match errors (json r) with Some _ => true | None => false end))%bool
  else success (json r).

(** No round trip of the request is rejected by the store. *)
Definition calm (s : Store) : Prop := outages s = [].

Definition stored_post (id : ObjectId) (s : Store) : option Post.t :=
  find (fun p => String.eqb (Post._id p) id) (posts s).

Definition stored_category (id : ObjectId) (s : Store) : option Category.t :=
  find (fun c => String.eqb (Category._id c) id) (categories s).

(** The posts that reference the category [c]. *)
Definition referencing (c : Category.t) (s : Store) : list Post.t :=
  filter (fun p => String.eqb (Post.category p) (Category._id c)) (posts s).

(** Whatever [m] returns, when it returns, satisfies [Q]. *)
Definition always {A} (m : M A) (Q : A -> Prop) : Prop :=
  forall s, match m s with
            | Done a _ => Q a
            | Raised _ _ => True
            end.

(** The documents a query object selects from the posts of a store. *)
Definition matching (P : Platform) (q : list Cond) (s : Store) : list Post.t :=
  filter (selects P q) (posts s).

(** The two round trips every paginated handler makes, a page of the
    sorted selection and then its total count, answered through [k]. *)
Definition listing (P : Platform) (q : list Cond) (sortBy : string)
    (sortOrder skip limit : Z) (k : list Post.t -> Z -> Response)
  : M Response :=
  posts <- Post_find P q sortBy sortOrder skip limit ;;
  total <- Post_countDocuments P q ;;
  ret (k posts total).

(** The page the store hands back for a selection. *)
Definition page_of_selection (sortBy : string) (sortOrder skip limit : Z)
    (sel : list Post.t) : list Post.t :=
  window skip limit
    (sort_by (directed (Post.compare_field sortBy) sortOrder) sel).

(** Two responses that agree on everything both endpoints report. *)
Definition same_page (r1 r2 : Response) : Prop :=
  status r1 = status r2
  /\ data (json r1) = data (json r2)
  /\ option_map currentPage (pagination (json r1))
     = option_map currentPage (pagination (json r2))
  /\ option_map totalPages (pagination (json r1))
     = option_map totalPages (pagination (json r2))
  /\ option_map totalPosts (pagination (json r1))
     = option_map totalPosts (pagination (json r2)).

(** The store after [n] successive reads of the same single-post request. *)
Fixpoint read_times (P : Platform) (req : Req.t) (n : nat) (s : Store) : Store :=
  match n with
  | O => s
  | S k => read_times P req k (snd (getPost P req s))
  end.

Definition newest_first (ps : list Post.t) : list Post.t :=
  sort_by (directed (Post.compare_field "createdAt") (-1)) ps.

Definition name_le (a b : Category.t) : Prop :=
  String.leb (Category.name a) (Category.name b) = true.

(** The search filter in the words of the specification: the published
    posts whose title, content, excerpt or some tag matches the text
    without regard to case. *)
Definition spec_search_match (P : Platform) (text : string) (p : Post.t) : bool :=
  (Post.isPublished p
   && (regex_test P text (Post.title p)
       || regex_test P text (Post.content p)
       || regex_test P text (Post.excerpt p)
       || existsb (regex_test P text) (Post.tags p)))%bool.

Definition tag_match (P : Platform) (text : string) (p : Post.t) : bool :=
  (Post.isPublished p && existsb (regex_test P text) (Post.tags p))%bool.

(** ** A concrete platform and store, for evaluation *)

Module Demo.

Fixpoint contains (pat subject : string) : bool :=
  match subject with
  | EmptyString => String.prefix pat subject
  | String _ r => (String.prefix pat subject || contains pat r)%bool
  end.

Definition literal (c : ascii) : bool :=
  (JS.is_digit c || JS.is_upper c || JS.is_lower c
   || Nat.eqb (nat_of_ascii c) 32 || Nat.eqb (nat_of_ascii c) 45)%bool.

Definition dash (c : ascii) : ascii :=
  if Nat.eqb (nat_of_ascii c) 32 then "-"%char else JS.to_lower_ascii c.

Fixpoint map_chars (f : ascii -> ascii) (s : string) : string :=
  match s with
  | EmptyString => EmptyString
  | String c r => String (f c) (map_chars f r)
  end.

Fixpoint zeros (n : nat) : string :=
  match n with
  | O => EmptyString
  | S k => String "0" (zeros k)
  end.

Definition numbered (prefix : string) (z : Z) : ObjectId :=
  let d := show_number (Z.abs z mod 100000000) in
  prefix ++ zeros (8 - String.length d) ++ d.

(** Patterns restricted to literal text, where matching with flag [i]
    is containment without regard to case. *)
Definition platform : Platform :=
  mkPlatform (JS.all_chars literal)
    (fun pat subject => contains (JS.toLowerCase pat) (JS.toLowerCase subject))
    (map_chars dash)
    (numbered "65f0000000000000").

Definition alice := User.mk "aaaaaaaaaaaaaaaaaaaaaaa1" "alice" "user".
Definition bob := User.mk "aaaaaaaaaaaaaaaaaaaaaaa2" "bob" "user".
Definition carol := User.mk "aaaaaaaaaaaaaaaaaaaaaaa3" "carol" "admin".

Definition tech :=
  Category.mk "cccccccccccccccccccccc01" "Tech" "" "#000000" "cpu" true "tech".
Definition news :=
  Category.mk "cccccccccccccccccccccc02" "News" "" "#ffffff" "rss" false "news".
Definition art :=
  Category.mk "cccccccccccccccccccccc03" "Art" "" "#ff0000" "pen" true "art".

Definition hello :=
  Post.mk "bbbbbbbbbbbbbbbbbbbbbb01" "Hello world" "A first entry here"
    "greeting" "hello-world" "default-post.jpg" true 5 ["intro"; "Rocq"] []
    (User._id alice) (Category._id tech) 100.
Definition draft :=
  Post.mk "bbbbbbbbbbbbbbbbbbbbbb02" "Unfinished" "Nothing to see yet"
    "" "unfinished" "default-post.jpg" false 0 ["wip"] []
    (User._id alice) (Category._id tech) 200.
Definition garden :=
  Post.mk "bbbbbbbbbbbbbbbbbbbbbb03" "Garden notes" "Tomatoes and beans"
    "" "garden-notes" "garden.png" true 2 ["plants"; "rocq"] []
    (User._id bob) (Category._id tech) 300.
(** A post whose slug is itself twenty-four hexadecimal characters. *)
Definition hexed :=
  Post.mk "bbbbbbbbbbbbbbbbbbbbbb04" "abcdefabcdefabcdefabcdef" "Hexadecimal title"
    "" "abcdefabcdefabcdefabcdef" "default-post.jpg" true 0 [] []
    (User._id bob) (Category._id tech) 400.

Definition store : Store :=
  mkStore [hello; draft; garden; hexed] [tech; news; art] 500 [].

Definition request (m : Method) (path : list string) (id : string)
    (q : list (string * string)) (u : option User.t) : Req.t :=
  Req.mk m path id q Body.empty u None.

Definition pass : Middleware := fun req s => Next req s.

(** The post router with middleware that lets every request through. *)
Definition open_router : list Route :=
  router platform pass pass (fun r => (r, [])) (fun r => (r, [])).

End Demo.

(** ** routes/categories.js *)

Section CategoryRoutes.

Context (P : Platform).

(** [protect] and [authorize] come from the middleware module that is not
    among the sources; [authorize] is applied to the role it admits. *)
Context (protect : Middleware) (authorize : string -> Middleware).
Context (validateCategory_chains : Req.t -> Req.t * list ValidationIssue).

Definition validateCategory := validating validateCategory_chains.

Definition category_router : list Route :=
  [ mkRoute GET [] [final getAllCategories];
    mkRoute GET [Param] [final getCategory];
    mkRoute GET [Param; Lit "posts"] [final (getPostsByCategory P)];
    mkRoute POST []
      [protect; authorize "admin"; validateCategory; final (createCategory P)];
    mkRoute PUT [Param]
      [protect; authorize "admin"; validateCategory; final updateCategory];
    mkRoute DELETE [Param]
      [protect; authorize "admin"; final (deleteCategory P)] ].

End CategoryRoutes.

(** ** Frames for the handler monad *)

(** [m] leaves the stored posts and categories as they are, whether it
    returns or throws. *)
Definition keeps {A} (m : M A) : Prop :=
  forall s, match m s with
            | Done _ s' | Raised _ s' =>
                posts s' = posts s /\ categories s' = categories s
            end.

(** When [m] returns a response with a client-error status, the stored
    posts and categories are as they were. *)
Definition rejects_cleanly (m : M Response) : Prop :=
  forall s, match m s with
            | Done r s' =>
                400 <= status r < 500 ->
                posts s' = posts s /\ categories s' = categories s
            | Raised _ _ => True
            end.

(** ** client/src/context/AuthContext.jsx *)

Module AuthContext.

Record State := mkState {
  user : option User.t;
  isAuthenticated : bool;
  loading : bool
}.

Definition initialState : State := mkState None false true.

(** The actions by their [type]; [Unknown] stands for any other type. *)
Inductive Action :=
| LOGIN_SUCCESS (payload_user : option User.t)
| LOGIN_FAIL
| LOGOUT
| UPDATE_USER (payload_user : option User.t)
| SET_LOADING (payload : bool)
| Unknown (type : string).

Definition authReducer (state : State) (action : Action) : State :=
  match action with
  | LOGIN_SUCCESS u => mkState u true false
  | LOGIN_FAIL | LOGOUT => mkState None false false
  | UPDATE_USER u => mkState u (isAuthenticated state) (loading state)
  | SET_LOADING b => mkState (user state) (isAuthenticated state) b
  | Unknown _ => state
  end.

(** The state after a sequence of dispatched actions. *)
Definition dispatch_all (state : State) (actions : list Action) : State :=
  fold_left authReducer actions state.

(** What a call to [authService] comes to: a response object
    [{ success, data, error }], or a rejection whose
    [error.response?.data?.error] is given. *)
Inductive Reply :=
| Responded (success : bool) (data : option User.t) (error : option string)
| Rejected (error : option string).

(** What [login], [register] and [updateProfile] return. *)
Record Result := mkResult {
  result_success : bool;
  result_error : option string
}.

(** [e || fallback] on a possibly undefined string. *)
Definition or_default (e : option string) (fallback : string) : string :=
  match e with
  | Some m => if JS.truthy e then m else fallback
  | None => fallback
  end.

(** [login] and [register] differ in the service they call and in the
    fallback message only. *)
Definition sign_in (fallback : string) (reply : Reply) (state : State)
  : State * Result :=
  let state := authReducer state (SET_LOADING true) in
  match reply with
  | Responded true data _ =>
      (authReducer state (LOGIN_SUCCESS data), mkResult true None)
  | Responded false _ error =>
      (authReducer state LOGIN_FAIL, mkResult false error)
  | Rejected error =>
      (authReducer state LOGIN_FAIL,
       mkResult false (Some (or_default error fallback)))
  end.

Definition login : Reply -> State -> State * Result := sign_in "Login failed".
Definition register : Reply -> State -> State * Result :=
  sign_in "Registration failed".

Definition updateProfile (reply : Reply) (state : State) : State * Result :=
  match reply with
  | Responded true data _ =>
      (authReducer state (UPDATE_USER data), mkResult true None)
  | Responded false _ error => (state, mkResult false error)
  | Rejected error =>
      (state, mkResult false (Some (or_default error "Update failed")))
  end.

(** [localStorage] as the list of its entries. *)
Definition Storage := list (string * string).

Fixpoint removeItem (k : string) (st : Storage) : Storage :=
  match st with
  | [] => []
  | (k', v) :: r =>
      if String.eqb k k' then removeItem k r else (k', v) :: removeItem k r
  end.

(** [checkAuth], run once when the provider mounts; [reply] is what
    [authService.getCurrentUser()] comes to if it is called. *)
Definition checkAuth (reply : Reply) (storage : Storage) (state : State)
  : Storage * State :=
  let token := assoc "token" storage in
  let (storage, state) :=
    if JS.truthy token
    then match reply with
         | Responded true data _ =>
             (storage, authReducer state (LOGIN_SUCCESS data))
         | Responded false _ _ | Rejected _ =>
             (removeItem "user" (removeItem "token" storage), state)
         end
    else (storage, state) in
  (storage, authReducer state (SET_LOADING false)).

End AuthContext.

(** ** client/src/pages/CreatePost.jsx: the tag editor *)

Module CreatePost.

Fixpoint trimEnd (s : string) : string :=
  match s with
  | EmptyString => EmptyString
  | String c r =>
      match trimEnd r with
      | EmptyString => if JS.is_ws c then EmptyString else String c EmptyString
      | r' => String c r'
      end
  end.

(** [s.trim()], on ASCII white space. *)
Definition trim (s : string) : string := trimEnd (JS.trim_start s).

(** [tags.includes(t)] *)
Definition includes (t : string) (tags : list string) : bool :=
  existsb (String.eqb t) tags.

Record State := mkState {
  tags : list string;
  currentTag : string
}.

Definition setCurrentTag (v : string) (st : State) : State :=
  mkState (tags st) v.

Definition handleAddTag (st : State) : State :=
  if (JS.truthy (Some (trim (currentTag st)))
      && negb (includes (trim (currentTag st)) (tags st)))%bool
  then mkState (tags st ++ [trim (currentTag st)])%list ""
  else st.

Definition handleRemoveTag (tagToRemove : string) (st : State) : State :=
  mkState (filter (fun tag => negb (String.eqb tag tagToRemove)) (tags st))
    (currentTag st).

(** What the user does on the tag editor. *)
Inductive Event :=
| Type_ (v : string)
| Add
| Remove (tag : string).

Definition step (st : State) (e : Event) : State :=
  match e with
  | Type_ v => setCurrentTag v st
  | Add => handleAddTag st
  | Remove t => handleRemoveTag t st
  end.

Definition initial : State := mkState [] "".

End CreatePost.

(** ** Reading an update off its body *)

(** [v] when it is a non-empty string, else [old]: the effect of
    [if (v) x = v]. *)
Definition nonblank_or (v : option string) (old : string) : string :=
  match v with
  | Some (String c r) => String c r
  | _ => old
  end.

(** [v] when it is defined, else [old]: the effect of
    [if (v !== undefined) x = v]. *)
Definition given_or {A} (v : option A) (old : A) : A :=
  match v with
  | Some x => x
  | None => old
  end.

(** ** The statuses of the interface *)

(** The statuses each handler can answer with. *)
Definition statuses_of (e : Endpoint) : list Z :=
  match e with
  | GetAllCategories | GetAllPosts | GetMyPosts => [200; 500]
  | GetCategory | GetPostsByCategory | GetPost | AddComment => [200; 404; 500]
  | CreateCategory => [201; 400; 500]
  | UpdateCategory | DeleteCategory => [200; 400; 404; 500]
  | CreatePost => [201; 500]
  | UpdatePost | DeletePost => [200; 403; 404; 500]
  | SearchPosts => [200; 400; 500]
  end.

(** ** A store with more matches than a page holds *)

Module Crowd.

(** A published post whose only occurrence of [rocq] is its tag. *)
Definition tagged (n : Z) : Post.t :=
  Post.mk (Demo.numbered "bbbbbbbbbbbbbbbb" n) "Entry" "Some body text" ""
    "entry" "default-post.jpg" true 0 ["rocq"] []
    (User._id Demo.alice) (Category._id Demo.tech) n.

Definition store : Store :=
  mkStore (map tagged [1; 2; 3; 4; 5; 6; 7; 8; 9; 10; 11]) [Demo.tech] 100 [].

(** [GET /api/posts/search?q=rocq], with neither page nor limit. *)
Definition search : Req.t :=
  Demo.request GET ["search"] "" [("q", "rocq")] None.

End Crowd.

(** ** The same text asked of both endpoints, the list one oldest first *)

Module Ordered.

(** [GET /api/posts?search=rocq&sortOrder=asc&limit=1] *)
Definition by_list : Req.t :=
  Demo.request GET [] ""
    [("search", "rocq"); ("sortOrder", "asc"); ("limit", "1")] None.

(** [GET /api/posts/search?q=rocq&limit=1] *)
Definition by_search : Req.t :=
  Demo.request GET ["search"] "" [("q", "rocq"); ("limit", "1")] None.

End Ordered.

(** * Properties *)

(** ** The built-ins on sample inputs *)

Example parseInt_examples :
  JS.parseInt (Some " 12px") = JS.Num 12
  /\ JS.parseInt (Some "0x1f") = JS.Num 31
  /\ JS.parseInt (Some "-3") = JS.Num (-3)
  /\ JS.parseInt (Some "abc") = JS.NaN
  /\ JS.parseInt None = JS.NaN.
Proof. repeat split. Qed.

Example page_defaults :
  page_of (Demo.request GET [] "" [] None) = 1
  /\ limit_of (Demo.request GET [] "" [] None) = 10
  /\ page_of (Demo.request GET [] "" [("page", "0")] None) = 1
  /\ limit_of (Demo.request GET [] "" [("limit", "25")] None) = 25.
Proof. repeat split. Qed.

Example ceil_div_examples :
  JS.ceil_div 7 2 = 4 /\ JS.ceil_div 8 2 = 4 /\ JS.ceil_div 0 10 = 0.
Proof. repeat split. Qed.

Example isObjectId_examples :
  JS.isObjectId "0123456789abcdefABCDEF01" = true
  /\ JS.isObjectId "my-posts" = false
  /\ JS.isObjectId "0123456789abcdefABCDEF0g" = false.
Proof. repeat split. Qed.

Example route_matching :
  match_path [Param] ["my-posts"] = Some (Some "my-posts")
  /\ match_path [Lit "search"] ["Search"] = Some None
  /\ match_path [Param; Lit "comments"] ["abc"] = None.
Proof. repeat split. Qed.

(** ** The handler monad *)

Lemma always_ret {A} (a : A) (Q : A -> Prop) : Q a -> always (ret a) Q.
Proof. intros H s. exact H. Qed.

Lemma always_throw {A} (e : Exn) (Q : A -> Prop) : always (throw e) Q.
Proof. intros s. exact I. Qed.

Lemma always_bind {A B} (m : M A) (k : A -> M B) (Q : B -> Prop) :
  (forall a, always (k a) Q) -> always (bind m k) Q.
Proof.
  intros H s. unfold bind. destruct (m s) as [a s'|e s']; [apply H | exact I].
Qed.

Lemma always_casting {A} (ok : bool) (m : M A) (Q : A -> Prop) :
  always m Q -> always (casting ok m) Q.
Proof. destruct ok; simpl; [trivial | intros _; apply always_throw]. Qed.

Lemma try_catch_envelope (m : M Response) :
  always m (fun r => envelope_ok r = true) ->
  forall s, envelope_ok (fst (try_catch m s)) = true.
Proof.
  intros H s. unfold try_catch. specialize (H s).
  destruct (m s); [exact H | reflexivity].
Qed.

Ltac envelope_step :=
  first
    [ apply always_ret; reflexivity
    | apply always_throw
    | apply always_bind; intros
    | apply always_casting
    | match goal with
      | |- always (match ?x with _ => _ end) _ => destruct x
      end ].

Ltac envelopes := cbv beta zeta; repeat (envelope_step; cbv beta zeta).

Lemma envelope_categories (P : Platform) (req : Req.t) (s : Store) :
  envelope_ok (fst (getAllCategories req s)) = true
  /\ envelope_ok (fst (getCategory req s)) = true
  /\ envelope_ok (fst (createCategory P req s)) = true
  /\ envelope_ok (fst (updateCategory req s)) = true
  /\ envelope_ok (fst (deleteCategory P req s)) = true
  /\ envelope_ok (fst (getPostsByCategory P req s)) = true.
Proof.
  repeat split; apply try_catch_envelope; envelopes.
Qed.

Lemma envelope_posts (P : Platform) (req : Req.t) (s : Store) :
  envelope_ok (fst (getAllPosts P req s)) = true
  /\ envelope_ok (fst (getPost P req s)) = true
  /\ envelope_ok (fst (createPost P req s)) = true
  /\ envelope_ok (fst (updatePost P req s)) = true
  /\ envelope_ok (fst (deletePost P req s)) = true
  /\ envelope_ok (fst (addComment P req s)) = true
  /\ envelope_ok (fst (searchPosts P req s)) = true
  /\ envelope_ok (fst (getMyPosts P req s)) = true.
Proof.
  repeat split; apply try_catch_envelope; envelopes.
Qed.

(** ** The stable sort of the query layer *)

Section Sorting.

Context {A : Type} (cmp : A -> A -> comparison).

Lemma insert_by_perm (x : A) (l : list A) :
  Permutation (insert_by cmp x l) (x :: l).
Proof.
  induction l as [|y r IH]; simpl; [reflexivity|].
  destruct (cmp x y); try reflexivity.
  rewrite IH. apply perm_swap.
Qed.

Lemma sort_by_perm (l : list A) : Permutation (sort_by cmp l) l.
Proof.
  induction l as [|x r IH]; simpl; [reflexivity|].
  rewrite insert_by_perm. now constructor.
Qed.

Lemma sort_by_length (l : list A) :
  List.length (sort_by cmp l) = List.length l.
Proof. apply Permutation_length, sort_by_perm. Qed.

Lemma sort_by_In (x : A) (l : list A) : In x (sort_by cmp l) <-> In x l.
Proof.
  split; apply Permutation_in;
    [apply sort_by_perm | apply Permutation_sym, sort_by_perm].
Qed.

Let le (a b : A) : Prop := cmp a b <> Gt.

Hypothesis cmp_swap : forall a b, cmp a b = Gt -> cmp b a <> Gt.

Lemma insert_by_sorted (x : A) (l : list A) :
  Sorted le l -> Sorted le (insert_by cmp x l).
Proof.
  induction 1 as [|y r Hr IH Hd]; simpl.
  - repeat constructor.
  - destruct (cmp x y) eqn:E.
    + repeat constructor; trivial. unfold le. congruence.
    + repeat constructor; trivial. unfold le. congruence.
    + constructor; [exact IH|].
      destruct Hd as [|z r' Hz]; simpl.
      * constructor. now apply cmp_swap.
      * destruct (cmp x z); constructor; trivial; now apply cmp_swap.
Qed.

Lemma sort_by_sorted (l : list A) : Sorted le (sort_by cmp l).
Proof.
  induction l as [|x r IH]; simpl; [constructor|].
  now apply insert_by_sorted.
Qed.

End Sorting.

Lemma ascii_compare_trans_le (a b c : ascii) :
  Ascii.compare a b <> Gt -> Ascii.compare b c <> Gt -> Ascii.compare a c <> Gt.
Proof.
  unfold Ascii.compare. rewrite !N.compare_le_iff. apply N.le_trans.
Qed.

Lemma ascii_compare_refl (a : ascii) : Ascii.compare a a = Eq.
Proof. unfold Ascii.compare. apply N.compare_refl. Qed.

Lemma string_leb_trans (s1 s2 s3 : string) :
  String.leb s1 s2 = true -> String.leb s2 s3 = true -> String.leb s1 s3 = true.
Proof.
  unfold String.leb. revert s2 s3.
  induction s1 as [|a s1 IH]; intros [|b s2] [|c s3]; simpl;
    try congruence; try reflexivity.
  intros H12 H23.
  destruct (Ascii.compare a b) eqn:Eab; try discriminate.
  - apply Ascii.compare_eq_iff in Eab. subst b.
    destruct (Ascii.compare a c) eqn:Eac; try discriminate; trivial.
    now apply IH with s2.
  - destruct (Ascii.compare b c) eqn:Ebc; try discriminate.
    + apply Ascii.compare_eq_iff in Ebc. subst c. now rewrite Eab.
    + assert (Hac : Ascii.compare a c <> Gt)
        by (apply ascii_compare_trans_le with b; congruence).
      destruct (Ascii.compare a c) eqn:Eac; trivial; [|congruence].
      apply Ascii.compare_eq_iff in Eac. subst c.
      rewrite Ascii.compare_antisym, Eab in Ebc. discriminate.
Qed.

Lemma name_le_trans (a b c : Category.t) :
  name_le a b -> name_le b c -> name_le a c.
Proof. unfold name_le. apply string_leb_trans. Qed.

Lemma sorted_names (cs : list Category.t) :
  StronglySorted name_le (sort_by Category.compare_name cs).
Proof.
  apply Sorted_StronglySorted; [exact name_le_trans|].
  assert (H : Sorted (fun a b => Category.compare_name a b <> Gt)
                (sort_by Category.compare_name cs)).
  { apply sort_by_sorted. intros a b. unfold Category.compare_name.
    rewrite (String.compare_antisym (Category.name b)).
    intros ->. discriminate. }
  revert H. generalize (sort_by Category.compare_name cs).
  induction 1 as [|y r Hr IH Hd]; constructor; trivial.
  destruct Hd; constructor.
  unfold name_le, String.leb. unfold Category.compare_name in *.
  now destruct (String.compare (Category.name y) (Category.name b)).
Qed.

(** C10: the list-all-categories operation returns exactly the categories
    whose [isActive] flag is true, sorted by name in ascending order; a
    category with [isActive = false] is never in its result.  Unless the
    store rejects the round trip, the operation answers with that list. *)
Theorem getAllCategories_active_by_name (req : Req.t) (s : Store) :
  (hd false (outages s) = false ->
   exists cs, fst (getAllCategories req s) = ok_data 200 (Categories cs))
  /\ (forall cs,
        data (json (fst (getAllCategories req s))) = Some (Categories cs) ->
        Forall (fun c => Category.isActive c = true) cs
        /\ StronglySorted name_le cs
        /\ Permutation cs (filter Category.isActive (categories s))
        /\ (forall c, Category.isActive c = false -> ~ In c cs)).
Proof.
  assert (Hflt : forall l,
            filter (fun k => forallb (fun c => cat_matches c k) [CatIsActive true]) l
            = filter Category.isActive l).
  { intros l. apply filter_ext. intros k. simpl.
    now destruct (Category.isActive k). }
  unfold getAllCategories, try_catch, bind, Category_find_sorted, casting,
    query, roundtrip, ret.
  change (forallb cat_well_cast [CatIsActive true]) with true. cbv iota.
  destruct s as [ps cs ck [|[] o]];
    cbv beta iota delta [outages categories with_outages posts clock];
    rewrite ?Hflt;
    cbv beta iota delta [fst hd json data ok_data server_error failure];
    (split; [intros Hcalm|intros l Hl]);
    try discriminate; try (eexists; reflexivity).
  all: injection Hl as <-.
  all: assert (Hperm := sort_by_perm Category.compare_name
                          (filter Category.isActive cs)).
  all: assert (Hin : forall c, In c (sort_by Category.compare_name
                                       (filter Category.isActive cs)) ->
                               Category.isActive c = true)
         by (intros c Hc; apply (Permutation_in _ Hperm) in Hc;
             now apply filter_In in Hc).
  all: repeat split; [now apply Forall_forall | apply sorted_names | exact Hperm
                     | intros c Hc Hc'; apply Hin in Hc'; congruence].
Qed.

Lemma getAllCategories_active_by_name_witness :
  hd false (outages Demo.store) = false
  /\ exists cs,
       fst (getAllCategories (Demo.request GET [] "" [] None) Demo.store)
       = ok_data 200 (Categories cs).
Proof.
  split; [reflexivity|].
  apply (proj1 (getAllCategories_active_by_name
                  (Demo.request GET [] "" [] None) Demo.store)).
  reflexivity.
Defined.

(** ** The response envelope *)

Lemma envelope_ok_spec (r : Response) :
  envelope_ok r = true ->
  (400 <= status r ->
   success (json r) = false
   /\ ((exists m, error (json r) = Some m) \/ exists l, errors (json r) = Some l))
  /\ (status r < 400 -> success (json r) = true).
Proof.
  unfold envelope_ok. destruct (400 <=? status r) eqn:E.
  - apply Z.leb_le in E. intros H. split; [intros _|lia].
    apply andb_prop in H as [Hs He]. split.
    + now destruct (success (json r)).
    + destruct (error (json r)) as [m|]; [left; now exists m|].
      destruct (errors (json r)) as [l|]; [right; now exists l|discriminate].
  - apply Z.leb_gt in E. intros H. split; [lia|trivial].
Qed.

(** C8: every response of a post or category handler with an error status
    has [success = false] and an [error] string or an [errors] array, and
    every other response has [success = true]; the response of the
    validation middleware is an error response carrying the [errors]
    array. *)
Theorem responses_share_envelope (P : Platform) (e : Endpoint)
    (req : Req.t) (s : Store) (issues : list ValidationIssue) :
  let r := fst (handler_of P e req s) in
  (400 <= status r ->
   success (json r) = false
   /\ ((exists m, error (json r) = Some m) \/ exists l, errors (json r) = Some l))
  /\ (status r < 400 -> success (json r) = true)
  /\ (forall v, handleValidationErrors issues = Some v ->
        status v = 400 /\ success (json v) = false
        /\ exists l, errors (json v) = Some l).
Proof.
  intros r.
  assert (H : envelope_ok r = true).
  { subst r. destruct e; simpl handler_of;
      first [ apply (envelope_categories P req s)
            | apply (envelope_posts P req s) ]. }
  apply envelope_ok_spec in H as [Herr Hok].
  repeat split; try (apply Herr; assumption); try (apply Hok; assumption).
  all: destruct issues; simpl in *; try discriminate;
    match goal with H : Some _ = Some _ |- _ => injection H as <- end;
    try reflexivity.
  eexists; reflexivity.
Qed.

Lemma responses_share_envelope_witness :
  400 <= status (fst (handler_of Demo.platform GetPost
                        (Demo.request GET ["nowhere"] "nowhere" [] None)
                        Demo.store))
  /\ success (json (fst (handler_of Demo.platform GetPost
                           (Demo.request GET ["nowhere"] "nowhere" [] None)
                           Demo.store))) = false.
Proof.
  split; [vm_compute; discriminate|].
  apply (proj1 (responses_share_envelope Demo.platform GetPost
                  (Demo.request GET ["nowhere"] "nowhere" [] None)
                  Demo.store [])).
  vm_compute; discriminate.
Defined.

(** ** Round trips *)

Lemma query_outcome {A} (f : Store -> A) (s : Store) :
  (exists s1, query f s = Done (f s1) s1
              /\ posts s1 = posts s /\ categories s1 = categories s)
  \/ (exists s1, query f s = Raised MongoError s1
               /\ posts s1 = posts s /\ categories s1 = categories s).
Proof.
  unfold query, roundtrip. destruct s as [ps cs ck [|[] o]]; simpl.
  - left. eexists. split; [reflexivity|split; reflexivity].
  - right. eexists. split; [reflexivity|split; reflexivity].
  - left. eexists. split; [reflexivity|split; reflexivity].
Qed.

Lemma query_done {A} (f : Store -> A) (s s1 : Store) (a : A) :
  query f s = Done a s1 ->
  a = f s1 /\ posts s1 = posts s /\ categories s1 = categories s.
Proof.
  destruct (query_outcome f s) as [(s2 & E & Hp & Hc)|(s2 & E & _)];
    rewrite E; intros H; inversion H; subst; auto.
Qed.

Lemma query_calm {A} (f : Store -> A) (s : Store) :
  calm s -> query f s = Done (f s) s.
Proof.
  unfold calm, query, roundtrip. intros ->. reflexivity.
Qed.

Lemma roundtrip_calm {A} (op : Store -> A * Store) (s : Store) :
  calm s -> roundtrip op s = Done (fst (op s)) (snd (op s)).
Proof.
  unfold calm, roundtrip. intros ->. now destruct (op s).
Qed.

Lemma Post_findOne_done (P : Platform) (q : list Cond) (s s1 : Store)
    (r : option Post.t) :
  Post_findOne P q s = Done r s1 ->
  forallb well_cast q = true
  /\ r = find (selects P q) (posts s)
  /\ posts s1 = posts s /\ categories s1 = categories s.
Proof.
  unfold Post_findOne, casting.
  destruct (forallb well_cast q); [|discriminate].
  intros H. apply query_done in H as (-> & Hp & Hc).
  cbv beta. rewrite Hp. auto.
Qed.

Lemma find_by_id_In (id : ObjectId) (ps : list Post.t) (p : Post.t) :
  find (fun d => String.eqb (Post._id d) id) ps = Some p ->
  In p ps /\ Post._id p = id.
Proof.
  intros H. apply find_some in H as [Hin He].
  now apply String.eqb_eq in He.
Qed.

(** ** Authorisation of post updates and deletions *)

Lemma not_author_nor_admin_iff (post : Post.t) (user : User.t) :
  not_author_nor_admin post user = true
  <-> Post.author post <> User._id user /\ User.role user <> "admin".
Proof.
  unfold not_author_nor_admin.
  rewrite andb_true_iff, !negb_true_iff, !String.eqb_neq. reflexivity.
Qed.

Lemma author_or_admin_iff (post : Post.t) (user : User.t) :
  not_author_nor_admin post user = false
  <-> Post.author post = User._id user \/ User.role user = "admin".
Proof.
  unfold not_author_nor_admin.
  rewrite andb_false_iff, !negb_false_iff, !String.eqb_eq. reflexivity.
Qed.

Lemma try_catch_always (m : M Response) (Q : Response -> Prop) (s : Store) :
  always m Q -> Q server_error -> Q (fst (try_catch m s)).
Proof.
  intros H H500. unfold try_catch. specialize (H s).
  destruct (m s); simpl; trivial.
Qed.

Lemma updatePost_found (P : Platform) (req : Req.t) (s s1 : Store)
    (post : Post.t) (user : User.t) :
  Post_findById P (Raw (Req.params_id req)) s = Done (Some post) s1 ->
  Req.user req = Some user ->
  updatePost P req s
  = try_catch
      (if not_author_nor_admin post user
       then ret (failure 403 "Not authorized to update this post")
       else
         updatedPost <- casting (category_casts req)
                          (Post_save (apply_update req post)) ;;
         populatedPost <- Post_findById P (Oid (Post._id updatedPost)) ;;
         ret (ok_data 200 (APost populatedPost))) s1.
Proof.
  intros Hfind Huser. unfold updatePost, try_catch, bind at 1. cbv zeta.
  rewrite Hfind, Huser. reflexivity.
Qed.

Lemma deletePost_found (P : Platform) (req : Req.t) (s s1 : Store)
    (post : Post.t) (user : User.t) :
  Post_findById P (Raw (Req.params_id req)) s = Done (Some post) s1 ->
  Req.user req = Some user ->
  deletePost P req s
  = try_catch
      (if not_author_nor_admin post user
       then ret (failure 403 "Not authorized to delete this post")
       else
         Post_findByIdAndDelete (Raw (Req.params_id req)) ;;;
         ret (ok_message "Post deleted successfully")) s1.
Proof.
  intros Hfind Huser. unfold deletePost, try_catch, bind at 1. cbv zeta.
  rewrite Hfind, Huser. reflexivity.
Qed.

Lemma findById_calm (P : Platform) (id : IdArg) (s s1 : Store)
    (r : option Post.t) :
  calm s -> Post_findById P id s = Done r s1 -> s1 = s.
Proof.
  intros Hcalm. unfold Post_findById, Post_findOne, casting.
  destruct (forallb well_cast [IdIs id]); [|discriminate].
  rewrite (query_calm _ s Hcalm). now inversion 1.
Qed.

(** C1: when the post of an update or delete request exists and the
    authenticated requester is neither its author nor an admin, the
    handler answers 403 with [success = false] and the stored posts are
    unchanged; when the requester is the author or an admin the check
    passes: the answer is never 403, and unless the store fails the
    update is saved, respectively the post removed, with status 200. *)
Theorem update_delete_author_or_admin (P : Platform) (req : Req.t)
    (s s1 : Store) (post : Post.t) (user : User.t) :
  Post_findById P (Raw (Req.params_id req)) s = Done (Some post) s1 ->
  Req.user req = Some user ->
  (Post.author post <> User._id user /\ User.role user <> "admin" ->
   (status (fst (updatePost P req s)) = 403
    /\ success (json (fst (updatePost P req s))) = false
    /\ posts (snd (updatePost P req s)) = posts s)
   /\ (status (fst (deletePost P req s)) = 403
       /\ success (json (fst (deletePost P req s))) = false
       /\ posts (snd (deletePost P req s)) = posts s))
  /\ (Post.author post = User._id user \/ User.role user = "admin" ->
      status (fst (updatePost P req s)) <> 403
      /\ status (fst (deletePost P req s)) <> 403
      /\ (calm s -> category_casts req = true ->
          status (fst (updatePost P req s)) = 200
          /\ posts (snd (updatePost P req s))
             = replace_post (apply_update req post) (posts s))
      /\ (calm s ->
          status (fst (deletePost P req s)) = 200
          /\ posts (snd (deletePost P req s))
             = filter (fun d => negb (String.eqb (Post._id d) (Post._id post)))
                 (posts s))).
Proof.
  intros Hfind Huser.
  pose proof (Post_findOne_done P _ _ _ _ Hfind) as (Hcast & Hfound & Hp & _).
  rewrite (updatePost_found P req s s1 post user Hfind Huser).
  rewrite (deletePost_found P req s s1 post user Hfind Huser).
  split.
  - intros Hno. apply not_author_nor_admin_iff in Hno.
    rewrite Hno. simpl. auto.
  - intros Hyes. apply author_or_admin_iff in Hyes. rewrite Hyes.
    split; [|split; [|split]].
    + apply (try_catch_always _ (fun r => status r <> 403)); [|discriminate].
      repeat first
        [ apply always_ret; discriminate
        | apply always_bind; intros
        | apply always_casting ].
    + apply (try_catch_always _ (fun r => status r <> 403)); [|discriminate].
      repeat first
        [ apply always_ret; discriminate
        | apply always_bind; intros
        | apply always_casting ].
    + intros Hcalm Hcat. rewrite Hcat.
      rewrite (findById_calm P _ s s1 _ Hcalm Hfind).
      destruct s as [ps cs ck o].
      unfold calm in Hcalm. simpl in Hcalm. subst o.
      simpl. split; reflexivity.
    + intros Hcalm.
      rewrite (findById_calm P _ s s1 _ Hcalm Hfind) in *.
      simpl in Hcast. rewrite andb_true_r in Hcast.
      symmetry in Hfound.
      assert (Hid : Post._id post = JS.toLowerCase (Req.params_id req)).
      { apply find_some in Hfound as [_ He]. simpl in He.
        rewrite andb_true_r in He. now apply String.eqb_eq in He. }
      destruct s as [ps cs ck o].
      unfold calm in Hcalm. simpl in Hcalm. subst o.
      unfold try_catch, bind, Post_findByIdAndDelete, casting, castable.
      rewrite Hcast. simpl. rewrite Hid. split; reflexivity.
Qed.

Lemma update_delete_author_or_admin_witness :
  (status (fst (updatePost Demo.platform
                  (Demo.request PUT ["bbbbbbbbbbbbbbbbbbbbbb01"]
                     "bbbbbbbbbbbbbbbbbbbbbb01" [] (Some Demo.bob))
                  Demo.store)) = 403
   /\ success (json (fst (updatePost Demo.platform
                  (Demo.request PUT ["bbbbbbbbbbbbbbbbbbbbbb01"]
                     "bbbbbbbbbbbbbbbbbbbbbb01" [] (Some Demo.bob))
                  Demo.store))) = false
   /\ posts (snd (updatePost Demo.platform
                  (Demo.request PUT ["bbbbbbbbbbbbbbbbbbbbbb01"]
                     "bbbbbbbbbbbbbbbbbbbbbb01" [] (Some Demo.bob))
                  Demo.store)) = posts Demo.store)
  /\ status (fst (deletePost Demo.platform
                  (Demo.request DELETE ["bbbbbbbbbbbbbbbbbbbbbb01"]
                     "bbbbbbbbbbbbbbbbbbbbbb01" [] (Some Demo.carol))
                  Demo.store)) <> 403.
Proof.
  split.
  - apply (proj1 (update_delete_author_or_admin Demo.platform
                    (Demo.request PUT ["bbbbbbbbbbbbbbbbbbbbbb01"]
                       "bbbbbbbbbbbbbbbbbbbbbb01" [] (Some Demo.bob))
                    Demo.store Demo.store Demo.hello Demo.bob
                    eq_refl eq_refl)).
    split; vm_compute; discriminate.
  - apply (proj2 (update_delete_author_or_admin Demo.platform
                    (Demo.request DELETE ["bbbbbbbbbbbbbbbbbbbbbb01"]
                       "bbbbbbbbbbbbbbbbbbbbbb01" [] (Some Demo.carol))
                    Demo.store Demo.store Demo.hello Demo.carol
                    eq_refl eq_refl)).
    right. reflexivity.
Defined.

(** ** Deleting a category *)

Lemma find_ext {A} (f g : A -> bool) (l : list A) :
  (forall x, f x = g x) -> find f l = find g l.
Proof.
  intros H. induction l as [|x r IH]; simpl; [reflexivity|].
  now rewrite H, IH.
Qed.

Lemma find_filter_out {A} (f : A -> bool) (l : list A) :
  find f (filter (fun x => negb (f x)) l) = None.
Proof.
  induction l as [|x r IH]; simpl; [reflexivity|].
  destruct (f x) eqn:E; simpl; [exact IH|]. now rewrite E.
Qed.

Lemma Category_findById_calm (id : string) (s : Store) :
  calm s ->
  JS.isObjectId id = true ->
  Category_findById (Raw id) s
  = Done (stored_category (JS.toLowerCase id) s) s.
Proof.
  intros Hcalm Hid. unfold Category_findById, Category_findOne, casting.
  cbn [forallb cat_well_cast castable]. rewrite Hid. cbn [andb].
  rewrite (query_calm _ s Hcalm). unfold stored_category. f_equal.
  apply find_ext. intros k. simpl. apply andb_true_r.
Qed.

Lemma Post_countDocuments_calm (P : Platform) (q : list Cond) (s : Store) :
  calm s ->
  forallb well_cast q = true ->
  Post_countDocuments P q s
  = Done (Z.of_nat (List.length (filter (selects P q) (posts s)))) s.
Proof.
  intros Hcalm Hq. unfold Post_countDocuments, casting. rewrite Hq.
  now rewrite (query_calm _ s Hcalm).
Qed.

(** C4: deleting an existing category that at least one post references
    is rejected with an error response and the category is still stored
    afterwards; deleting an existing category that no post references
    succeeds and removes it. *)
Theorem deleteCategory_guarded_by_posts (P : Platform) (req : Req.t)
    (s : Store) (c : Category.t) :
  calm s ->
  JS.isObjectId (Req.params_id req) = true ->
  stored_category (JS.toLowerCase (Req.params_id req)) s = Some c ->
  ((exists p, In p (posts s) /\ Post.category p = Category._id c) ->
   status (fst (deleteCategory P req s)) = 400
   /\ success (json (fst (deleteCategory P req s))) = false
   /\ categories (snd (deleteCategory P req s)) = categories s
   /\ stored_category (Category._id c) (snd (deleteCategory P req s)) = Some c)
  /\ ((forall p, In p (posts s) -> Post.category p <> Category._id c) ->
      status (fst (deleteCategory P req s)) = 200
      /\ success (json (fst (deleteCategory P req s))) = true
      /\ stored_category (Category._id c) (snd (deleteCategory P req s)) = None
      /\ categories (snd (deleteCategory P req s))
         = filter (fun d => negb (String.eqb (Category._id d) (Category._id c)))
             (categories s)).
Proof.
  intros Hcalm Hid Hc.
  assert (Hcid : Category._id c = JS.toLowerCase (Req.params_id req)).
  { unfold stored_category in Hc. apply find_some in Hc as [_ He].
    now apply String.eqb_eq in He. }
  assert (Hsel : filter (selects P [CategoryIs (Raw (Req.params_id req))]) (posts s)
                 = referencing c s).
  { unfold referencing. apply filter_ext. intros p. simpl.
    rewrite andb_true_r, Hcid. reflexivity. }
  assert (Hrun : deleteCategory P req s
                 = if Z.of_nat (List.length (referencing c s)) >? 0
                   then (failure 400
                           ("Cannot delete category. It has "
                            ++ show_number (Z.of_nat (List.length (referencing c s)))
                            ++ " associated posts."), s)
                   else (ok_message "Category deleted successfully",
                         with_categories
                           (filter (fun d => negb (String.eqb (Category._id d)
                                                     (Category._id c)))
                              (categories s)) s)).
  { unfold deleteCategory, try_catch, bind. cbv zeta.
    rewrite (Category_findById_calm _ s Hcalm Hid), Hc.
    rewrite (Post_countDocuments_calm P _ s Hcalm)
      by (simpl; now rewrite Hid).
    rewrite Hsel.
    destruct (Z.of_nat (List.length (referencing c s)) >? 0); [reflexivity|].
    unfold Category_findByIdAndDelete, casting, castable. rewrite Hid.
    rewrite (roundtrip_calm _ s Hcalm). simpl. now rewrite Hcid. }
  rewrite Hrun. split.
  - intros (p & Hin & Hp).
    assert (Hne : In p (referencing c s)).
    { unfold referencing. apply filter_In. split; [exact Hin|].
      now apply String.eqb_eq. }
    destruct (referencing c s) as [|x r]; [contradiction|].
    simpl List.length. rewrite Nat2Z.inj_succ.
    replace (Z.succ (Z.of_nat (List.length r)) >? 0) with true
      by (symmetry; apply Z.gtb_lt; lia).
    simpl. repeat split. rewrite Hcid. exact Hc.
  - intros Hnone.
    assert (He : referencing c s = []).
    { destruct (referencing c s) as [|x r] eqn:E; [reflexivity|].
      assert (Hx : In x (referencing c s)) by (rewrite E; now left).
      unfold referencing in Hx. apply filter_In in Hx as [Hin Hx].
      apply String.eqb_eq in Hx. now apply Hnone in Hin. }
    rewrite He. simpl. repeat split.
    unfold stored_category. simpl. apply find_filter_out.
Qed.

Lemma deleteCategory_guarded_by_posts_witness :
  (status (fst (deleteCategory Demo.platform
                  (Demo.request DELETE [] "cccccccccccccccccccccc01" []
                     (Some Demo.carol)) Demo.store)) = 400
   /\ success (json (fst (deleteCategory Demo.platform
                  (Demo.request DELETE [] "cccccccccccccccccccccc01" []
                     (Some Demo.carol)) Demo.store))) = false
   /\ categories (snd (deleteCategory Demo.platform
                  (Demo.request DELETE [] "cccccccccccccccccccccc01" []
                     (Some Demo.carol)) Demo.store)) = categories Demo.store
   /\ stored_category (Category._id Demo.tech)
        (snd (deleteCategory Demo.platform
                (Demo.request DELETE [] "cccccccccccccccccccccc01" []
                   (Some Demo.carol)) Demo.store)) = Some Demo.tech)
  /\ status (fst (deleteCategory Demo.platform
                    (Demo.request DELETE [] "cccccccccccccccccccccc03" []
                       (Some Demo.carol)) Demo.store)) = 200.
Proof.
  split.
  - apply (proj1 (deleteCategory_guarded_by_posts Demo.platform
                    (Demo.request DELETE [] "cccccccccccccccccccccc01" []
                       (Some Demo.carol)) Demo.store Demo.tech
                    eq_refl eq_refl eq_refl)).
    exists Demo.hello. split; [left; reflexivity|reflexivity].
  - apply (proj2 (deleteCategory_guarded_by_posts Demo.platform
                    (Demo.request DELETE [] "cccccccccccccccccccccc03" []
                       (Some Demo.carol)) Demo.store Demo.art
                    eq_refl eq_refl eq_refl)).
    intros p Hin. simpl in Hin.
    destruct Hin as [<-|[<-|[<-|[<-|[]]]]]; vm_compute; discriminate.
Defined.

(** ** Reading a single post or category *)

Lemma always_bind_with {A B} (m : M A) (k : A -> M B)
    (R : A -> Prop) (Q : B -> Prop) :
  always m R -> (forall a, R a -> always (k a) Q) -> always (bind m k) Q.
Proof.
  intros Hm Hk s. unfold bind. specialize (Hm s).
  destruct (m s) as [a s'|e s']; [now apply Hk | exact I].
Qed.

Lemma always_query {A} (f : Store -> A) (R : A -> Prop) :
  (forall s, R (f s)) -> always (query f) R.
Proof.
  intros H s. destruct (query_outcome f s) as [(s1 & E & _)|(s1 & E & _)];
    rewrite E; [apply H | exact I].
Qed.

Lemma always_roundtrip {A} (op : Store -> A * Store) (R : A -> Prop) :
  (forall s, R (fst (op s))) -> always (roundtrip op) R.
Proof.
  intros H s. unfold roundtrip.
  destruct (outages s) as [|[] o]; trivial.
  - specialize (H s). now destruct (op s).
  - specialize (H (with_outages o s)). now destruct (op (with_outages o s)).
Qed.

Lemma post_lookup_well_cast (id : string) :
  forallb well_cast (post_lookup id) = true.
Proof.
  unfold post_lookup. destruct (JS.isObjectId id) eqn:E; simpl;
    [now rewrite E | reflexivity].
Qed.

Lemma category_lookup_well_cast (id : string) :
  forallb cat_well_cast (category_lookup id) = true.
Proof.
  unfold category_lookup. destruct (JS.isObjectId id) eqn:E; simpl;
    [now rewrite E | reflexivity].
Qed.

Lemma getPost_calm (P : Platform) (req : Req.t) (s : Store) :
  calm s ->
  getPost P req s
  = match find (selects P (post_lookup (Req.params_id req))) (posts s) with
    | None => (failure 404 "Post not found", s)
    | Some post =>
        if Post.isPublished post
        then (ok_data 200
                (APost (Some (Post.set_viewCount (Post.viewCount post + 1) post))),
              with_posts
                (replace_post (Post.set_viewCount (Post.viewCount post + 1) post)
                   (posts s)) s)
        else (ok_data 200 (APost (Some post)), s)
    end.
Proof.
  intros Hcalm. unfold getPost, try_catch, bind, Post_findOne, casting.
  cbv zeta. rewrite post_lookup_well_cast, (query_calm _ s Hcalm).
  destruct (find _ (posts s)) as [post|]; [|reflexivity].
  destruct (Post.isPublished post); [|reflexivity].
  unfold Post_incrementViewCount, Post_save.
  now rewrite (roundtrip_calm _ s Hcalm).
Qed.

Lemma getCategory_calm (req : Req.t) (s : Store) :
  calm s ->
  getCategory req s
  = match find (fun k => forallb (fun c => cat_matches c k)
                           (category_lookup (Req.params_id req)))
            (categories s) with
    | None => (failure 404 "Category not found", s)
    | Some category => (ok_data 200 (ACategory category), s)
    end.
Proof.
  intros Hcalm. unfold getCategory, try_catch, bind, Category_findOne, casting.
  cbv zeta. rewrite category_lookup_well_cast, (query_calm _ s Hcalm).
  now destruct (find _ (categories s)).
Qed.

Lemma stored_post_replaced (p' : Post.t) (ps : list Post.t) :
  (exists p, In p ps /\ Post._id p = Post._id p') ->
  find (fun d => String.eqb (Post._id d) (Post._id p')) (replace_post p' ps)
  = Some p'.
Proof.
  induction ps as [|d r IH]; intros (p & Hin & Hid); [contradiction|].
  simpl. destruct (String.eqb (Post._id d) (Post._id p')) eqn:E.
  - now rewrite String.eqb_refl.
  - rewrite E. apply IH. destruct Hin as [->|Hin]; [|now exists p].
    apply String.eqb_neq in E. congruence.
Qed.

Lemma stored_post_elsewhere (id : ObjectId) (p' : Post.t) (ps : list Post.t) :
  id <> Post._id p' ->
  find (fun d => String.eqb (Post._id d) id) (replace_post p' ps)
  = find (fun d => String.eqb (Post._id d) id) ps.
Proof.
  intros Hne. induction ps as [|d r IH]; [reflexivity|].
  simpl. destruct (String.eqb (Post._id d) (Post._id p')) eqn:E.
  - apply String.eqb_eq in E.
    assert (E1 : String.eqb (Post._id p') id = false)
      by (apply String.eqb_neq; congruence).
    assert (E2 : String.eqb (Post._id d) id = false)
      by (apply String.eqb_neq; congruence).
    now rewrite E1, E2.
  - now rewrite IH.
Qed.

(** C3 (with [incrementViewCount] as the specification describes it):
    a read of a published post through the get-single-post operation
    answers 200 and leaves that post stored with a view count that is
    exactly one more than the count it was read with, every other field
    of it and every other post as they were, whoever the reader is; a
    read of an unpublished post changes no stored post. *)
Theorem getPost_counts_published_reads (P : Platform) (req : Req.t)
    (s : Store) (post : Post.t) :
  calm s ->
  find (selects P (post_lookup (Req.params_id req))) (posts s) = Some post ->
  In post (posts s)
  /\ (forall reader, getPost P (Req.with_user reader req) s = getPost P req s)
  /\ status (fst (getPost P req s)) = 200
  /\ (Post.isPublished post = true ->
      (exists after,
         stored_post (Post._id post) (snd (getPost P req s)) = Some after
         /\ Post.viewCount after = Post.viewCount post + 1
         /\ Post._id after = Post._id post
         /\ Post.title after = Post.title post
         /\ Post.content after = Post.content post
         /\ Post.excerpt after = Post.excerpt post
         /\ Post.slug after = Post.slug post
         /\ Post.featuredImage after = Post.featuredImage post
         /\ Post.isPublished after = Post.isPublished post
         /\ Post.tags after = Post.tags post
         /\ Post.comments after = Post.comments post
         /\ Post.author after = Post.author post
         /\ Post.category after = Post.category post
         /\ Post.createdAt after = Post.createdAt post)
      /\ forall id, id <> Post._id post ->
           stored_post id (snd (getPost P req s)) = stored_post id s)
  /\ (Post.isPublished post = false ->
      posts (snd (getPost P req s)) = posts s).
Proof.
  intros Hcalm Hfind.
  assert (Hin : In post (posts s)) by now apply find_some in Hfind.
  split; [exact Hin|]. split; [reflexivity|].
  rewrite (getPost_calm P req s Hcalm), Hfind.
  destruct (Post.isPublished post) eqn:Hpub; cbn [fst snd status ok_data].
  - split; [reflexivity|]. split; [|discriminate]. intros _. split.
    + exists (Post.set_viewCount (Post.viewCount post + 1) post).
      split.
      * unfold stored_post. destruct s. cbn [posts with_posts].
        apply (stored_post_replaced
                 (Post.set_viewCount (Post.viewCount post + 1) post)).
        exists post. split; [exact Hin | reflexivity].
      * cbn. rewrite Hpub. repeat split.
    + intros id Hid. unfold stored_post. destruct s. cbn [posts with_posts].
      now apply (stored_post_elsewhere id
                   (Post.set_viewCount (Post.viewCount post + 1) post)).
  - split; [reflexivity|]. split; [discriminate|reflexivity].
Qed.

Lemma getPost_counts_published_reads_witness :
  exists after,
    stored_post (Post._id Demo.hello)
      (snd (getPost Demo.platform
              (Demo.request GET ["hello-world"] "hello-world" [] None)
              Demo.store)) = Some after
    /\ Post.viewCount after = Post.viewCount Demo.hello + 1.
Proof.
  destruct (getPost_counts_published_reads Demo.platform
              (Demo.request GET ["hello-world"] "hello-world" [] None)
              Demo.store Demo.hello eq_refl eq_refl)
    as (_ & _ & _ & Hpub & _).
  destruct (Hpub eq_refl) as [(after & Hstored & Hcount & _) _].
  exists after. split; [exact Hstored | exact Hcount].
Defined.

(** Reads accumulate: [n] reads of a published post by its identifier
    leave its view count increased by [n]. *)
Lemma repeated_reads_accumulate (P : Platform) (req : Req.t) (n : nat) :
  JS.isObjectId (Req.params_id req) = true ->
  forall (s : Store) (post : Post.t),
    calm s ->
    stored_post (JS.toLowerCase (Req.params_id req)) s = Some post ->
    Post.isPublished post = true ->
    stored_post (JS.toLowerCase (Req.params_id req)) (read_times P req n s)
    = Some (Post.set_viewCount (Post.viewCount post + Z.of_nat n) post).
Proof.
  intros Hid. induction n as [|n IH]; intros s post Hcalm Hpost Hpub.
  - simpl. rewrite Z.add_0_r, Hpost. now destruct post.
  - cbn [read_times]. rewrite (getPost_calm P req s Hcalm).
    assert (Hfind : find (selects P (post_lookup (Req.params_id req))) (posts s)
                    = Some post).
    { unfold post_lookup. rewrite Hid. rewrite <- Hpost. unfold stored_post.
      apply find_ext. intros p. simpl. apply andb_true_r. }
    rewrite Hfind, Hpub. cbn [snd].
    assert (Hpid : Post._id post = JS.toLowerCase (Req.params_id req))
      by (unfold stored_post in Hpost; now apply find_by_id_In in Hpost).
    rewrite (IH _ (Post.set_viewCount (Post.viewCount post + 1) post)).
    + f_equal. unfold Post.set_viewCount. simpl. f_equal. lia.
    + destruct s; exact Hcalm.
    + unfold stored_post. cbn [posts with_posts]. rewrite <- Hpid.
      apply (stored_post_replaced
               (Post.set_viewCount (Post.viewCount post + 1) post)).
      exists post. split; [now apply find_some in Hfind|reflexivity].
    + exact Hpub.
Qed.

(** The same, read off the stored count. *)
Lemma repeated_reads_count (P : Platform) (req : Req.t) (n : nat)
    (s : Store) (post : Post.t) :
  JS.isObjectId (Req.params_id req) = true ->
  calm s ->
  stored_post (JS.toLowerCase (Req.params_id req)) s = Some post ->
  Post.isPublished post = true ->
  option_map Post.viewCount
    (stored_post (JS.toLowerCase (Req.params_id req)) (read_times P req n s))
  = Some (Post.viewCount post + Z.of_nat n).
Proof.
  intros Hid Hcalm Hpost Hpub.
  now rewrite (repeated_reads_accumulate P req n Hid s post Hcalm Hpost Hpub).
Qed.

Lemma always_findOne (P : Platform) (q : list Cond) :
  always (Post_findOne P q)
    (fun r => forall p, r = Some p -> selects P q p = true).
Proof.
  unfold Post_findOne. apply always_casting, always_query.
  intros s p H. now apply find_some in H.
Qed.

Lemma always_category_findOne (q : list CatCond) :
  always (Category_findOne q)
    (fun r => forall k, r = Some k ->
                forallb (fun c => cat_matches c k) q = true).
Proof.
  unfold Category_findOne. apply always_casting, always_query.
  intros s k H. now apply find_some in H.
Qed.

(** C9: for a lookup identifier of exactly twenty-four hexadecimal
    characters the get-by-id-or-slug operations for posts and categories
    build the query on [_id] alone, never on the slug: a document they
    return has that identifier as its [_id], and when no stored document
    has it the answer is not-found, whatever the slugs of the stored
    documents are. *)
Theorem hex_identifier_queries_id_only (P : Platform) (req : Req.t)
    (s : Store) :
  JS.isObjectId (Req.params_id req) = true ->
  post_lookup (Req.params_id req) = [IdIs (Raw (Req.params_id req))]
  /\ category_lookup (Req.params_id req) = [CatIdIs (Raw (Req.params_id req))]
  /\ (forall p, data (json (fst (getPost P req s))) = Some (APost (Some p)) ->
        Post._id p = JS.toLowerCase (Req.params_id req))
  /\ (forall c, data (json (fst (getCategory req s))) = Some (ACategory c) ->
        Category._id c = JS.toLowerCase (Req.params_id req))
  /\ (calm s ->
      stored_post (JS.toLowerCase (Req.params_id req)) s = None ->
      fst (getPost P req s) = failure 404 "Post not found")
  /\ (calm s ->
      stored_category (JS.toLowerCase (Req.params_id req)) s = None ->
      fst (getCategory req s) = failure 404 "Category not found").
Proof.
  intros Hid.
  assert (Hpl : post_lookup (Req.params_id req)
                = [IdIs (Raw (Req.params_id req))])
    by (unfold post_lookup; now rewrite Hid).
  assert (Hcl : category_lookup (Req.params_id req)
                = [CatIdIs (Raw (Req.params_id req))])
    by (unfold category_lookup; now rewrite Hid).
  split; [exact Hpl|]. split; [exact Hcl|]. repeat split.
  - unfold getPost. cbv zeta. rewrite Hpl.
    apply (try_catch_always _
             (fun r => forall p, data (json r) = Some (APost (Some p)) ->
                         Post._id p = JS.toLowerCase (Req.params_id req)));
      [|discriminate].
    apply (always_bind_with _ _ _ _ (always_findOne P _)).
    intros [post|] Hsel; [|apply always_ret; discriminate].
    specialize (Hsel post eq_refl). simpl in Hsel.
    rewrite andb_true_r in Hsel. apply String.eqb_eq in Hsel.
    apply (always_bind_with _ _ (fun r => Post._id r = Post._id post)).
    + destruct (Post.isPublished post); [|now apply always_ret].
      unfold Post_incrementViewCount, Post_save.
      now apply always_roundtrip.
    + intros post' Hpost'. apply always_ret. simpl. intros p Hp.
      injection Hp as <-. congruence.
  - unfold getCategory. cbv zeta. rewrite Hcl.
    apply (try_catch_always _
             (fun r => forall c, data (json r) = Some (ACategory c) ->
                         Category._id c = JS.toLowerCase (Req.params_id req)));
      [|discriminate].
    apply (always_bind_with _ _ _ _ (always_category_findOne _)).
    intros [k|] Hsel; apply always_ret; [|discriminate].
    specialize (Hsel k eq_refl). simpl in Hsel.
    rewrite andb_true_r in Hsel. apply String.eqb_eq in Hsel.
    simpl. intros c Hc. injection Hc as <-. exact Hsel.
  - intros Hcalm Hnone. rewrite (getPost_calm P req s Hcalm), Hpl.
    unfold stored_post in Hnone.
    rewrite (find_ext _ (fun p => String.eqb (Post._id p)
                                    (JS.toLowerCase (Req.params_id req))));
      [now rewrite Hnone|].
    intros p. simpl. apply andb_true_r.
  - intros Hcalm Hnone. rewrite (getCategory_calm req s Hcalm), Hcl.
    unfold stored_category in Hnone.
    rewrite (find_ext _ (fun c => String.eqb (Category._id c)
                                    (JS.toLowerCase (Req.params_id req))));
      [now rewrite Hnone|].
    intros c. simpl. apply andb_true_r.
Qed.

(** A stored post whose slug is twenty-four hexadecimal characters is not
    found under that slug. *)
Lemma hex_identifier_queries_id_only_witness :
  Post.slug Demo.hexed = "abcdefabcdefabcdefabcdef"
  /\ In Demo.hexed (posts Demo.store)
  /\ fst (getPost Demo.platform
            (Demo.request GET ["abcdefabcdefabcdefabcdef"]
               "abcdefabcdefabcdefabcdef" [] None) Demo.store)
     = failure 404 "Post not found".
Proof.
  split; [reflexivity|]. split; [simpl; tauto|].
  apply (hex_identifier_queries_id_only Demo.platform
           (Demo.request GET ["abcdefabcdefabcdefabcdef"]
              "abcdefabcdefabcdefabcdef" [] None) Demo.store eq_refl);
    reflexivity.
Defined.

(** ** Paginated listings *)

Lemma listing_outcome (P : Platform) (q : list Cond) (sortBy : string)
    (sortOrder skip limit : Z) (k : list Post.t -> Z -> Response) (s : Store) :
  (exists e s', listing P q sortBy sortOrder skip limit k s = Raised e s'
                /\ posts s' = posts s /\ categories s' = categories s)
  \/ (exists s',
        listing P q sortBy sortOrder skip limit k s
        = Done (k (page_of_selection sortBy sortOrder skip limit (matching P q s))
                  (Z.of_nat (List.length (matching P q s)))) s'
        /\ posts s' = posts s /\ categories s' = categories s
        /\ forallb well_cast q = true /\ 0 <= skip).
Proof.
  unfold listing, bind, Post_find, Post_countDocuments, casting,
    page_of_selection, matching.
  destruct (forallb well_cast q); [|left; now exists CastError, s].
  destruct (skip <? 0) eqn:Hskip; [left; now exists MongoError, s|].
  apply Z.ltb_ge in Hskip.
  destruct (query_outcome
              (fun s0 => window skip limit
                 (sort_by (directed (Post.compare_field sortBy) sortOrder)
                    (filter (selects P q) (posts s0)))) s)
    as [(s1 & E1 & Hp1 & Hc1)|(s1 & E1 & Hp1 & Hc1)]; rewrite E1;
    [|left; now exists MongoError, s1].
  destruct (query_outcome
              (fun s0 => Z.of_nat (List.length (filter (selects P q) (posts s0))))
              s1)
    as [(s2 & E2 & Hp2 & Hc2)|(s2 & E2 & Hp2 & Hc2)]; rewrite E2.
  - right. exists s2. unfold ret. rewrite Hp2, Hp1.
    repeat split; congruence.
  - left. exists MongoError, s2. repeat split; congruence.
Qed.

Lemma listing_calm (P : Platform) (q : list Cond) (sortBy : string)
    (sortOrder skip limit : Z) (k : list Post.t -> Z -> Response) (s : Store) :
  calm s -> forallb well_cast q = true -> 0 <= skip ->
  listing P q sortBy sortOrder skip limit k s
  = Done (k (page_of_selection sortBy sortOrder skip limit (matching P q s))
            (Z.of_nat (List.length (matching P q s)))) s.
Proof.
  intros Hcalm Hq Hskip.
  unfold listing, bind, Post_find, Post_countDocuments, casting. rewrite Hq.
  replace (skip <? 0) with false by (symmetry; now apply Z.ltb_ge).
  now rewrite !(query_calm _ s Hcalm).
Qed.

Lemma ceil_div_covers (total limit : Z) :
  1 <= limit -> total <= JS.ceil_div total limit * limit.
Proof.
  intros Hl. unfold JS.ceil_div.
  pose proof (Z.mul_div_le (- total) limit ltac:(lia)). nia.
Qed.

Lemma page_beyond_is_empty {A} (page limit : Z) (l : list A) :
  1 <= limit ->
  JS.ceil_div (Z.of_nat (List.length l)) limit < page ->
  window ((page - 1) * limit) limit l = [].
Proof.
  intros Hl Hpage. unfold window.
  pose proof (ceil_div_covers (Z.of_nat (List.length l)) limit Hl).
  rewrite skipn_all2; [apply firstn_nil|]. nia.
Qed.

Lemma build_query_pure (P : Platform) (req : Req.t) (s : Store) :
  (exists q, build_query P req s = Done q s /\ In (IsPublished true) q)
  \/ build_query P req s = Raised SyntaxError s.
Proof.
  unfold build_query. cbv zeta.
  match goal with
  | |- context [match assoc "search" _ with Some t => _ | None => ret ?q end] =>
      assert (Hq : In (IsPublished true) q)
  end.
  { destruct (assoc "category" (Req.query req)) as [c|];
      destruct (assoc "author" (Req.query req)) as [a|];
      repeat match goal with
             | |- context [if ?b then _ else _] => destruct b
             end; simpl; auto. }
  destruct (assoc "search" (Req.query req)) as [t|];
    [destruct (JS.truthy (Some t))|].
  - unfold bind, new_RegExp. destruct (regex_valid P t); [left|now right].
    eexists. split; [reflexivity|]. apply in_or_app. now left.
  - left. eexists. split; [reflexivity|exact Hq].
  - left. eexists. split; [reflexivity|exact Hq].
Qed.

Lemma getAllPosts_run (P : Platform) (req : Req.t) (s : Store) :
  getAllPosts P req s
  = match build_query P req s with
    | Done q s1 =>
        try_catch
          (listing P q (sortBy_of req) (sortOrder_of req)
             ((page_of req - 1) * limit_of req) (limit_of req)
             (fun posts total =>
                ok_page (Posts posts)
                  (mkPagination (page_of req)
                     (JS.ceil_div total (limit_of req)) total (limit_of req)
                     (Some (page_of req <? JS.ceil_div total (limit_of req)))
                     (Some (page_of req >? 1)) None))) s1
    | Raised _ s1 => (server_error, s1)
    end.
Proof.
  unfold getAllPosts, try_catch. cbv zeta. unfold bind at 1.
  now destruct (build_query P req s).
Qed.

Lemma getAllPosts_outcome (P : Platform) (req : Req.t) (s : Store) :
  fst (getAllPosts P req s) = server_error
  \/ exists q,
       In (IsPublished true) q
       /\ fst (getAllPosts P req s)
          = ok_page
              (Posts (page_of_selection (sortBy_of req) (sortOrder_of req)
                        ((page_of req - 1) * limit_of req) (limit_of req)
                        (matching P q s)))
              (mkPagination (page_of req)
                 (JS.ceil_div (Z.of_nat (List.length (matching P q s)))
                    (limit_of req))
                 (Z.of_nat (List.length (matching P q s))) (limit_of req)
                 (Some (page_of req
                        <? JS.ceil_div (Z.of_nat (List.length (matching P q s)))
                             (limit_of req)))
                 (Some (page_of req >? 1)) None)
       /\ posts (snd (getAllPosts P req s)) = posts s.
Proof.
  rewrite getAllPosts_run.
  destruct (build_query_pure P req s) as [(q & E & Hq)|E]; rewrite E;
    [|now left].
  unfold try_catch.
  destruct (listing_outcome P q (sortBy_of req) (sortOrder_of req)
              ((page_of req - 1) * limit_of req) (limit_of req)
              (fun posts total =>
                 ok_page (Posts posts)
                   (mkPagination (page_of req)
                      (JS.ceil_div total (limit_of req)) total (limit_of req)
                      (Some (page_of req <? JS.ceil_div total (limit_of req)))
                      (Some (page_of req >? 1)) None)) s)
    as [(e & s' & E' & _)|(s' & E' & Hp & _)];
    rewrite E'; [now left|].
  right. exists q. cbn [fst snd]. repeat split; trivial.
Qed.

(** C5: on a post-list request whose page number exceeds [totalPages],
    with a limit of at least one, the response carries the empty list
    of posts and [hasNextPage = false]; [totalPages] is the ceiling of
    the number of matching posts over the limit. *)
Theorem page_beyond_totalPages_is_empty (P : Platform) (req : Req.t)
    (s : Store) (pg : Pagination) :
  pagination (json (fst (getAllPosts P req s))) = Some pg ->
  1 <= postsPerPage pg ->
  totalPages pg < currentPage pg ->
  data (json (fst (getAllPosts P req s))) = Some (Posts [])
  /\ hasNextPage pg = Some false
  /\ currentPage pg = page_of req
  /\ postsPerPage pg = limit_of req
  /\ totalPages pg = JS.ceil_div (totalPosts pg) (postsPerPage pg)
  /\ exists q, totalPosts pg = Z.of_nat (List.length (matching P q s)).
Proof.
  destruct (getAllPosts_outcome P req s) as [E|(q & _ & E & _)]; rewrite E;
    [discriminate|].
  simpl. intros Hpg. injection Hpg as <-. simpl. intros Hlimit Hpage.
  repeat split.
  - unfold page_of_selection.
    rewrite page_beyond_is_empty; trivial.
    now rewrite sort_by_length.
  - f_equal. apply Z.ltb_ge. lia.
  - now exists q.
Qed.

Lemma page_beyond_totalPages_is_empty_witness :
  data (json (fst (getAllPosts Demo.platform
                     (Demo.request GET [] "" [("page", "3"); ("limit", "2")] None)
                     Demo.store))) = Some (Posts [])
  /\ hasNextPage (mkPagination 3 2 3 2 (Some false) (Some true) None)
     = Some false.
Proof.
  refine ((fun H => conj (proj1 H) (proj1 (proj2 H)))
            (page_beyond_totalPages_is_empty Demo.platform
               (Demo.request GET [] "" [("page", "3"); ("limit", "2")] None)
               Demo.store (mkPagination 3 2 3 2 (Some false) (Some true) None)
               _ _ _)).
  - reflexivity.
  - simpl. lia.
  - simpl. lia.
Defined.

(** ** Searching *)

Lemma searchPosts_rejects_empty (P : Platform) (req : Req.t) (s : Store) :
  assoc "q" (Req.query req) = None \/ assoc "q" (Req.query req) = Some "" ->
  searchPosts P req s = (failure 400 "Search query is required", s).
Proof.
  unfold searchPosts, try_catch. cbv zeta. intros [->| ->]; reflexivity.
Qed.

Lemma searchPosts_run (P : Platform) (req : Req.t) (s : Store) (q : string) :
  assoc "q" (Req.query req) = Some q -> q <> "" ->
  searchPosts P req s
  = if regex_valid P q
    then try_catch
           (listing P [And [IsPublished true; text_search q]] "createdAt" (-1)
              ((page_of req - 1) * limit_of req) (limit_of req)
              (fun posts total =>
                 ok_page (Posts posts)
                   (mkPagination (page_of req)
                      (JS.ceil_div total (limit_of req)) total (limit_of req)
                      None None (Some q)))) s
    else (server_error, s).
Proof.
  intros Hq Hne. unfold searchPosts, try_catch. cbv zeta. rewrite Hq.
  destruct q as [|c q]; [contradiction|]. cbn [JS.truthy negb].
  unfold bind at 1, new_RegExp.
  now destruct (regex_valid P (String c q)).
Qed.

Lemma selects_search (P : Platform) (q : string) (p : Post.t) :
  selects P [And [IsPublished true; text_search q]] p = spec_search_match P q p.
Proof.
  unfold selects, spec_search_match, text_search. simpl.
  destruct (Post.isPublished p); simpl; [|reflexivity].
  rewrite !andb_true_r, !orb_false_r, !orb_assoc. reflexivity.
Qed.

Lemma selects_list_search (P : Platform) (q : string) (p : Post.t) :
  selects P [IsPublished true; text_search q] p = spec_search_match P q p.
Proof.
  unfold selects, spec_search_match, text_search. simpl.
  destruct (Post.isPublished p); simpl; [|reflexivity].
  rewrite !andb_true_r, !orb_false_r, !orb_assoc. reflexivity.
Qed.

Lemma matching_ext (P : Platform) (q : list Cond) (f : Post.t -> bool)
    (s : Store) :
  (forall p, selects P q p = f p) -> matching P q s = filter f (posts s).
Proof. intros H. unfold matching. now apply filter_ext. Qed.

Lemma In_firstn_self {A} (n : nat) (l : list A) (x : A) :
  In x (firstn n l) -> In x l.
Proof.
  revert l. induction n as [|n IH]; intros [|y l]; simpl; try tauto.
  intros [->|H]; [now left | right; now apply IH].
Qed.

Lemma In_skipn_self {A} (n : nat) (l : list A) (x : A) :
  In x (skipn n l) -> In x l.
Proof.
  revert l. induction n as [|n IH]; intros [|y l]; simpl; try tauto.
  intros H. right. now apply IH.
Qed.

Lemma In_window {A} (skip limit : Z) (l : list A) (x : A) :
  In x (window skip limit l) -> In x l.
Proof. unfold window. intros H. now apply In_firstn_self, In_skipn_self in H. Qed.

Lemma window_first_page {A} (limit : Z) (l : list A) :
  Z.of_nat (List.length l) <= limit -> window 0 limit l = l.
Proof.
  intros H. unfold window. simpl. apply firstn_all2. lia.
Qed.

(** C6 (amended): a search whose text is empty or missing is rejected
    with status 400 and no posts.  A search with a non-empty text that,
    among the published posts, matches tags only answers, when the
    pattern compiles and the store answers, with the requested page
    (page 1 of 10 posts a page unless the request says otherwise) of
    exactly the published posts having a matching tag, newest first, and
    reports how many they are; every post it returns is such a post, and
    when they all fit on the first page the answer holds exactly those
    posts. *)
Theorem search_by_tag_and_empty_query (P : Platform) (req : Req.t) (s : Store) :
  (assoc "q" (Req.query req) = None \/ assoc "q" (Req.query req) = Some "" ->
   status (fst (searchPosts P req s)) = 400
   /\ success (json (fst (searchPosts P req s))) = false
   /\ data (json (fst (searchPosts P req s))) = None
   /\ snd (searchPosts P req s) = s)
  /\ (forall q,
        assoc "q" (Req.query req) = Some q -> q <> "" ->
        regex_valid P q = true -> calm s ->
        0 <= (page_of req - 1) * limit_of req ->
        (forall p, In p (posts s) -> Post.isPublished p = true ->
           regex_test P q (Post.title p) = false
           /\ regex_test P q (Post.content p) = false
           /\ regex_test P q (Post.excerpt p) = false) ->
        status (fst (searchPosts P req s)) = 200
        /\ data (json (fst (searchPosts P req s)))
           = Some (Posts (window ((page_of req - 1) * limit_of req) (limit_of req)
                            (newest_first (filter (tag_match P q) (posts s)))))
        /\ option_map totalPosts (pagination (json (fst (searchPosts P req s))))
           = Some (Z.of_nat (List.length (filter (tag_match P q) (posts s))))
        /\ (forall ps,
              data (json (fst (searchPosts P req s))) = Some (Posts ps) ->
              forall p, In p ps
                        -> In p (posts s) /\ Post.isPublished p = true
                           /\ existsb (regex_test P q) (Post.tags p) = true)
        /\ (page_of req = 1 ->
            Z.of_nat (List.length (filter (tag_match P q) (posts s)))
            <= limit_of req ->
            forall ps,
              data (json (fst (searchPosts P req s))) = Some (Posts ps) ->
              forall p, In p ps
                        <-> In p (posts s) /\ Post.isPublished p = true
                            /\ existsb (regex_test P q) (Post.tags p) = true)).
Proof.
  split.
  - intros H. rewrite (searchPosts_rejects_empty P req s H). now simpl.
  - intros q Hq Hne Hvalid Hcalm Hskip Honly.
    rewrite (searchPosts_run P req s q Hq Hne), Hvalid.
    unfold try_catch.
    rewrite (listing_calm P [And [IsPublished true; text_search q]] _ _ _ _ _ s
               Hcalm eq_refl Hskip).
    assert (Hsel : matching P [And [IsPublished true; text_search q]] s
                   = filter (tag_match P q) (posts s)).
    { unfold matching. apply filter_ext_in. intros p Hin.
      rewrite selects_search. unfold spec_search_match, tag_match.
      destruct (Post.isPublished p) eqn:Epub; [|reflexivity].
      destruct (Honly p Hin Epub) as (-> & -> & ->). reflexivity. }
    rewrite Hsel. cbn [fst snd status json data pagination ok_page option_map
                       totalPosts].
    unfold page_of_selection. fold (newest_first (filter (tag_match P q) (posts s))).
    split; [reflexivity|]. split; [reflexivity|]. split; [reflexivity|].
    split.
    + intros ps Hps p Hin. injection Hps as <-.
      apply In_window in Hin. unfold newest_first in Hin.
      rewrite sort_by_In, filter_In in Hin.
      unfold tag_match in Hin. rewrite andb_true_iff in Hin. tauto.
    + intros Hpage Hfit ps Hps. injection Hps as <-. rewrite Hpage.
      replace ((1 - 1) * limit_of req) with 0 by lia.
      rewrite window_first_page
        by (unfold newest_first; now rewrite sort_by_length).
      intros p. unfold newest_first. rewrite sort_by_In, filter_In.
      unfold tag_match. rewrite andb_true_iff. tauto.
Qed.

Lemma search_by_tag_and_empty_query_witness :
  status (fst (searchPosts Demo.platform
                 (Demo.request GET ["search"] "" [("q", "")] None)
                 Demo.store)) = 400
  /\ data (json (fst (searchPosts Demo.platform
                        (Demo.request GET ["search"] "" [("q", "ROCQ")] None)
                        Demo.store)))
     = Some (Posts [Demo.garden; Demo.hello]).
Proof.
  split.
  - apply (proj1 (search_by_tag_and_empty_query Demo.platform
                    (Demo.request GET ["search"] "" [("q", "")] None)
                    Demo.store)).
    right. reflexivity.
  - refine (proj1 (proj2 (proj2 (search_by_tag_and_empty_query Demo.platform
                    (Demo.request GET ["search"] "" [("q", "ROCQ")] None)
                    Demo.store) "ROCQ" eq_refl _ eq_refl eq_refl _ _))).
    + discriminate.
    + vm_compute. discriminate.
    + intros p Hin. simpl in Hin.
      destruct Hin as [<-|[<-|[<-|[<-|[]]]]]; intros _; vm_compute; auto.
Defined.

(** C6 without the page: it fails once the matches outnumber a page:
    eleven published posts carry the tag [rocq] and match nowhere else,
    the search names neither page nor limit, and the answer, status
    200, holds the ten newest and leaves the oldest out. *)
Lemma search_by_tag_returns_one_page :
  assoc "q" (Req.query Crowd.search) = Some "rocq"
  /\ assoc "page" (Req.query Crowd.search) = None
  /\ assoc "limit" (Req.query Crowd.search) = None
  /\ forallb (fun p => Post.isPublished p
                       && existsb (regex_test Demo.platform "rocq") (Post.tags p)
                       && negb (regex_test Demo.platform "rocq" (Post.title p))
                       && negb (regex_test Demo.platform "rocq" (Post.content p))
                       && negb (regex_test Demo.platform "rocq" (Post.excerpt p)))
       (posts Crowd.store) = true
  /\ List.length (posts Crowd.store) = 11%nat
  /\ In (Crowd.tagged 1) (posts Crowd.store)
  /\ status (fst (searchPosts Demo.platform Crowd.search Crowd.store)) = 200
  /\ data (json (fst (searchPosts Demo.platform Crowd.search Crowd.store)))
     = Some (Posts (map Crowd.tagged [11; 10; 9; 8; 7; 6; 5; 4; 3; 2]))
  /\ ~ In (Crowd.tagged 1) (map Crowd.tagged [11; 10; 9; 8; 7; 6; 5; 4; 3; 2]).
Proof.
  repeat (split; [reflexivity|]).
  split; [now left|].
  repeat (split; [vm_compute; reflexivity|]).
  intros H. apply (in_map Post.createdAt) in H. rewrite map_map in H.
  cbn in H. intuition discriminate.
Qed.

(** ** The search endpoint against the list endpoint *)

(** Two listings of the same selection, each sorted its own way. *)
Lemma listing_two (P : Platform) (q1 q2 : list Cond) (sb1 sb2 : string)
    (so1 so2 skip limit : Z) (k1 k2 : list Post.t -> Z -> Response)
    (f : Post.t -> bool) (s : Store) :
  forallb well_cast q1 = true -> forallb well_cast q2 = true ->
  (forall p, selects P q1 p = f p) ->
  (forall p, selects P q2 p = f p) ->
  match listing P q1 sb1 so1 skip limit k1 s,
        listing P q2 sb2 so2 skip limit k2 s with
  | Done r1 s1, Done r2 s2 =>
      s1 = s2
      /\ r1 = k1 (page_of_selection sb1 so1 skip limit (filter f (posts s)))
                (Z.of_nat (List.length (filter f (posts s))))
      /\ r2 = k2 (page_of_selection sb2 so2 skip limit (filter f (posts s)))
                (Z.of_nat (List.length (filter f (posts s))))
  | Raised _ s1, Raised _ s2 => s1 = s2
  | _, _ => False
  end.
Proof.
  intros Hc1 Hc2 Hs1 Hs2.
  assert (Hf1 : forall l, filter (selects P q1) l = filter f l)
    by (intros l; now apply filter_ext).
  assert (Hf2 : forall l, filter (selects P q2) l = filter f l)
    by (intros l; now apply filter_ext).
  unfold listing, bind, Post_find, Post_countDocuments, casting,
    page_of_selection.
  rewrite Hc1, Hc2.
  destruct (skip <? 0); [reflexivity|].
  unfold query, roundtrip, ret.
  destruct s as [ps cs ck [|[] [|[] o]]];
    cbn [outages posts with_outages categories clock];
    rewrite ?Hf1, ?Hf2; try reflexivity; repeat split.
Qed.

(** C7 (amended): for a non-empty search text and any page and limit,
    the list endpoint, given that text and no category or author
    filter, and the search endpoint answer with the same status and the
    same page number, page count and post count, and leave the same
    store; when they answer 200, each returns the requested page of one
    and the same selection, exactly the published posts whose title,
    content, excerpt or some tag matches the text: the search endpoint
    newest first, the list endpoint in the order its sortBy and
    sortOrder parameters ask for.  When the list request carries neither
    sortBy nor sortOrder the two answers hold the same posts in the same
    order.  Both answer 200 when the pattern compiles, the store answers
    and the page is not negative. *)
Theorem search_endpoint_agrees_with_list (P : Platform) (rl rs : Req.t)
    (s : Store) (q : string) :
  q <> "" ->
  assoc "search" (Req.query rl) = Some q ->
  assoc "category" (Req.query rl) = None ->
  assoc "author" (Req.query rl) = None ->
  assoc "q" (Req.query rs) = Some q ->
  assoc "page" (Req.query rl) = assoc "page" (Req.query rs) ->
  assoc "limit" (Req.query rl) = assoc "limit" (Req.query rs) ->
  (status (fst (getAllPosts P rl s)) = status (fst (searchPosts P rs s))
   /\ option_map currentPage (pagination (json (fst (getAllPosts P rl s))))
      = option_map currentPage (pagination (json (fst (searchPosts P rs s))))
   /\ option_map totalPages (pagination (json (fst (getAllPosts P rl s))))
      = option_map totalPages (pagination (json (fst (searchPosts P rs s))))
   /\ option_map totalPosts (pagination (json (fst (getAllPosts P rl s))))
      = option_map totalPosts (pagination (json (fst (searchPosts P rs s))))
   /\ snd (getAllPosts P rl s) = snd (searchPosts P rs s))
  /\ (status (fst (searchPosts P rs s)) = 200 ->
      data (json (fst (searchPosts P rs s)))
      = Some (Posts (window ((page_of rs - 1) * limit_of rs) (limit_of rs)
                       (newest_first
                          (filter (spec_search_match P q) (posts s)))))
      /\ data (json (fst (getAllPosts P rl s)))
         = Some (Posts (page_of_selection (sortBy_of rl) (sortOrder_of rl)
                          ((page_of rs - 1) * limit_of rs) (limit_of rs)
                          (filter (spec_search_match P q) (posts s))))
      /\ option_map totalPosts (pagination (json (fst (searchPosts P rs s))))
         = Some (Z.of_nat
                   (List.length (filter (spec_search_match P q) (posts s)))))
  /\ (assoc "sortBy" (Req.query rl) = None ->
      assoc "sortOrder" (Req.query rl) = None ->
      same_page (fst (getAllPosts P rl s)) (fst (searchPosts P rs s)))
  /\ (regex_valid P q = true -> calm s ->
      0 <= (page_of rs - 1) * limit_of rs ->
      status (fst (searchPosts P rs s)) = 200).
Proof.
  intros Hne Hsearch Hcat Hauth Hq Hpage Hlimit.
  assert (Hp : page_of rl = page_of rs) by (unfold page_of; now rewrite Hpage).
  assert (Hl : limit_of rl = limit_of rs)
    by (unfold limit_of; now rewrite Hlimit).
  assert (Hbuild : build_query P rl s
                   = if regex_valid P q
                     then Done [IsPublished true; text_search q] s
                     else Raised SyntaxError s).
  { unfold build_query. cbv zeta. rewrite Hsearch, Hcat, Hauth.
    destruct q as [|c q]; [contradiction|]. cbn [JS.truthy].
    unfold bind, new_RegExp. now destruct (regex_valid P (String c q)). }
  rewrite getAllPosts_run, Hbuild, (searchPosts_run P rs s q Hq Hne).
  rewrite Hp, Hl.
  destruct (regex_valid P q).
  - unfold try_catch.
    match goal with
    | |- context [listing P [IsPublished true; text_search q]
                    ?sb ?so ?sk ?li ?k1 s] =>
        match goal with
        | |- context [listing P [And [IsPublished true; text_search q]]
                        ?sb2 ?so2 _ _ ?k2 s] =>
            pose proof (listing_two P [IsPublished true; text_search q]
                          [And [IsPublished true; text_search q]]
                          sb sb2 so so2 sk li k1 k2 (spec_search_match P q) s
                          eq_refl eq_refl
                          (selects_list_search P q) (selects_search P q)) as H;
            pose proof (listing_calm P
                          [And [IsPublished true; text_search q]]
                          sb2 so2 sk li k2 s) as Hcalmly
        end
    end.
    destruct (listing P [IsPublished true; text_search q] _ _ _ _ _ s)
      as [r1 s1|e1 s1],
             (listing P [And [IsPublished true; text_search q]] _ _ _ _ _ s)
      as [r2 s2|e2 s2]; try contradiction.
    + destruct H as (-> & -> & ->).
      cbn [fst snd status json data pagination ok_page option_map
           currentPage totalPages totalPosts].
      split; [repeat split|]. split; [intros _; repeat split|].
      split; [|reflexivity].
      intros HsortBy HsortOrder. unfold sortBy_of, sortOrder_of.
      rewrite HsortBy, HsortOrder. repeat split.
    + subst s2. cbn [fst snd].
      split; [repeat split|]. split; [discriminate|].
      split; [repeat split|].
      intros _ Hcalm Hskip. discriminate (Hcalmly Hcalm eq_refl Hskip).
  - cbn [fst snd]. split; [repeat split|]. split; [discriminate|].
    split; [repeat split|discriminate].
Qed.

Lemma search_endpoint_agrees_with_list_witness :
  data (json (fst (getAllPosts Demo.platform
                     (Demo.request GET [] "" [("search", "rocq"); ("limit", "1")]
                        None) Demo.store)))
  = data (json (fst (searchPosts Demo.platform
                       (Demo.request GET ["search"] "" [("limit", "1"); ("q", "rocq")]
                          None) Demo.store))).
Proof.
  refine (proj1 (proj2 (proj1 (proj2 (proj2
            (search_endpoint_agrees_with_list Demo.platform
               (Demo.request GET [] "" [("search", "rocq"); ("limit", "1")] None)
               (Demo.request GET ["search"] "" [("limit", "1"); ("q", "rocq")] None)
               Demo.store "rocq" _ eq_refl eq_refl eq_refl eq_refl eq_refl
               eq_refl))) eq_refl eq_refl))).
  discriminate.
Defined.

(** C7 without the sort order: it fails once the list request asks for
    its own order: with [sortOrder=asc] and one post a page, the list
    endpoint answers with the oldest match, the search endpoint with the
    newest, although neither request carries a category or author
    filter and both carry the same text, page and limit. *)
Lemma search_endpoint_differs_under_sortOrder :
  assoc "search" (Req.query Ordered.by_list) = Some "rocq"
  /\ assoc "q" (Req.query Ordered.by_search) = Some "rocq"
  /\ assoc "category" (Req.query Ordered.by_list) = None
  /\ assoc "author" (Req.query Ordered.by_list) = None
  /\ assoc "page" (Req.query Ordered.by_list) = assoc "page" (Req.query Ordered.by_search)
  /\ assoc "limit" (Req.query Ordered.by_list)
     = assoc "limit" (Req.query Ordered.by_search)
  /\ data (json (fst (getAllPosts Demo.platform Ordered.by_list Demo.store)))
     = Some (Posts [Demo.hello])
  /\ data (json (fst (searchPosts Demo.platform Ordered.by_search Demo.store)))
     = Some (Posts [Demo.garden])
  /\ data (json (fst (getAllPosts Demo.platform Ordered.by_list Demo.store)))
     <> data (json (fst (searchPosts Demo.platform Ordered.by_search Demo.store))).
Proof.
  repeat (split; [reflexivity|]).
  vm_compute. discriminate.
Qed.

(** ** The my-posts route *)

Lemma getMyPosts_lists_own_posts (P : Platform) (req : Req.t) (s : Store)
    (user : User.t) :
  Req.user req = Some user -> calm s ->
  0 <= (page_of req - 1) * limit_of req ->
  status (fst (getMyPosts P req s)) = 200
  /\ data (json (fst (getMyPosts P req s)))
     = Some (Posts (window ((page_of req - 1) * limit_of req) (limit_of req)
                      (newest_first
                         (filter (fun p => String.eqb (Post.author p)
                                             (User._id user)) (posts s))))).
Proof.
  intros Huser Hcalm Hskip. unfold getMyPosts, try_catch. cbv zeta.
  rewrite Huser.
  pose proof (listing_calm P [AuthorIs (Oid (User._id user))] "createdAt" (-1)
                ((page_of req - 1) * limit_of req) (limit_of req)
                (fun posts total =>
                   ok_page (Posts posts)
                     (mkPagination (page_of req)
                        (JS.ceil_div total (limit_of req)) total (limit_of req)
                        None None None)) s Hcalm eq_refl Hskip) as H.
  unfold listing in H. rewrite H.
  rewrite (matching_ext P _ (fun p => String.eqb (Post.author p) (User._id user)) s)
    by (intros p; simpl; apply andb_true_r).
  split; reflexivity.
Qed.

(** Every GET request for a single path segment other than [search] is
    answered by [getPost], whatever the middleware of the later routes
    does: the route [/:id] is registered before [/my-posts]. *)
Lemma single_segment_goes_to_getPost (P : Platform)
    (protect uploadSingle : Middleware)
    (post_chains comment_chains : Req.t -> Req.t * list ValidationIssue)
    (req : Req.t) (s : Store) (seg : string) :
  Req.method req = GET ->
  Req.path req = [seg] ->
  JS.toLowerCase seg <> "search" ->
  dispatch (router P protect uploadSingle post_chains comment_chains) req s
  = Some (getPost P (Req.with_params_id seg req) s).
Proof.
  intros Hm Hp Hseg. unfold router, dispatch.
  rewrite Hm, Hp. cbn [route_method route_path route_stack method_eqb match_path].
  change (JS.toLowerCase "search") with "search".
  replace (String.eqb "search" (JS.toLowerCase seg)) with false
    by (symmetry; apply String.eqb_neq; congruence).
  cbn [run_stack]. unfold final at 1.
  now destruct (getPost P (Req.with_params_id seg req) s).
Qed.

(** C2 (the code departs from the claim): a GET request to the my-posts
    endpoint by an authenticated user who has written two posts is
    answered by the single-post handler, which looks for a post whose
    slug is [my-posts] and answers 404, although the my-posts handler on
    the same request lists exactly that user's posts. *)
Theorem my_posts_request_answered_by_getPost :
  dispatch Demo.open_router
    (Demo.request GET ["my-posts"] "" [] (Some Demo.alice)) Demo.store
  = Some (failure 404 "Post not found", Demo.store)
  /\ data (json (fst (getMyPosts Demo.platform
                        (Demo.request GET ["my-posts"] "" [] (Some Demo.alice))
                        Demo.store)))
     = Some (Posts [Demo.draft; Demo.hello]).
Proof.
  split.
  - unfold Demo.open_router.
    rewrite (single_segment_goes_to_getPost Demo.platform Demo.pass Demo.pass
               _ _ (Demo.request GET ["my-posts"] "" [] (Some Demo.alice))
               Demo.store "my-posts" eq_refl eq_refl)
      by (vm_compute; discriminate).
    reflexivity.
  - reflexivity.
Qed.

(** ** The routes of the mutating handlers *)

(** [DELETE /:id] reaches [deletePost] exactly when [protect] lets the
    request through. *)
Lemma delete_route_reaches_deletePost (P : Platform)
    (protect uploadSingle : Middleware)
    (post_chains comment_chains : Req.t -> Req.t * list ValidationIssue)
    (req : Req.t) (s : Store) (seg : string) :
  Req.method req = DELETE ->
  Req.path req = [seg] ->
  dispatch (router P protect uploadSingle post_chains comment_chains) req s
  = match protect (Req.with_params_id seg req) s with
    | Answer r s' => Some (r, s')
    | Next req' s' => Some (deletePost P req' s')
    end.
Proof.
  intros Hm Hp. unfold router, dispatch. rewrite Hm, Hp.
  cbn [route_method route_path route_stack method_eqb match_path run_stack].
  destruct (protect (Req.with_params_id seg req) s) as [r s'|req' s'];
    [reflexivity|].
  unfold final. now destruct (deletePost P req' s').
Qed.

(** [PUT /:id] reaches [updatePost] exactly when [protect] and
    [uploadSingle] let the request through and validation finds no issue;
    a validation failure is answered before the handler runs. *)
Lemma put_route_reaches_updatePost (P : Platform)
    (protect uploadSingle : Middleware)
    (post_chains comment_chains : Req.t -> Req.t * list ValidationIssue)
    (req : Req.t) (s : Store) (seg : string) :
  Req.method req = PUT ->
  Req.path req = [seg] ->
  dispatch (router P protect uploadSingle post_chains comment_chains) req s
  = match protect (Req.with_params_id seg req) s with
    | Answer r s1 => Some (r, s1)
    | Next req1 s1 =>
        match uploadSingle req1 s1 with
        | Answer r s2 => Some (r, s2)
        | Next req2 s2 =>
            match handleValidationErrors (snd (post_chains req2)) with
            | Some r => Some (r, s2)
            | None => Some (updatePost P (fst (post_chains req2)) s2)
            end
        end
    end.
Proof.
  intros Hm Hp. unfold router, dispatch. rewrite Hm, Hp.
  cbn [route_method route_path route_stack method_eqb match_path run_stack].
  destruct (protect (Req.with_params_id seg req) s) as [r s1|req1 s1];
    [reflexivity|].
  destruct (uploadSingle req1 s1) as [r s2|req2 s2]; [reflexivity|].
  unfold validatePost, validating.
  destruct (post_chains req2) as [req3 issues]. cbn [fst snd].
  destruct (handleValidationErrors issues) as [r|]; [reflexivity|].
  unfold final. now destruct (updatePost P req3 s2).
Qed.

(** * Further properties of the handlers *)

(** ** What a handler leaves untouched *)

Lemma keeps_ret {A} (a : A) : keeps (ret a).
Proof. intros s. now split. Qed.

Lemma keeps_throw {A} (e : Exn) : keeps (@throw A e).
Proof. intros s. now split. Qed.

Lemma keeps_bind {A B} (m : M A) (k : A -> M B) :
  keeps m -> (forall a, keeps (k a)) -> keeps (bind m k).
Proof.
  intros Hm Hk s. unfold bind. specialize (Hm s).
  destruct (m s) as [a s1|e s1]; [|exact Hm].
  specialize (Hk a s1). destruct Hm as [Hp Hc].
  destruct (k a s1); now rewrite <- Hp, <- Hc.
Qed.

Lemma keeps_casting {A} (ok : bool) (m : M A) :
  keeps m -> keeps (casting ok m).
Proof. destruct ok; simpl; [trivial | intros _; apply keeps_throw]. Qed.

Lemma keeps_query {A} (f : Store -> A) : keeps (query f).
Proof.
  intros s. destruct (query_outcome f s) as [(s1 & E & H)|(s1 & E & H)];
    now rewrite E.
Qed.

Lemma keeps_Post_find (P : Platform) (q : list Cond) (sortBy : string)
    (sortOrder skip limit : Z) :
  keeps (Post_find P q sortBy sortOrder skip limit).
Proof.
  unfold Post_find. apply keeps_casting.
  destruct (skip <? 0); [apply keeps_throw | apply keeps_query].
Qed.

Lemma keeps_Post_countDocuments (P : Platform) (q : list Cond) :
  keeps (Post_countDocuments P q).
Proof. unfold Post_countDocuments. apply keeps_casting, keeps_query. Qed.

Lemma keeps_Post_findOne (P : Platform) (q : list Cond) :
  keeps (Post_findOne P q).
Proof. unfold Post_findOne. apply keeps_casting, keeps_query. Qed.

Lemma keeps_Category_findOne (q : list CatCond) : keeps (Category_findOne q).
Proof. unfold Category_findOne. apply keeps_casting, keeps_query. Qed.

Lemma keeps_Category_find_sorted (q : list CatCond) :
  keeps (Category_find_sorted q).
Proof. unfold Category_find_sorted. apply keeps_casting, keeps_query. Qed.

Lemma keeps_build_query (P : Platform) (req : Req.t) :
  keeps (build_query P req).
Proof.
  unfold build_query, new_RegExp. cbv zeta.
  destruct (assoc "search" (Req.query req)) as [t|]; [|apply keeps_ret].
  destruct (JS.truthy (Some t)); [|apply keeps_ret].
  apply keeps_bind; [|intros; apply keeps_ret].
  destruct (regex_valid P t); [apply keeps_ret | apply keeps_throw].
Qed.

Lemma try_catch_keeps (m : M Response) (s : Store) :
  keeps m ->
  posts (snd (try_catch m s)) = posts s
  /\ categories (snd (try_catch m s)) = categories s.
Proof.
  intros H. unfold try_catch. specialize (H s). now destruct (m s).
Qed.

Ltac keeps_step :=
  first
    [ apply keeps_ret
    | apply keeps_throw
    | apply keeps_Post_find
    | apply keeps_Post_countDocuments
    | apply keeps_Post_findOne
    | apply keeps_Category_findOne
    | apply keeps_Category_find_sorted
    | apply keeps_build_query
    | apply keeps_bind; [|intros]
    | match goal with
      | |- keeps (match ?x with _ => _ end) => destruct x
      end ].

Ltac keeps_all := cbv beta zeta; repeat (keeps_step; cbv beta zeta).

(** X1: the six listing and lookup handlers other than [getPost] never
    change a stored post or category, whatever the request is and whether
    or not the store fails. *)
Theorem read_handlers_keep_documents (P : Platform) (req : Req.t) (s : Store) :
  let unchanged (h : Handler) :=
    posts (snd (h req s)) = posts s
    /\ categories (snd (h req s)) = categories s in
  unchanged getAllCategories
  /\ unchanged getCategory
  /\ unchanged (getPostsByCategory P)
  /\ unchanged (getAllPosts P)
  /\ unchanged (searchPosts P)
  /\ unchanged (getMyPosts P).
Proof.
  cbv zeta.
  repeat match goal with |- _ /\ _ => split end;
    try (apply try_catch_keeps; unfold new_RegExp; keeps_all;
         try (destruct (regex_valid P _); keeps_all)).
Qed.

Lemma rejects_cleanly_ret (r : Response) : rejects_cleanly (ret r).
Proof. intros s _. now split. Qed.

Lemma rejects_cleanly_throw (e : Exn) : rejects_cleanly (throw e).
Proof. intros s. exact I. Qed.

Lemma rejects_cleanly_bind_keeps {A} (m : M A) (k : A -> M Response) :
  keeps m -> (forall a, rejects_cleanly (k a)) -> rejects_cleanly (bind m k).
Proof.
  intros Hm Hk s. unfold bind. specialize (Hm s).
  destruct (m s) as [a s1|e s1]; [|exact I].
  specialize (Hk a s1). destruct Hm as [Hp Hc].
  destruct (k a s1); [|exact I]. now rewrite <- Hp, <- Hc.
Qed.

Lemma rejects_cleanly_bind_after {A} (m : M A) (k : A -> M Response) :
  (forall a, always (k a) (fun r => ~ 400 <= status r < 500)) ->
  rejects_cleanly (bind m k).
Proof.
  intros Hk s. unfold bind. destruct (m s) as [a s1|e s1]; [|exact I].
  specialize (Hk a s1). destruct (k a s1); [|exact I]. tauto.
Qed.

Lemma try_catch_rejects_cleanly (m : M Response) (s : Store) :
  rejects_cleanly m ->
  400 <= status (fst (try_catch m s)) < 500 ->
  posts (snd (try_catch m s)) = posts s
  /\ categories (snd (try_catch m s)) = categories s.
Proof.
  intros H. unfold try_catch. specialize (H s).
  destruct (m s); simpl; [exact H | lia].
Qed.

Ltac never_4xx :=
  cbv beta zeta;
  repeat (first
            [ apply always_ret; simpl; lia
            | apply always_throw
            | apply always_bind; intros
            | apply always_casting
            | match goal with
              | |- always (match ?x with _ => _ end) _ => destruct x
              end ]; cbv beta zeta).

Ltac rejects_step :=
  first
    [ apply rejects_cleanly_ret
    | apply rejects_cleanly_throw
    | apply rejects_cleanly_bind_keeps; [solve [keeps_all] | intros]
    | apply rejects_cleanly_bind_after; intros; solve [never_4xx]
    | match goal with
      | |- rejects_cleanly (match ?x with _ => _ end) => destruct x
      end ].

Ltac rejects_all := cbv beta zeta; repeat (rejects_step; cbv beta zeta).

(** X2: whenever a post or category handler answers with a client-error
    status (400, 403, 404), no stored post and no stored category has
    been changed, for every request, store and failure script. *)
Theorem client_errors_change_nothing (P : Platform) (e : Endpoint)
    (req : Req.t) (s : Store) :
  400 <= status (fst (handler_of P e req s)) < 500 ->
  posts (snd (handler_of P e req s)) = posts s
  /\ categories (snd (handler_of P e req s)) = categories s.
Proof.
  destruct e; simpl handler_of; apply try_catch_rejects_cleanly;
    unfold new_RegExp; rejects_all.
Qed.

Lemma client_errors_change_nothing_witness :
  posts (snd (handler_of Demo.platform DeletePost
                (Demo.request DELETE ["bbbbbbbbbbbbbbbbbbbbbb01"]
                   "bbbbbbbbbbbbbbbbbbbbbb01" [] (Some Demo.bob))
                Demo.store)) = posts Demo.store
  /\ categories (snd (handler_of Demo.platform DeletePost
                        (Demo.request DELETE ["bbbbbbbbbbbbbbbbbbbbbb01"]
                           "bbbbbbbbbbbbbbbbbbbbbb01" [] (Some Demo.bob))
                        Demo.store)) = categories Demo.store.
Proof.
  apply (client_errors_change_nothing Demo.platform DeletePost
           (Demo.request DELETE ["bbbbbbbbbbbbbbbbbbbbbb01"]
              "bbbbbbbbbbbbbbbbbbbbbb01" [] (Some Demo.bob)) Demo.store).
  vm_compute. split; [discriminate | reflexivity].
Defined.

(** ** What the list endpoint returns *)

Lemma In_page_of_selection (sortBy : string) (sortOrder skip limit : Z)
    (sel : list Post.t) (p : Post.t) :
  In p (page_of_selection sortBy sortOrder skip limit sel) -> In p sel.
Proof.
  unfold page_of_selection, window. intros H.
  apply In_firstn_self, In_skipn_self in H. now apply sort_by_In in H.
Qed.

Lemma build_query_done (P : Platform) (req : Req.t) (s s1 : Store)
    (q : list Cond) :
  build_query P req s = Done q s1 ->
  s1 = s
  /\ In (IsPublished true) q
  /\ (forall c, assoc "category" (Req.query req) = Some c -> c <> "" ->
        In (CategoryIs (Raw c)) q)
  /\ (forall a, assoc "author" (Req.query req) = Some a -> a <> "" ->
        In (AuthorIs (Raw a)) q)
  /\ (forall t, assoc "search" (Req.query req) = Some t -> t <> "" ->
        In (text_search t) q).
Proof.
  unfold build_query. cbv zeta.
  assert (Htruthy : forall x, x <> "" -> JS.truthy (Some x) = true)
    by (intros [|c x] H; [contradiction | reflexivity]).
  match goal with
  | |- match assoc "search" _ with Some t => _ | None => ret ?q end s = _ -> _ =>
      set (q0 := q)
  end.
  assert (Hq0 : In (IsPublished true) q0
                /\ (forall c, assoc "category" (Req.query req) = Some c ->
                      c <> "" -> In (CategoryIs (Raw c)) q0)
                /\ (forall a, assoc "author" (Req.query req) = Some a ->
                      a <> "" -> In (AuthorIs (Raw a)) q0));
    [subst q0|clearbody q0; destruct Hq0 as (H1 & H2 & H3)].
  { destruct (assoc "category" (Req.query req)) as [c|] eqn:Ec;
      destruct (assoc "author" (Req.query req)) as [a|] eqn:Ea;
      repeat split; intros; try discriminate;
      repeat match goal with
             | H : Some _ = Some _ |- _ => injection H as <-
             | H : ?x <> "" |- _ => rewrite (Htruthy x H); clear H
             | |- context [if ?b then _ else _] => destruct b
             end; simpl; auto 6. }
  destruct (assoc "search" (Req.query req)) as [t|] eqn:Et.
  - destruct (JS.truthy (Some t)) eqn:Ett.
    + unfold bind, new_RegExp. destruct (regex_valid P t); [|discriminate].
      unfold ret. intros H. injection H as <- <-.
      split; [reflexivity|]. split; [apply in_or_app; now left|].
      split; [intros; apply in_or_app; left; now apply H2|].
      split; [intros; apply in_or_app; left; now apply H3|].
      intros t' Ht' _. injection Ht' as <-. apply in_or_app. right. now left.
    + unfold ret. intros H. injection H as <- <-.
      repeat split; trivial.
      intros t' Ht' Hne. injection Ht' as <-.
      rewrite (Htruthy t Hne) in Ett. discriminate.
  - unfold ret. intros H. injection H as <- <-.
    repeat split; trivial. discriminate.
Qed.

Lemma selects_In (P : Platform) (q : list Cond) (c : Cond) (p : Post.t) :
  selects P q p = true -> In c q -> matches P c p = true.
Proof.
  unfold selects. rewrite forallb_forall. intros H Hin. now apply H.
Qed.

(** X3: every post in an answer of the list endpoint is a stored,
    published post that satisfies each filter the request carries
    (category and author by identifier, search text on title, content,
    excerpt or a tag), and the answer holds at most [limit] posts. *)
Theorem getAllPosts_returns_only_matches (P : Platform) (req : Req.t)
    (s : Store) (ps : list Post.t) :
  data (json (fst (getAllPosts P req s))) = Some (Posts ps) ->
  Z.of_nat (List.length ps) <= Z.abs (limit_of req)
  /\ forall p, In p ps ->
       In p (posts s)
       /\ Post.isPublished p = true
       /\ (forall c, assoc "category" (Req.query req) = Some c -> c <> "" ->
             Post.category p = JS.toLowerCase c)
       /\ (forall a, assoc "author" (Req.query req) = Some a -> a <> "" ->
             Post.author p = JS.toLowerCase a)
       /\ (forall t, assoc "search" (Req.query req) = Some t -> t <> "" ->
             (regex_test P t (Post.title p)
              || regex_test P t (Post.content p)
              || regex_test P t (Post.excerpt p)
              || existsb (regex_test P t) (Post.tags p))%bool = true).
Proof.
  rewrite getAllPosts_run.
  destruct (build_query P req s) as [q s1|e s1] eqn:Eq; [|discriminate].
  apply build_query_done in Eq as (-> & Hpub & Hcat & Hauth & Hsearch).
  unfold try_catch.
  match goal with
  | |- context [listing P q ?sb ?so ?sk ?li ?k s] =>
      destruct (listing_outcome P q sb so sk li k s)
        as [(e & s' & E & _)|(s' & E & _)]
  end; rewrite E; [discriminate|].
  cbn [fst json data ok_page]. intros H. injection H as <-. split.
  - unfold page_of_selection, window.
    pose proof (firstn_le_length (Z.to_nat (Z.abs (limit_of req)))
                  (skipn (Z.to_nat ((page_of req - 1) * limit_of req))
                     (sort_by (directed (Post.compare_field (sortBy_of req))
                                 (sortOrder_of req)) (matching P q s)))).
    lia.
  - intros p Hp. apply In_page_of_selection in Hp.
    unfold matching in Hp. apply filter_In in Hp as [Hin Hsel].
    split; [exact Hin|]. split; [|split; [|split]].
    + pose proof (selects_In P q _ p Hsel Hpub) as H. simpl in H.
      now destruct (Post.isPublished p).
    + intros c Hc Hne.
      pose proof (selects_In P q _ p Hsel (Hcat c Hc Hne)) as H.
      now apply String.eqb_eq in H.
    + intros a Ha Hne.
      pose proof (selects_In P q _ p Hsel (Hauth a Ha Hne)) as H.
      now apply String.eqb_eq in H.
    + intros t Ht Hne.
      pose proof (selects_In P q _ p Hsel (Hsearch t Ht Hne)) as H.
      simpl in H. rewrite orb_false_r in H. now rewrite <- !orb_assoc.
Qed.

Lemma getAllPosts_returns_only_matches_witness :
  Z.of_nat (List.length [Demo.garden]) <= Z.abs 1
  /\ Post.isPublished Demo.garden = true.
Proof.
  pose proof (getAllPosts_returns_only_matches Demo.platform
                (Demo.request GET [] "" [("search", "rocq"); ("limit", "1")] None)
                Demo.store [Demo.garden] eq_refl) as [Hlen Hall].
  split; [exact Hlen|].
  apply (Hall Demo.garden). now left.
Defined.

Lemma ceil_div_bounds (total limit : Z) :
  1 <= limit ->
  (JS.ceil_div total limit - 1) * limit < total <= JS.ceil_div total limit * limit.
Proof.
  intros Hl. unfold JS.ceil_div.
  pose proof (Z.mul_div_le (- total) limit ltac:(lia)).
  pose proof (Z.mul_succ_div_gt (- total) limit ltac:(lia)).
  nia.
Qed.

Lemma page_before_ceil (page total limit : Z) :
  1 <= limit ->
  (page < JS.ceil_div total limit <-> page * limit < total).
Proof.
  intros Hl. pose proof (ceil_div_bounds total limit Hl). split; nia.
Qed.

Lemma window_length {A} (skip limit : Z) (l : list A) :
  0 <= skip -> 0 <= limit ->
  Z.of_nat (List.length (window skip limit l))
  = Z.max 0 (Z.min limit (Z.of_nat (List.length l) - skip)).
Proof.
  intros Hs Hl. unfold window. rewrite length_firstn, length_skipn. lia.
Qed.

(** X4: in a successful answer of the list endpoint with page and limit
    at least one, the number of posts returned is the part of the
    selection that falls on that page, [hasNextPage] holds exactly when
    posts remain beyond the page, [hasPrevPage] exactly when the page is
    not the first, and no page up to [totalPages] is empty. *)
Theorem getAllPosts_page_arithmetic (P : Platform) (req : Req.t) (s : Store)
    (pg : Pagination) (ps : list Post.t) :
  pagination (json (fst (getAllPosts P req s))) = Some pg ->
  data (json (fst (getAllPosts P req s))) = Some (Posts ps) ->
  1 <= currentPage pg ->
  1 <= postsPerPage pg ->
  Z.of_nat (List.length ps)
  = Z.max 0 (Z.min (postsPerPage pg)
               (totalPosts pg - (currentPage pg - 1) * postsPerPage pg))
  /\ (hasNextPage pg = Some true
      <-> currentPage pg * postsPerPage pg < totalPosts pg)
  /\ (hasPrevPage pg = Some true <-> 1 < currentPage pg)
  /\ (currentPage pg <= totalPages pg -> ps <> []).
Proof.
  destruct (getAllPosts_outcome P req s) as [E|(q & _ & E & _)]; rewrite E;
    [discriminate|].
  cbn [json pagination data ok_page]. intros Hpg Hps.
  injection Hpg as <-. injection Hps as <-.
  cbn [currentPage postsPerPage totalPosts totalPages hasNextPage hasPrevPage].
  intros Hpage Hlimit.
  set (total := Z.of_nat (List.length (matching P q s))).
  assert (Hlen : Z.of_nat (List.length
                             (page_of_selection (sortBy_of req) (sortOrder_of req)
                                ((page_of req - 1) * limit_of req) (limit_of req)
                                (matching P q s)))
                 = Z.max 0 (Z.min (limit_of req)
                              (total - (page_of req - 1) * limit_of req))).
  { unfold page_of_selection. rewrite window_length by nia.
    now rewrite sort_by_length. }
  split; [exact Hlen|]. split; [|split].
  - rewrite <- (page_before_ceil (page_of req) total (limit_of req) Hlimit).
    rewrite <- Z.ltb_lt. split; [now injection 1 | now intros ->].
  - rewrite Z.gtb_ltb, <- Z.ltb_lt.
    split; [now injection 1 | now intros ->].
  - intros Hle Hnil. rewrite Hnil in Hlen. simpl in Hlen.
    pose proof (ceil_div_bounds total (limit_of req) Hlimit). nia.
Qed.

Lemma getAllPosts_page_arithmetic_witness :
  Z.of_nat (List.length [Demo.hello])
  = Z.max 0 (Z.min 2 (3 - (2 - 1) * 2)).
Proof.
  apply (getAllPosts_page_arithmetic Demo.platform
           (Demo.request GET [] "" [("page", "2"); ("limit", "2")] None)
           Demo.store (mkPagination 2 2 3 2 (Some false) (Some true) None)
           [Demo.hello] eq_refl eq_refl); simpl; lia.
Defined.

(** ** The other paginated handlers *)

(** X5: the my-posts handler answers only with posts written by the
    requester; when the store answers it returns the requested page of
    all of them, drafts included, newest first, and counts them. *)
Theorem getMyPosts_own_posts_only (P : Platform) (req : Req.t) (s : Store)
    (user : User.t) :
  Req.user req = Some user ->
  (forall ps, data (json (fst (getMyPosts P req s))) = Some (Posts ps) ->
     forall p, In p ps -> In p (posts s) /\ Post.author p = User._id user)
  /\ (calm s -> 0 <= (page_of req - 1) * limit_of req ->
      status (fst (getMyPosts P req s)) = 200
      /\ data (json (fst (getMyPosts P req s)))
         = Some (Posts (window ((page_of req - 1) * limit_of req) (limit_of req)
                          (newest_first
                             (filter (fun p => String.eqb (Post.author p)
                                                 (User._id user)) (posts s)))))
      /\ option_map totalPosts (pagination (json (fst (getMyPosts P req s))))
         = Some (Z.of_nat
                   (List.length
                      (filter (fun p => String.eqb (Post.author p)
                                          (User._id user)) (posts s))))).
Proof.
  intros Huser.
  assert (Hrun : getMyPosts P req s
                 = try_catch
                     (listing P [AuthorIs (Oid (User._id user))] "createdAt" (-1)
                        ((page_of req - 1) * limit_of req) (limit_of req)
                        (fun posts total =>
                           ok_page (Posts posts)
                             (mkPagination (page_of req)
                                (JS.ceil_div total (limit_of req)) total
                                (limit_of req) None None None))) s).
  { unfold getMyPosts. cbv zeta. now rewrite Huser. }
  assert (Hsel : matching P [AuthorIs (Oid (User._id user))] s
                 = filter (fun p => String.eqb (Post.author p) (User._id user))
                     (posts s))
    by (apply matching_ext; intros p; simpl; apply andb_true_r).
  rewrite Hrun. unfold try_catch. split.
  - destruct (listing_outcome P [AuthorIs (Oid (User._id user))] "createdAt" (-1)
                ((page_of req - 1) * limit_of req) (limit_of req)
                (fun posts total =>
                   ok_page (Posts posts)
                     (mkPagination (page_of req)
                        (JS.ceil_div total (limit_of req)) total
                        (limit_of req) None None None)) s)
      as [(e & s' & E & _)|(s' & E & _)]; rewrite E; [discriminate|].
    cbn [fst json data ok_page]. intros ps Hps p Hp. injection Hps as <-.
    apply In_page_of_selection in Hp. rewrite Hsel in Hp.
    apply filter_In in Hp as [Hin He]. now apply String.eqb_eq in He.
  - intros Hcalm Hskip.
    rewrite (listing_calm P [AuthorIs (Oid (User._id user))] _ _ _ _ _ s
               Hcalm eq_refl Hskip), Hsel.
    repeat split.
Qed.

Lemma getMyPosts_own_posts_only_witness :
  data (json (fst (getMyPosts Demo.platform
                     (Demo.request GET ["my-posts"] "" [] (Some Demo.alice))
                     Demo.store)))
  = Some (Posts (window ((1 - 1) * 10) 10
                   (newest_first
                      (filter (fun p => String.eqb (Post.author p)
                                          (User._id Demo.alice))
                         (posts Demo.store))))).
Proof.
  apply (getMyPosts_own_posts_only Demo.platform
           (Demo.request GET ["my-posts"] "" [] (Some Demo.alice))
           Demo.store Demo.alice eq_refl); [reflexivity | simpl; lia].
Defined.

(** X6: the posts-by-category handler answers not-found when no category
    has the given identifier or slug; otherwise it returns that category
    with the requested page of exactly the published posts that reference
    it, newest first, and a total that counts published posts only. *)
Theorem getPostsByCategory_published_of_category (P : Platform) (req : Req.t)
    (s : Store) :
  calm s ->
  0 <= (page_of req - 1) * limit_of req ->
  match find (fun k => forallb (fun c => cat_matches c k)
                         (category_lookup (Req.params_id req)))
          (categories s) with
  | None => fst (getPostsByCategory P req s) = failure 404 "Category not found"
  | Some c =>
      let sel := filter (fun p => (String.eqb (Post.category p) (Category._id c)
                                   && Post.isPublished p)%bool) (posts s) in
      fst (getPostsByCategory P req s)
      = ok_data 200
          (CategoryPosts c
             (window ((page_of req - 1) * limit_of req) (limit_of req)
                (newest_first sel))
             (mkPagination (page_of req)
                (JS.ceil_div (Z.of_nat (List.length sel)) (limit_of req))
                (Z.of_nat (List.length sel)) (limit_of req) None None None))
  end.
Proof.
  intros Hcalm Hskip.
  assert (Hrun : forall r,
            find (fun k => forallb (fun c => cat_matches c k)
                             (category_lookup (Req.params_id req)))
              (categories s) = r ->
            getPostsByCategory P req s
            = try_catch
                (match r with
                 | None => ret (failure 404 "Category not found")
                 | Some c =>
                     listing P [CategoryIs (Oid (Category._id c)); IsPublished true]
                       "createdAt" (-1) ((page_of req - 1) * limit_of req)
                       (limit_of req)
                       (fun posts total =>
                          ok_data 200
                            (CategoryPosts c posts
                               (mkPagination (page_of req)
                                  (JS.ceil_div total (limit_of req)) total
                                  (limit_of req) None None None)))
                 end) s).
  { intros r <-. unfold getPostsByCategory, try_catch. cbv zeta.
    unfold bind at 1. unfold Category_findOne, casting.
    rewrite category_lookup_well_cast, (query_calm _ s Hcalm).
    now destruct (find _ (categories s)). }
  destruct (find _ (categories s)) as [c|] eqn:Efind;
    rewrite (Hrun _ eq_refl); [|reflexivity].
  unfold try_catch.
  pose proof (listing_calm P [CategoryIs (Oid (Category._id c)); IsPublished true]
                "createdAt" (-1) ((page_of req - 1) * limit_of req) (limit_of req)
                (fun posts total =>
                   ok_data 200
                     (CategoryPosts c posts
                        (mkPagination (page_of req)
                           (JS.ceil_div total (limit_of req)) total
                           (limit_of req) None None None)))
                s Hcalm eq_refl Hskip) as H.
  rewrite H.
  rewrite (matching_ext P _
             (fun p => (String.eqb (Post.category p) (Category._id c)
                        && Post.isPublished p)%bool) s).
  - reflexivity.
  - intros p. simpl. rewrite andb_true_r.
    now destruct (Post.isPublished p).
Qed.

Lemma getPostsByCategory_published_of_category_witness :
  fst (getPostsByCategory Demo.platform
         (Demo.request GET ["tech"; "posts"] "tech" [("limit", "2")] None)
         Demo.store)
  = ok_data 200
      (CategoryPosts Demo.tech [Demo.hexed; Demo.garden]
         (mkPagination 1 2 3 2 None None None)).
Proof.
  apply (getPostsByCategory_published_of_category Demo.platform
           (Demo.request GET ["tech"; "posts"] "tech" [("limit", "2")] None)
           Demo.store eq_refl).
  simpl. lia.
Defined.

(** ** Updating and deleting posts *)

Lemma Post_findById_calm (P : Platform) (id : string) (s : Store) :
  calm s -> JS.isObjectId id = true ->
  Post_findById P (Raw id) s = Done (stored_post (JS.toLowerCase id) s) s.
Proof.
  intros Hcalm Hid. unfold Post_findById, Post_findOne, casting.
  cbn [forallb well_cast castable]. rewrite Hid. cbn [andb].
  rewrite (query_calm _ s Hcalm). unfold stored_post. f_equal.
  apply find_ext. intros p. simpl. apply andb_true_r.
Qed.

Lemma Post_findById_oid_calm (P : Platform) (id : ObjectId) (s : Store) :
  calm s ->
  Post_findById P (Oid id) s = Done (stored_post id s) s.
Proof.
  intros Hcalm. unfold Post_findById, Post_findOne, casting.
  cbn [forallb well_cast castable andb].
  rewrite (query_calm _ s Hcalm). unfold stored_post. f_equal.
  apply find_ext. intros p. simpl. apply andb_true_r.
Qed.

Lemma find_filter_other (id id' : ObjectId) (ps : list Post.t) :
  id' <> id ->
  find (fun d => String.eqb (Post._id d) id')
    (filter (fun d => negb (String.eqb (Post._id d) id)) ps)
  = find (fun d => String.eqb (Post._id d) id') ps.
Proof.
  intros Hne. induction ps as [|d r IH]; [reflexivity|]. simpl.
  destruct (String.eqb (Post._id d) id) eqn:E; simpl.
  - apply String.eqb_eq in E.
    replace (String.eqb (Post._id d) id') with false
      by (symmetry; apply String.eqb_neq; congruence).
    exact IH.
  - now rewrite IH.
Qed.

Lemma deletePost_missing (P : Platform) (req : Req.t) (s : Store) :
  calm s ->
  JS.isObjectId (Req.params_id req) = true ->
  stored_post (JS.toLowerCase (Req.params_id req)) s = None ->
  deletePost P req s = (failure 404 "Post not found", s).
Proof.
  intros Hcalm Hid Hnone. unfold deletePost, try_catch, bind. cbv zeta.
  now rewrite (Post_findById_calm P _ s Hcalm Hid), Hnone.
Qed.

(** X7: a request to update, delete or comment on a post that is not
    stored is answered 404 and changes nothing, whoever sends it: the
    existence check comes before the ownership check, and before
    [req.user] is read. *)
Theorem missing_post_is_not_found (P : Platform) (req : Req.t) (s : Store) :
  calm s ->
  JS.isObjectId (Req.params_id req) = true ->
  stored_post (JS.toLowerCase (Req.params_id req)) s = None ->
  updatePost P req s = (failure 404 "Post not found", s)
  /\ deletePost P req s = (failure 404 "Post not found", s)
  /\ addComment P req s = (failure 404 "Post not found", s).
Proof.
  intros Hcalm Hid Hnone.
  unfold updatePost, deletePost, addComment, try_catch, bind. cbv zeta.
  rewrite (Post_findById_calm P _ s Hcalm Hid), Hnone. auto.
Qed.

Lemma missing_post_is_not_found_witness :
  updatePost Demo.platform
    (Demo.request PUT [] "bbbbbbbbbbbbbbbbbbbbbb99" [] (Some Demo.carol))
    Demo.store
  = (failure 404 "Post not found", Demo.store).
Proof.
  apply (missing_post_is_not_found Demo.platform
           (Demo.request PUT [] "bbbbbbbbbbbbbbbbbbbbbb99" [] (Some Demo.carol))
           Demo.store eq_refl eq_refl eq_refl).
Defined.

Lemma deletePost_calm (P : Platform) (req : Req.t) (s : Store)
    (post : Post.t) (user : User.t) :
  calm s ->
  JS.isObjectId (Req.params_id req) = true ->
  stored_post (JS.toLowerCase (Req.params_id req)) s = Some post ->
  Req.user req = Some user ->
  not_author_nor_admin post user = false ->
  deletePost P req s
  = (ok_message "Post deleted successfully",
     with_posts
       (filter (fun d => negb (String.eqb (Post._id d)
                                 (JS.toLowerCase (Req.params_id req))))
          (posts s)) s).
Proof.
  intros Hcalm Hid Hpost Huser Hok.
  rewrite (deletePost_found P req s s post user
             (eq_trans (Post_findById_calm P _ s Hcalm Hid)
                (f_equal (fun r => Done r s) Hpost)) Huser), Hok.
  unfold try_catch, bind, Post_findByIdAndDelete, casting, castable.
  rewrite Hid, (roundtrip_calm _ s Hcalm). reflexivity.
Qed.

(** X8: after an authorised delete the post is gone: reading it or
    deleting it again under the same identifier is answered 404, and
    every other stored post is as it was. *)
Theorem deleted_post_is_gone (P : Platform) (req : Req.t) (s : Store)
    (post : Post.t) (user : User.t) :
  calm s ->
  JS.isObjectId (Req.params_id req) = true ->
  stored_post (JS.toLowerCase (Req.params_id req)) s = Some post ->
  Req.user req = Some user ->
  Post.author post = User._id user \/ User.role user = "admin" ->
  status (fst (deletePost P req s)) = 200
  /\ fst (getPost P req (snd (deletePost P req s)))
     = failure 404 "Post not found"
  /\ fst (deletePost P req (snd (deletePost P req s)))
     = failure 404 "Post not found"
  /\ forall id, id <> JS.toLowerCase (Req.params_id req) ->
       stored_post id (snd (deletePost P req s)) = stored_post id s.
Proof.
  intros Hcalm Hid Hpost Huser Hauth. apply author_or_admin_iff in Hauth.
  rewrite (deletePost_calm P req s post user Hcalm Hid Hpost Huser Hauth).
  cbn [fst snd status ok_message].
  set (s' := with_posts _ s).
  assert (Hcalm' : calm s') by (destruct s; exact Hcalm).
  assert (Hgone : stored_post (JS.toLowerCase (Req.params_id req)) s' = None).
  { unfold stored_post, s'. destruct s. cbn [posts with_posts].
    apply (find_filter_out
             (fun d => String.eqb (Post._id d)
                         (JS.toLowerCase (Req.params_id req)))). }
  split; [reflexivity|]. split; [|split].
  - rewrite (getPost_calm P req s' Hcalm'). unfold post_lookup. rewrite Hid.
    unfold stored_post in Hgone.
    rewrite (find_ext _ (fun p => String.eqb (Post._id p)
                                    (JS.toLowerCase (Req.params_id req))));
      [now rewrite Hgone|].
    intros p. simpl. apply andb_true_r.
  - now rewrite (deletePost_missing P req s' Hcalm' Hid Hgone).
  - intros id Hne. unfold stored_post, s'. destruct s. cbn [posts with_posts].
    now apply find_filter_other.
Qed.

Lemma deleted_post_is_gone_witness :
  fst (getPost Demo.platform
         (Demo.request DELETE [] "bbbbbbbbbbbbbbbbbbbbbb03" [] (Some Demo.bob))
         (snd (deletePost Demo.platform
                 (Demo.request DELETE [] "bbbbbbbbbbbbbbbbbbbbbb03" []
                    (Some Demo.bob)) Demo.store)))
  = failure 404 "Post not found".
Proof.
  apply (deleted_post_is_gone Demo.platform
           (Demo.request DELETE [] "bbbbbbbbbbbbbbbbbbbbbb03" [] (Some Demo.bob))
           Demo.store Demo.garden Demo.bob eq_refl eq_refl eq_refl eq_refl).
  left. reflexivity.
Defined.

Lemma apply_update_fields (req : Req.t) (post : Post.t) :
  let b := Req.body req in
  apply_update req post
  = Post.mk (Post._id post)
      (nonblank_or (Body.title b) (Post.title post))
      (nonblank_or (Body.content b) (Post.content post))
      (given_or (Body.excerpt b) (Post.excerpt post))
      (Post.slug post)
      (given_or (Req.file req) (Post.featuredImage post))
      (given_or (Body.isPublished b) (Post.isPublished post))
      (Post.viewCount post)
      (given_or (Body.tags b) (Post.tags post))
      (Post.comments post)
      (Post.author post)
      (nonblank_or (option_map JS.toLowerCase (Body.category b))
         (Post.category post))
      (Post.createdAt post).
Proof.
  cbv zeta. unfold apply_update. cbv zeta.
  destruct post. destruct (Req.body req). destruct (Req.file req).
  all: cbn [Body.title Body.content Body.excerpt Body.category Body.tags
            Body.isPublished].
  all: repeat match goal with
         | |- context [set_if_truthy ?v _ _] =>
             match v with
             | Some (String _ _) => fail 1
             | Some EmptyString => fail 1
             | None => fail 1
             | _ => destruct v as [[|? ?]|]
             end
         | |- context [set_if_defined ?v _ _] =>
             match v with
             | Some _ => fail 1
             | None => fail 1
             | _ => destruct v
             end
         end; reflexivity.
Qed.

Lemma updatePost_calm (P : Platform) (req : Req.t) (s : Store)
    (post : Post.t) (user : User.t) :
  calm s ->
  JS.isObjectId (Req.params_id req) = true ->
  stored_post (JS.toLowerCase (Req.params_id req)) s = Some post ->
  Req.user req = Some user ->
  not_author_nor_admin post user = false ->
  category_casts req = true ->
  updatePost P req s
  = (ok_data 200 (APost (Some (apply_update req post))),
     with_posts (replace_post (apply_update req post) (posts s)) s).
Proof.
  intros Hcalm Hid Hpost Huser Hok Hcat.
  rewrite (updatePost_found P req s s post user
             (eq_trans (Post_findById_calm P _ s Hcalm Hid)
                (f_equal (fun r => Done r s) Hpost)) Huser), Hok, Hcat.
  unfold try_catch, bind, casting, Post_save.
  rewrite (roundtrip_calm _ s Hcalm). cbn [fst snd].
  set (s' := with_posts _ s).
  assert (Hcalm' : calm s') by (destruct s; exact Hcalm).
  rewrite (Post_findById_oid_calm P _ s' Hcalm').
  unfold stored_post, s'. destruct s. cbn [posts with_posts].
  rewrite (stored_post_replaced (apply_update req post)); [reflexivity|].
  exists post. split.
  - unfold stored_post in Hpost. now apply find_some in Hpost.
  - now rewrite apply_update_fields.
Qed.

(** X9: an authorised update that the store accepts answers 200 with
    the updated post and stores it under the same identifier.  Title,
    content and category change only to a non-empty value; excerpt, tags,
    publication flag and image change whenever they are given, also to
    an empty value; identifier, author, view count, comments and
    creation date are never assigned; every other post stays as it was. *)
Theorem updatePost_assigns_fields (P : Platform) (req : Req.t) (s : Store)
    (post : Post.t) (user : User.t) :
  calm s ->
  JS.isObjectId (Req.params_id req) = true ->
  stored_post (JS.toLowerCase (Req.params_id req)) s = Some post ->
  Req.user req = Some user ->
  Post.author post = User._id user \/ User.role user = "admin" ->
  category_casts req = true ->
  exists updated,
    fst (updatePost P req s) = ok_data 200 (APost (Some updated))
    /\ stored_post (JS.toLowerCase (Req.params_id req))
         (snd (updatePost P req s)) = Some updated
    /\ (forall id, id <> JS.toLowerCase (Req.params_id req) ->
          stored_post id (snd (updatePost P req s)) = stored_post id s)
    /\ Post.title updated
       = nonblank_or (Body.title (Req.body req)) (Post.title post)
    /\ Post.content updated
       = nonblank_or (Body.content (Req.body req)) (Post.content post)
    /\ Post.category updated
       = nonblank_or (option_map JS.toLowerCase (Body.category (Req.body req)))
           (Post.category post)
    /\ Post.excerpt updated
       = given_or (Body.excerpt (Req.body req)) (Post.excerpt post)
    /\ Post.tags updated = given_or (Body.tags (Req.body req)) (Post.tags post)
    /\ Post.isPublished updated
       = given_or (Body.isPublished (Req.body req)) (Post.isPublished post)
    /\ Post.featuredImage updated
       = given_or (Req.file req) (Post.featuredImage post)
    /\ Post._id updated = Post._id post
    /\ Post.author updated = Post.author post
    /\ Post.viewCount updated = Post.viewCount post
    /\ Post.comments updated = Post.comments post
    /\ Post.createdAt updated = Post.createdAt post.
Proof.
  intros Hcalm Hid Hpost Huser Hauth Hcat. apply author_or_admin_iff in Hauth.
  exists (apply_update req post).
  rewrite (updatePost_calm P req s post user Hcalm Hid Hpost Huser Hauth Hcat).
  cbn [fst snd].
  assert (Hpid : Post._id post = JS.toLowerCase (Req.params_id req))
    by (unfold stored_post in Hpost; now apply find_by_id_In in Hpost).
  assert (Hkeep : Post._id (apply_update req post) = Post._id post)
    by now rewrite apply_update_fields.
  split; [reflexivity|]. split; [|split].
  - unfold stored_post. destruct s. cbn [posts with_posts].
    rewrite <- Hpid, <- Hkeep. apply stored_post_replaced.
    exists post. split; [|now rewrite Hkeep].
    unfold stored_post in Hpost. now apply find_some in Hpost.
  - intros id Hne. unfold stored_post. destruct s. cbn [posts with_posts].
    apply stored_post_elsewhere. congruence.
  - rewrite apply_update_fields. cbn. repeat split.
Qed.

Lemma updatePost_assigns_fields_witness :
  exists updated,
    fst (updatePost Demo.platform
           (Req.mk PUT [] "bbbbbbbbbbbbbbbbbbbbbb01" []
              (Body.mk (Some "") None (Some "") None None None
                 None None None None None)
              (Some Demo.alice) None) Demo.store)
    = ok_data 200 (APost (Some updated))
    /\ Post.title updated = "Hello world"
    /\ Post.excerpt updated = "".
Proof.
  destruct (updatePost_assigns_fields Demo.platform
              (Req.mk PUT [] "bbbbbbbbbbbbbbbbbbbbbb01" []
                 (Body.mk (Some "") None (Some "") None None None
                    None None None None None)
                 (Some Demo.alice) None) Demo.store Demo.hello Demo.alice
              eq_refl eq_refl eq_refl eq_refl (or_introl eq_refl) eq_refl)
    as (u & Hr & _ & _ & Ht & _ & _ & He & _).
  exists u. split; [exact Hr|]. split; [exact Ht | exact He].
Defined.

(** X10: the update is not atomic with its answer: when the store
    accepts the lookup and the save but fails the read-back that follows,
    the handler answers 500 although the update has been stored. *)
Theorem updatePost_saved_yet_500 (P : Platform) (req : Req.t) (s : Store)
    (post : Post.t) (user : User.t) (rest : list bool) :
  outages s = false :: false :: true :: rest ->
  JS.isObjectId (Req.params_id req) = true ->
  stored_post (JS.toLowerCase (Req.params_id req)) s = Some post ->
  Req.user req = Some user ->
  Post.author post = User._id user \/ User.role user = "admin" ->
  category_casts req = true ->
  fst (updatePost P req s) = server_error
  /\ stored_post (JS.toLowerCase (Req.params_id req)) (snd (updatePost P req s))
     = Some (apply_update req post).
Proof.
  intros Hout Hid Hpost Huser Hauth Hcat. apply author_or_admin_iff in Hauth.
  destruct s as [ps cs ck o]. cbn [outages] in Hout. subst o.
  assert (Hfind : Post_findById P (Raw (Req.params_id req))
                    (mkStore ps cs ck (false :: false :: true :: rest))
                  = Done (Some post) (mkStore ps cs ck (false :: true :: rest))).
  { unfold Post_findById, Post_findOne, casting.
    cbn [forallb well_cast castable]. rewrite Hid. cbn [andb].
    unfold query, roundtrip. cbn [outages with_outages posts categories clock].
    f_equal. rewrite <- Hpost. unfold stored_post. cbn [posts].
    apply find_ext. intros p. simpl. apply andb_true_r. }
  rewrite (updatePost_found P req _ _ post user Hfind Huser), Hauth, Hcat.
  unfold try_catch, bind, casting, Post_save, roundtrip, Post_findById,
    Post_findOne, query, roundtrip.
  cbn [outages with_outages with_posts posts categories clock forallb
       well_cast castable andb fst snd].
  split; [reflexivity|].
  assert (Hpid : Post._id post = JS.toLowerCase (Req.params_id req))
    by (unfold stored_post in Hpost; now apply find_by_id_In in Hpost).
  assert (Hkeep : Post._id (apply_update req post) = Post._id post)
    by now rewrite apply_update_fields.
  unfold stored_post. cbn [posts].
  rewrite <- Hpid, <- Hkeep. apply stored_post_replaced.
  exists post. split; [|now rewrite Hkeep].
  unfold stored_post in Hpost. now apply find_some in Hpost.
Qed.

Lemma updatePost_saved_yet_500_witness :
  fst (updatePost Demo.platform
         (Req.mk PUT [] "bbbbbbbbbbbbbbbbbbbbbb01" []
            (Body.mk (Some "Renamed") None None None None None
               None None None None None)
            (Some Demo.alice) None)
         (with_outages [false; false; true] Demo.store))
  = server_error
  /\ option_map Post.title
       (stored_post "bbbbbbbbbbbbbbbbbbbbbb01"
          (snd (updatePost Demo.platform
                  (Req.mk PUT [] "bbbbbbbbbbbbbbbbbbbbbb01" []
                     (Body.mk (Some "Renamed") None None None None None
                        None None None None None)
                     (Some Demo.alice) None)
                  (with_outages [false; false; true] Demo.store))))
     = Some "Renamed".
Proof.
  destruct (updatePost_saved_yet_500 Demo.platform
              (Req.mk PUT [] "bbbbbbbbbbbbbbbbbbbbbb01" []
                 (Body.mk (Some "Renamed") None None None None None
                    None None None None None)
                 (Some Demo.alice) None)
              (with_outages [false; false; true] Demo.store)
              Demo.hello Demo.alice [] eq_refl eq_refl eq_refl eq_refl
              (or_introl eq_refl) eq_refl) as [H500 Hstored].
  split; [exact H500|].
  change "bbbbbbbbbbbbbbbbbbbbbb01"
    with (JS.toLowerCase "bbbbbbbbbbbbbbbbbbbbbb01") at 1.
  exact (f_equal (option_map Post.title) Hstored).
Defined.

(** ** Creating and updating categories *)

Lemma Category_findOne_calm (q : list CatCond) (s : Store) :
  calm s -> forallb cat_well_cast q = true ->
  Category_findOne q s
  = Done (find (fun k => forallb (fun c => cat_matches c k) q) (categories s)) s.
Proof.
  intros Hcalm Hq. unfold Category_findOne, casting. rewrite Hq.
  now rewrite (query_calm _ s Hcalm).
Qed.

Lemma find_by_name (n : string) (cs : list Category.t) (c : Category.t) :
  In c cs -> Category.name c = n ->
  exists k, find (fun k => forallb (fun c => cat_matches c k) [CatNameIs (Some n)])
              cs = Some k.
Proof.
  intros Hin Hn.
  destruct (find _ cs) as [k|] eqn:E; [now exists k|].
  apply (find_none _ _ E) in Hin. simpl in Hin.
  rewrite Hn, String.eqb_refl in Hin. discriminate.
Qed.

(** X11: creating a category under a name that a stored category already
    has, letter for letter, is answered 400 and stores nothing, whatever
    the other fields of the request are. *)
Theorem createCategory_rejects_taken_name (P : Platform) (req : Req.t)
    (s : Store) (c : Category.t) (n : string) :
  calm s ->
  Body.name (Req.body req) = Some n ->
  In c (categories s) -> Category.name c = n ->
  createCategory P req s
  = (failure 400 "Category with this name already exists", s).
Proof.
  intros Hcalm Hname Hin Hn.
  unfold createCategory, try_catch, bind. cbv zeta.
  rewrite Hname, (Category_findOne_calm [CatNameIs (Some n)] s Hcalm eq_refl).
  destruct (find_by_name n (categories s) c Hin Hn) as [k ->]. reflexivity.
Qed.

Lemma createCategory_rejects_taken_name_witness :
  createCategory Demo.platform
    (Req.mk POST [] "" []
       (Body.mk None None None None None None (Some "Tech") (Some "again")
          None None None) (Some Demo.carol) None) Demo.store
  = (failure 400 "Category with this name already exists", Demo.store).
Proof.
  apply (createCategory_rejects_taken_name Demo.platform
           (Req.mk POST [] "" []
              (Body.mk None None None None None None (Some "Tech") (Some "again")
                 None None None) (Some Demo.carol) None)
           Demo.store Demo.tech "Tech" eq_refl eq_refl);
    [now left | reflexivity].
Defined.

(** X12: renaming a stored category to a different, non-empty name that
    another stored category has is answered 400 and changes nothing. *)
Theorem updateCategory_rejects_taken_name (req : Req.t) (s : Store)
    (c other : Category.t) (n : string) :
  calm s ->
  JS.isObjectId (Req.params_id req) = true ->
  stored_category (JS.toLowerCase (Req.params_id req)) s = Some c ->
  Body.name (Req.body req) = Some n ->
  n <> "" -> n <> Category.name c ->
  In other (categories s) -> Category.name other = n ->
  updateCategory req s
  = (failure 400 "Category with this name already exists", s).
Proof.
  intros Hcalm Hid Hc Hname Hne Hdiff Hin Hn.
  unfold updateCategory, try_catch. cbv zeta. unfold bind at 1.
  rewrite (Category_findById_calm _ s Hcalm Hid), Hc, Hname.
  replace (JS.truthy (Some n)) with true by (now destruct n).
  replace (String.eqb n (Category.name c)) with false
    by (symmetry; now apply String.eqb_neq).
  cbn [andb negb]. unfold bind.
  rewrite (Category_findOne_calm [CatNameIs (Some n)] s Hcalm eq_refl).
  destruct (find_by_name n (categories s) other Hin Hn) as [k ->]. reflexivity.
Qed.

Lemma updateCategory_rejects_taken_name_witness :
  updateCategory
    (Req.mk PUT [] "cccccccccccccccccccccc03" []
       (Body.mk None None None None None None (Some "Tech") None
          None None None) (Some Demo.carol) None) Demo.store
  = (failure 400 "Category with this name already exists", Demo.store).
Proof.
  apply (updateCategory_rejects_taken_name
           (Req.mk PUT [] "cccccccccccccccccccccc03" []
              (Body.mk None None None None None None (Some "Tech") None
                 None None None) (Some Demo.carol) None)
           Demo.store Demo.art Demo.tech "Tech"
           eq_refl eq_refl eq_refl eq_refl); try discriminate;
    [now left | reflexivity].
Defined.

Lemma stored_category_replaced (c' : Category.t) (cs : list Category.t) :
  (exists c, In c cs /\ Category._id c = Category._id c') ->
  find (fun d => String.eqb (Category._id d) (Category._id c'))
    (replace_category c' cs) = Some c'.
Proof.
  induction cs as [|d r IH]; intros (c & Hin & Hid); [contradiction|].
  simpl. destruct (String.eqb (Category._id d) (Category._id c')) eqn:E.
  - now rewrite String.eqb_refl.
  - rewrite E. apply IH. destruct Hin as [->|Hin]; [|now exists c].
    apply String.eqb_neq in E. congruence.
Qed.

Lemma In_replace_category (c' k : Category.t) (cs : list Category.t) :
  In k (replace_category c' cs) ->
  Category._id k = Category._id c' -> k = c'.
Proof.
  unfold replace_category. rewrite in_map_iff. intros (d & Hd & _) Hid.
  destruct (String.eqb (Category._id d) (Category._id c')) eqn:E;
    [congruence|].
  apply String.eqb_neq in E. congruence.
Qed.

(** X13: switching a category off hides it from the category list but not
    from lookup: after an update with [isActive = false] and no new name,
    the list-all operation returns no category with that identifier,
    while get-by-id still answers 200 with the inactive category. *)
Theorem deactivated_category_is_hidden_not_gone (req : Req.t) (s : Store)
    (c : Category.t) :
  calm s ->
  JS.isObjectId (Req.params_id req) = true ->
  stored_category (JS.toLowerCase (Req.params_id req)) s = Some c ->
  Body.name (Req.body req) = None ->
  Body.isActive (Req.body req) = Some false ->
  status (fst (updateCategory req s)) = 200
  /\ (forall cs k,
        data (json (fst (getAllCategories req (snd (updateCategory req s)))))
        = Some (Categories cs) ->
        In k cs -> Category._id k <> Category._id c)
  /\ exists c',
       fst (getCategory req (snd (updateCategory req s)))
       = ok_data 200 (ACategory c')
       /\ Category._id c' = Category._id c
       /\ Category.isActive c' = false.
Proof.
  intros Hcalm Hid Hc Hname Hactive.
  assert (Hcid : Category._id c = JS.toLowerCase (Req.params_id req))
    by (unfold stored_category in Hc; apply find_some in Hc as [_ He];
        now apply String.eqb_eq in He).
  assert (Hin : In c (categories s))
    by (unfold stored_category in Hc; now apply find_some in Hc).
  set (c' := Category.set_isActive false
               (assign_if_truthy (Body.icon (Req.body req)) Category.set_icon
                  (assign_if_truthy (Body.color (Req.body req)) Category.set_color
                     (assign_if_defined (Body.description (Req.body req))
                        Category.set_description c)))).
  assert (Hid' : Category._id c' = Category._id c).
  { unfold c', assign_if_truthy, assign_if_defined.
    destruct (Body.icon (Req.body req)) as [[|? ?]|];
      destruct (Body.color (Req.body req)) as [[|? ?]|];
      destruct (Body.description (Req.body req)); reflexivity. }
  assert (Hrun : updateCategory req s
                 = (ok_data 200 (ACategory c'),
                    with_categories (replace_category c' (categories s)) s)).
  { unfold updateCategory, try_catch. cbv zeta. unfold bind at 1.
    rewrite (Category_findById_calm _ s Hcalm Hid), Hc, Hname, Hactive.
    unfold bind, ret, Category_save.
    rewrite (roundtrip_calm _ s Hcalm). reflexivity. }
  rewrite Hrun. cbn [fst snd status ok_data].
  set (s' := with_categories _ s).
  assert (Hcalm' : calm s') by (destruct s; exact Hcalm).
  assert (Hcats : categories s' = replace_category c' (categories s))
    by (unfold s'; now destruct s).
  split; [reflexivity|]. split.
  - intros cs k Hdata Hk Hkid.
    unfold getAllCategories, try_catch, bind, Category_find_sorted, casting in Hdata.
    cbn [forallb cat_well_cast andb] in Hdata.
    rewrite (query_calm _ s' Hcalm') in Hdata. cbn in Hdata.
    injection Hdata as <-.
    apply sort_by_In, filter_In in Hk as [Hk Hact].
    apply In_replace_category in Hk; [|congruence].
    subst k. unfold c' in Hact. simpl in Hact. discriminate.
  - exists c'. rewrite (getCategory_calm req s' Hcalm').
    unfold category_lookup. rewrite Hid, Hcats.
    rewrite (find_ext _ (fun d => String.eqb (Category._id d)
                                    (JS.toLowerCase (Req.params_id req))))
      by (intros d; simpl; apply andb_true_r).
    rewrite <- Hcid, <- Hid'.
    rewrite stored_category_replaced by (exists c; auto).
    repeat split; trivial.
Qed.

Lemma deactivated_category_is_hidden_not_gone_witness :
  status (fst (updateCategory
                 (Req.mk PUT [] "cccccccccccccccccccccc03" []
                    (Body.mk None None None None None None None None
                       None None (Some false)) (Some Demo.carol) None)
                 Demo.store)) = 200.
Proof.
  apply (deactivated_category_is_hidden_not_gone
           (Req.mk PUT [] "cccccccccccccccccccccc03" []
              (Body.mk None None None None None None None None
                 None None (Some false)) (Some Demo.carol) None)
           Demo.store Demo.art eq_refl eq_refl eq_refl eq_refl eq_refl).
Defined.

(** ** The route tables *)

(** X14: in the category router every read route is reachable: a GET of
    the root lists the categories, of one segment looks that category up,
    and of a segment followed by [posts] lists the posts of that
    category, with the segment bound to [:id]. *)
Theorem category_reads_are_routed (P : Platform) (protect : Middleware)
    (authorize : string -> Middleware)
    (chains : Req.t -> Req.t * list ValidationIssue)
    (req : Req.t) (s : Store) (seg tail : string) :
  Req.method req = GET ->
  (Req.path req = [] ->
   dispatch (category_router P protect authorize chains) req s
   = Some (getAllCategories req s))
  /\ (Req.path req = [seg] ->
      dispatch (category_router P protect authorize chains) req s
      = Some (getCategory (Req.with_params_id seg req) s))
  /\ (Req.path req = [seg; tail] -> JS.toLowerCase tail = "posts" ->
      dispatch (category_router P protect authorize chains) req s
      = Some (getPostsByCategory P (Req.with_params_id seg req) s)).
Proof.
  intros Hm. unfold category_router, dispatch. rewrite Hm.
  cbn [route_method route_path route_stack method_eqb].
  split; [|split].
  - intros ->. cbn [match_path run_stack]. unfold final.
    now destruct (getAllCategories req s).
  - intros ->. cbn [match_path run_stack]. unfold final at 1.
    now destruct (getCategory (Req.with_params_id seg req) s).
  - intros -> Htail. cbn [match_path].
    change (JS.toLowerCase "posts") with "posts". rewrite Htail.
    cbn [String.eqb Ascii.eqb Bool.eqb run_stack]. unfold final at 1.
    now destruct (getPostsByCategory P (Req.with_params_id seg req) s).
Qed.

Lemma category_reads_are_routed_witness :
  dispatch (category_router Demo.platform Demo.pass (fun _ => Demo.pass)
              (fun r => (r, [])))
    (Demo.request GET ["tech"; "posts"] "" [] None) Demo.store
  = Some (getPostsByCategory Demo.platform
            (Req.with_params_id "tech"
               (Demo.request GET ["tech"; "posts"] "" [] None)) Demo.store).
Proof.
  apply (category_reads_are_routed Demo.platform Demo.pass (fun _ => Demo.pass)
           (fun r => (r, [])) (Demo.request GET ["tech"; "posts"] "" [] None)
           Demo.store "tech" "posts" eq_refl); reflexivity.
Defined.

(** X15: a category is created, updated or deleted through the router
    only after [protect] and then [authorize('admin')] have both passed
    the request on, and for create and update only if validation found
    no issue; otherwise the answer is the one of the middleware that
    stopped the request and the handler does not run. *)
Theorem category_mutations_are_gated (P : Platform) (protect : Middleware)
    (authorize : string -> Middleware)
    (chains : Req.t -> Req.t * list ValidationIssue)
    (req : Req.t) (s : Store) (seg : string) :
  let gate (req0 : Req.t) (validated : bool) (h : Handler) :=
    match protect req0 s with
    | Answer r s1 => Some (r, s1)
    | Next req1 s1 =>
        match authorize "admin" req1 s1 with
        | Answer r s2 => Some (r, s2)
        | Next req2 s2 =>
            if validated
            then match handleValidationErrors (snd (chains req2)) with
                 | Some r => Some (r, s2)
                 | None => Some (h (fst (chains req2)) s2)
                 end
            else Some (h req2 s2)
        end
    end in
  (Req.method req = POST -> Req.path req = [] ->
   dispatch (category_router P protect authorize chains) req s
   = gate req true (createCategory P))
  /\ (Req.method req = PUT -> Req.path req = [seg] ->
      dispatch (category_router P protect authorize chains) req s
      = gate (Req.with_params_id seg req) true updateCategory)
  /\ (Req.method req = DELETE -> Req.path req = [seg] ->
      dispatch (category_router P protect authorize chains) req s
      = gate (Req.with_params_id seg req) false (deleteCategory P)).
Proof.
  cbv zeta. unfold category_router, dispatch, validateCategory, validating.
  split; [|split]; intros -> ->;
    cbn [route_method route_path route_stack method_eqb match_path run_stack];
    match goal with
    | |- context [protect ?r s] => destruct (protect r s) as [r1 s1|req1 s1]
    end; try reflexivity;
    destruct (authorize "admin" req1 s1) as [r2 s2|req2 s2]; try reflexivity.
  - destruct (chains req2) as [req3 issues]. cbn [fst snd].
    destruct (handleValidationErrors issues); [reflexivity|].
    unfold final. now destruct (createCategory P req3 s2).
  - destruct (chains req2) as [req3 issues]. cbn [fst snd].
    destruct (handleValidationErrors issues); [reflexivity|].
    unfold final. now destruct (updateCategory req3 s2).
  - unfold final. now destruct (deleteCategory P req2 s2).
Qed.

Lemma category_mutations_are_gated_witness :
  dispatch (category_router Demo.platform Demo.pass
              (fun role req s =>
                 match Req.user req with
                 | Some u => if String.eqb (User.role u) role then Next req s
                             else Answer (failure 403 "Forbidden") s
                 | None => Answer (failure 401 "Unauthorized") s
                 end)
              (fun r => (r, [])))
    (Demo.request DELETE ["cccccccccccccccccccccc03"] "" [] (Some Demo.bob))
    Demo.store
  = Some (failure 403 "Forbidden", Demo.store).
Proof.
  refine (eq_trans
            (proj2 (proj2
               (category_mutations_are_gated Demo.platform Demo.pass _ _
                  (Demo.request DELETE ["cccccccccccccccccccccc03"] "" []
                     (Some Demo.bob))
                  Demo.store "cccccccccccccccccccccc03")) eq_refl eq_refl) _).
  reflexivity.
Defined.

(** X16: in the post router a GET of the root reaches the list handler
    and a GET of [search], in any letter case, reaches the search
    handler, because that route is registered before [/:id]; any other
    single segment is taken as the identifier of a post to read. *)
Theorem post_reads_are_routed (P : Platform)
    (protect uploadSingle : Middleware)
    (post_chains comment_chains : Req.t -> Req.t * list ValidationIssue)
    (req : Req.t) (s : Store) (seg : string) :
  Req.method req = GET ->
  (Req.path req = [] ->
   dispatch (router P protect uploadSingle post_chains comment_chains) req s
   = Some (getAllPosts P req s))
  /\ (Req.path req = [seg] -> JS.toLowerCase seg = "search" ->
      dispatch (router P protect uploadSingle post_chains comment_chains) req s
      = Some (searchPosts P req s))
  /\ (Req.path req = [seg] -> JS.toLowerCase seg <> "search" ->
      dispatch (router P protect uploadSingle post_chains comment_chains) req s
      = Some (getPost P (Req.with_params_id seg req) s)).
Proof.
  intros Hm. split; [|split].
  - intros Hp. unfold router, dispatch. rewrite Hm, Hp.
    cbn [route_method route_path route_stack method_eqb match_path run_stack].
    unfold final. now destruct (getAllPosts P req s).
  - intros Hp Hseg. unfold router, dispatch. rewrite Hm, Hp.
    cbn [route_method route_path route_stack method_eqb match_path].
    change (JS.toLowerCase "search") with "search". rewrite Hseg.
    cbn [String.eqb Ascii.eqb Bool.eqb run_stack]. unfold final at 1.
    now destruct (searchPosts P req s).
  - intros Hp Hseg.
    now apply single_segment_goes_to_getPost.
Qed.

Lemma post_reads_are_routed_witness :
  dispatch Demo.open_router
    (Demo.request GET ["Search"] "" [("q", "rocq")] None) Demo.store
  = Some (searchPosts Demo.platform
            (Demo.request GET ["Search"] "" [("q", "rocq")] None) Demo.store).
Proof.
  apply (post_reads_are_routed Demo.platform Demo.pass Demo.pass
           (fun r => (r, [])) (fun r => (r, []))
           (Demo.request GET ["Search"] "" [("q", "rocq")] None)
           Demo.store "Search" eq_refl); reflexivity.
Defined.

(** ** Patterns that do not compile *)

(** X17: a non-empty search text that is not a valid regular expression
    is answered 500 by both the search endpoint and the list endpoint,
    not 400, and before the store is asked anything. *)
Theorem invalid_pattern_is_a_server_error (P : Platform) (req : Req.t)
    (s : Store) (q : string) :
  q <> "" ->
  regex_valid P q = false ->
  (assoc "q" (Req.query req) = Some q ->
   searchPosts P req s = (server_error, s))
  /\ (assoc "search" (Req.query req) = Some q ->
      getAllPosts P req s = (server_error, s)).
Proof.
  intros Hne Hbad. split; intros Hq.
  - now rewrite (searchPosts_run P req s q Hq Hne), Hbad.
  - rewrite getAllPosts_run. unfold build_query. cbv zeta. rewrite Hq.
    replace (JS.truthy (Some q)) with true by (now destruct q).
    unfold bind, new_RegExp. now rewrite Hbad.
Qed.

Lemma invalid_pattern_is_a_server_error_witness :
  searchPosts Demo.platform (Demo.request GET ["search"] "" [("q", "c++")] None)
    Demo.store
  = (server_error, Demo.store).
Proof.
  apply (invalid_pattern_is_a_server_error Demo.platform
           (Demo.request GET ["search"] "" [("q", "c++")] None)
           Demo.store "c++"); [discriminate | reflexivity | reflexivity].
Defined.

(** * Properties of the client state *)

(** ** The authentication reducer *)

(** X18: the reducer keeps the state consistent and only a successful
    login authenticates: over any sequence of actions whose login and
    update payloads carry a user, a state in which an authenticated
    session has a user stays so; and a sequence without [LOGIN_SUCCESS]
    never turns an unauthenticated state into an authenticated one. *)
Theorem authReducer_keeps_session_consistent (actions : list AuthContext.Action)
    (st : AuthContext.State) :
  ((AuthContext.isAuthenticated st = true -> AuthContext.user st <> None) ->
   Forall (fun a => a <> AuthContext.LOGIN_SUCCESS None
                    /\ a <> AuthContext.UPDATE_USER None) actions ->
   AuthContext.isAuthenticated (AuthContext.dispatch_all st actions) = true ->
   AuthContext.user (AuthContext.dispatch_all st actions) <> None)
  /\ (AuthContext.isAuthenticated st = false ->
      Forall (fun a => forall u, a <> AuthContext.LOGIN_SUCCESS u) actions ->
      AuthContext.isAuthenticated (AuthContext.dispatch_all st actions) = false).
Proof.
  unfold AuthContext.dispatch_all. split.
  - revert st. induction actions as [|a acts IH]; intros st Hinv Hall;
      [exact Hinv|].
    inversion Hall as [|? ? [Hlogin Hupdate] Hrest]; subst.
    simpl. apply IH; [|exact Hrest].
    destruct a as [[u|]| | |[u|]|b|t]; simpl; trivial; try discriminate;
      try congruence.
  - revert st. induction actions as [|a acts IH]; intros st Hno Hall;
      [exact Hno|].
    inversion Hall as [|? ? Ha Hrest]; subst.
    simpl. apply IH; [|exact Hrest].
    destruct a as [u| | |u|b|t]; simpl; trivial.
    now destruct (Ha u).
Qed.

Lemma authReducer_keeps_session_consistent_witness :
  AuthContext.user
    (AuthContext.dispatch_all AuthContext.initialState
       [AuthContext.SET_LOADING true;
        AuthContext.LOGIN_SUCCESS (Some Demo.alice);
        AuthContext.UPDATE_USER (Some Demo.bob)])
  <> None.
Proof.
  apply (proj1 (authReducer_keeps_session_consistent
                  [AuthContext.SET_LOADING true;
                   AuthContext.LOGIN_SUCCESS (Some Demo.alice);
                   AuthContext.UPDATE_USER (Some Demo.bob)]
                  AuthContext.initialState)).
  - discriminate.
  - repeat constructor; discriminate.
  - reflexivity.
Defined.

(** ** Signing in and checking the stored session *)

(** X19: when [login] or [register] completes, loading is off; the
    session is authenticated exactly when the service answered with
    success, and then the call returns success; in every other case the
    user is cleared, even one who was signed in before, and a rejected
    call returns a non-empty error message. *)
Theorem sign_in_outcome (reply : AuthContext.Reply) (st : AuthContext.State) :
  let ok := match reply with
            | AuthContext.Responded true _ _ => true
            | _ => false
            end in
  let check (f : AuthContext.Reply -> AuthContext.State
                 -> AuthContext.State * AuthContext.Result) :=
    AuthContext.loading (fst (f reply st)) = false
    /\ AuthContext.isAuthenticated (fst (f reply st)) = ok
    /\ AuthContext.result_success (snd (f reply st)) = ok
    /\ (ok = false -> AuthContext.user (fst (f reply st)) = None)
    /\ (forall e, reply = AuthContext.Rejected e ->
          exists m, AuthContext.result_error (snd (f reply st)) = Some m
                    /\ m <> "") in
  check AuthContext.login /\ check AuthContext.register.
Proof.
  cbv zeta. unfold AuthContext.login, AuthContext.register, AuthContext.sign_in.
  destruct reply as [[|] data err|err]; simpl; repeat split;
    try discriminate; try reflexivity;
    intros e He; injection He as <-;
    (destruct err as [[|c m]|]; simpl; eexists;
     (split; [reflexivity | discriminate])).
Qed.

Lemma assoc_removeItem_same (k : string) (st : AuthContext.Storage) :
  assoc k (AuthContext.removeItem k st) = None.
Proof.
  induction st as [|[k' v] r IH]; simpl; [reflexivity|].
  destruct (String.eqb k k') eqn:E; [exact IH|]. simpl. now rewrite E.
Qed.

Lemma assoc_removeItem_other (k k' : string) (st : AuthContext.Storage) :
  k' <> k -> assoc k' (AuthContext.removeItem k st) = assoc k' st.
Proof.
  intros Hne. induction st as [|[k0 v] r IH]; simpl; [reflexivity|].
  destruct (String.eqb k k0) eqn:E.
  - apply String.eqb_eq in E. subst k0.
    replace (String.eqb k' k) with false
      by (symmetry; now apply String.eqb_neq).
    exact IH.
  - simpl. now rewrite IH.
Qed.

(** X20: the session check on start-up always ends with loading off.
    Without a stored token it calls nothing and leaves storage and
    session alone; with one, a successful answer authenticates and keeps
    the storage, and any other outcome removes exactly the [token] and
    [user] entries and leaves the session as it was. *)
Theorem checkAuth_outcome (reply : AuthContext.Reply)
    (storage : AuthContext.Storage) (st : AuthContext.State) :
  let storage' := fst (AuthContext.checkAuth reply storage st) in
  let st' := snd (AuthContext.checkAuth reply storage st) in
  AuthContext.loading st' = false
  /\ (JS.truthy (assoc "token" storage) = false ->
      storage' = storage
      /\ AuthContext.isAuthenticated st' = AuthContext.isAuthenticated st
      /\ AuthContext.user st' = AuthContext.user st)
  /\ (JS.truthy (assoc "token" storage) = true ->
      match reply with
      | AuthContext.Responded true data _ =>
          storage' = storage
          /\ AuthContext.isAuthenticated st' = true
          /\ AuthContext.user st' = data
      | _ =>
          assoc "token" storage' = None
          /\ assoc "user" storage' = None
          /\ (forall k, k <> "token" -> k <> "user" ->
                assoc k storage' = assoc k storage)
          /\ AuthContext.isAuthenticated st' = AuthContext.isAuthenticated st
          /\ AuthContext.user st' = AuthContext.user st
      end).
Proof.
  cbv zeta. unfold AuthContext.checkAuth. cbv zeta.
  destruct (JS.truthy (assoc "token" storage)) eqn:Etoken.
  - split; [now destruct reply as [[|] ? ?|?]|]. split; [discriminate|].
    intros _.
    assert (Hrm : assoc "token"
                    (AuthContext.removeItem "user"
                       (AuthContext.removeItem "token" storage)) = None
                  /\ assoc "user"
                       (AuthContext.removeItem "user"
                          (AuthContext.removeItem "token" storage)) = None
                  /\ forall k, k <> "token" -> k <> "user" ->
                       assoc k (AuthContext.removeItem "user"
                                  (AuthContext.removeItem "token" storage))
                       = assoc k storage).
    { split; [|split].
      - rewrite assoc_removeItem_other by discriminate.
        apply assoc_removeItem_same.
      - apply assoc_removeItem_same.
      - intros k H1 H2. now rewrite !assoc_removeItem_other. }
    destruct reply as [[|] data err|err]; simpl; tauto.
  - split; [reflexivity|]. split; [now intros _|discriminate].
Qed.

Lemma checkAuth_outcome_witness :
  assoc "token"
    (fst (AuthContext.checkAuth (AuthContext.Rejected None)
            [("theme", "dark"); ("token", "abc"); ("user", "alice")]
            AuthContext.initialState)) = None
  /\ assoc "theme"
       (fst (AuthContext.checkAuth (AuthContext.Rejected None)
               [("theme", "dark"); ("token", "abc"); ("user", "alice")]
               AuthContext.initialState)) = Some "dark".
Proof.
  destruct (proj2 (proj2 (checkAuth_outcome (AuthContext.Rejected None)
                            [("theme", "dark"); ("token", "abc"); ("user", "alice")]
                            AuthContext.initialState)) eq_refl)
    as (Htoken & _ & Hother & _).
  split; [exact Htoken|].
  rewrite Hother by discriminate. reflexivity.
Defined.

Lemma sign_in_outcome_witness :
  exists m,
    AuthContext.result_error
      (snd (AuthContext.login (AuthContext.Rejected (Some ""))
              (AuthContext.mkState (Some Demo.alice) true false)))
    = Some m /\ m <> "".
Proof.
  destruct (sign_in_outcome (AuthContext.Rejected (Some ""))
              (AuthContext.mkState (Some Demo.alice) true false))
    as [(_ & _ & _ & _ & Herr) _].
  exact (Herr (Some "") eq_refl).
Defined.

(** ** The tag editor of the create-post page *)

Lemma trimEnd_idempotent (s : string) :
  CreatePost.trimEnd (CreatePost.trimEnd s) = CreatePost.trimEnd s.
Proof.
  induction s as [|c r IH]; [reflexivity|].
  simpl. destruct (CreatePost.trimEnd r) as [|c' r'] eqn:E.
  - destruct (JS.is_ws c) eqn:Ews; [reflexivity|]. simpl. now rewrite Ews.
  - simpl. simpl in IH. destruct (CreatePost.trimEnd r') as [|c2 r2] eqn:E2.
    + destruct (JS.is_ws c') eqn:Ews'; [discriminate|]. now rewrite IH.
    + now rewrite IH.
Qed.

Lemma trim_start_head (c : ascii) (r : string) :
  JS.is_ws c = false -> JS.trim_start (String c r) = String c r.
Proof. intros H. simpl. now rewrite H. Qed.

Lemma trim_start_shape (s : string) :
  JS.trim_start s = EmptyString
  \/ exists c r, JS.trim_start s = String c r /\ JS.is_ws c = false.
Proof.
  induction s as [|c r IH]; [now left|].
  simpl. destruct (JS.is_ws c) eqn:E; [exact IH|].
  right. now exists c, r.
Qed.

Lemma trimEnd_head (c : ascii) (r : string) :
  JS.is_ws c = false ->
  exists r', CreatePost.trimEnd (String c r) = String c r'.
Proof.
  intros H. simpl. destruct (CreatePost.trimEnd r) as [|c' r'].
  - rewrite H. now exists EmptyString.
  - now exists (String c' r').
Qed.

Lemma trim_idempotent (s : string) :
  CreatePost.trim (CreatePost.trim s) = CreatePost.trim s.
Proof.
  unfold CreatePost.trim.
  destruct (trim_start_shape s) as [->|(c & r & -> & Hc)]; [reflexivity|].
  destruct (trimEnd_head c r Hc) as [r' E].
  rewrite E, (trim_start_head c r' Hc), <- E. apply trimEnd_idempotent.
Qed.

Lemma includes_In (t : string) (tags : list string) :
  CreatePost.includes t tags = true <-> In t tags.
Proof.
  unfold CreatePost.includes. rewrite existsb_exists. split.
  - intros (x & Hin & He). apply String.eqb_eq in He. now subst.
  - intros Hin. exists t. split; [exact Hin | apply String.eqb_refl].
Qed.

(** X21: whatever the user types, adds and removes, the tag list of the
    create-post form never holds a tag twice, never holds an empty tag,
    and holds every tag without surrounding white space. *)
Theorem tag_list_stays_clean (events : list CreatePost.Event) :
  let st := fold_left CreatePost.step events CreatePost.initial in
  NoDup (CreatePost.tags st)
  /\ Forall (fun t => t <> "" /\ CreatePost.trim t = t) (CreatePost.tags st).
Proof.
  cbv zeta.
  assert (Hgen : forall st,
            NoDup (CreatePost.tags st)
            /\ Forall (fun t => t <> "" /\ CreatePost.trim t = t)
                 (CreatePost.tags st) ->
            NoDup (CreatePost.tags (fold_left CreatePost.step events st))
            /\ Forall (fun t => t <> "" /\ CreatePost.trim t = t)
                 (CreatePost.tags (fold_left CreatePost.step events st))).
  { induction events as [|e es IH]; intros st Hst; [exact Hst|].
    simpl. apply IH. destruct Hst as [Hnd Hall].
    destruct e as [v| |t]; simpl.
    - now split.
    - unfold CreatePost.handleAddTag.
      destruct (JS.truthy (Some (CreatePost.trim (CreatePost.currentTag st))))
        eqn:Et; [|now split].
      destruct (CreatePost.includes (CreatePost.trim (CreatePost.currentTag st))
                  (CreatePost.tags st)) eqn:Ei; [now split|].
      simpl. split.
      + apply NoDup_app; [exact Hnd | repeat constructor; auto |].
        intros x Hx [<-|[]].
        apply includes_In in Hx. congruence.
      + apply Forall_app. split; [exact Hall|].
        constructor; [|constructor]. split; [|apply trim_idempotent].
        intros E. rewrite E in Et. discriminate.
    - split.
      + now apply NoDup_filter.
      + apply Forall_forall. intros x Hx. apply filter_In in Hx as [Hx _].
        rewrite Forall_forall in Hall. now apply Hall. }
  apply Hgen. split; constructor.
Qed.

(** X22: adding is safe to repeat and can be undone: a second add right
    after the first changes nothing, and removing the tag that an add has
    just appended gives back the tag list from before the add. *)
Theorem tag_add_repeats_and_undoes (st : CreatePost.State) :
  CreatePost.handleAddTag (CreatePost.handleAddTag st)
  = CreatePost.handleAddTag st
  /\ (CreatePost.tags (CreatePost.handleAddTag st) <> CreatePost.tags st ->
      CreatePost.tags
        (CreatePost.handleRemoveTag (CreatePost.trim (CreatePost.currentTag st))
           (CreatePost.handleAddTag st))
      = CreatePost.tags st).
Proof.
  unfold CreatePost.handleAddTag.
  destruct (JS.truthy (Some (CreatePost.trim (CreatePost.currentTag st))))
    eqn:Et; cbn [andb].
  - destruct (CreatePost.includes (CreatePost.trim (CreatePost.currentTag st))
                (CreatePost.tags st)) eqn:Ei; cbn [negb].
    + rewrite Et, Ei. cbn [andb negb]. split; [reflexivity|congruence].
    + split; [reflexivity|]. intros _. simpl.
      rewrite filter_app. simpl. rewrite String.eqb_refl. simpl.
      rewrite app_nil_r. apply forallb_filter_id. apply forallb_forall.
      intros x Hx. apply negb_true_iff, String.eqb_neq. intros ->.
      apply includes_In in Hx. congruence.
  - rewrite Et. cbn [andb]. split; [reflexivity|congruence].
Qed.

Lemma tag_add_repeats_and_undoes_witness :
  CreatePost.tags
    (CreatePost.handleRemoveTag (CreatePost.trim "  rocq ")
       (CreatePost.handleAddTag (CreatePost.mkState ["coq"] "  rocq ")))
  = ["coq"].
Proof.
  apply (proj2 (tag_add_repeats_and_undoes
                  (CreatePost.mkState ["coq"] "  rocq "))).
  discriminate.
Defined.

(** * Further properties of the interface *)

Ltac status_in :=
  cbv beta zeta;
  repeat (first
            [ apply always_ret; simpl; tauto
            | apply always_throw
            | apply always_bind; intros
            | apply always_casting
            | match goal with
              | |- always (match ?x with _ => _ end) _ => destruct x
              end ]; cbv beta zeta).

(** X23: each handler answers only with the statuses of its row:
    creation answers 201, only the update and delete of posts can answer
    403, the listings never answer 404, and commenting is never refused
    for lack of ownership. *)
Theorem handlers_answer_listed_statuses (P : Platform) (e : Endpoint)
    (req : Req.t) (s : Store) :
  In (status (fst (handler_of P e req s))) (statuses_of e).
Proof.
  destruct e; simpl handler_of;
    apply (try_catch_always _ (fun r => In (status r) (statuses_of _)));
    try (simpl; tauto); unfold new_RegExp; status_in.
Qed.

(** ** The order of a list answer *)

Lemma StronglySorted_skipn {A} (R : A -> A -> Prop) (n : nat) (l : list A) :
  StronglySorted R l -> StronglySorted R (skipn n l).
Proof.
  revert l. induction n as [|n IH]; intros l H; [exact H|].
  destruct l as [|x r]; [constructor|]. simpl. apply IH.
  now inversion H.
Qed.

Lemma StronglySorted_firstn {A} (R : A -> A -> Prop) (n : nat) (l : list A) :
  StronglySorted R l -> StronglySorted R (firstn n l).
Proof.
  revert l. induction n as [|n IH]; intros l H; [constructor|].
  destruct l as [|x r]; [constructor|]. simpl.
  inversion H as [|? ? Hr Hx]; subst. constructor; [now apply IH|].
  apply Forall_forall. intros y Hy. apply In_firstn_self in Hy.
  rewrite Forall_forall in Hx. now apply Hx.
Qed.

Lemma sorted_by_createdAt (order : Z) (ps : list Post.t) :
  StronglySorted
    (fun a b => if order <? 0
                then Post.createdAt b <= Post.createdAt a
                else Post.createdAt a <= Post.createdAt b)
    (sort_by (directed (Post.compare_field "createdAt") order) ps).
Proof.
  apply Sorted_StronglySorted.
  - intros a b c. destruct (order <? 0); lia.
  - assert (H : Sorted (fun a b => directed (Post.compare_field "createdAt")
                                     order a b <> Gt)
                  (sort_by (directed (Post.compare_field "createdAt") order) ps)).
    { apply sort_by_sorted. intros a b. unfold directed, Post.compare_field.
      cbn [String.eqb Ascii.eqb Bool.eqb].
      rewrite (Z.compare_antisym (Post.createdAt a) (Post.createdAt b)).
      destruct (order <? 0), (Z.compare (Post.createdAt a) (Post.createdAt b));
        simpl; congruence. }
    revert H. generalize (sort_by (directed (Post.compare_field "createdAt")
                                     order) ps).
    induction 1 as [|y r Hr IH Hd]; constructor; trivial.
    destruct Hd as [|z r' Hz]; constructor.
    unfold directed, Post.compare_field in Hz.
    cbn [String.eqb Ascii.eqb Bool.eqb] in Hz.
    destruct (order <? 0).
    + destruct (Z.compare_spec (Post.createdAt y) (Post.createdAt z));
        simpl in Hz; try lia. congruence.
    + destruct (Z.compare_spec (Post.createdAt y) (Post.createdAt z));
        try lia. congruence.
Qed.

(** X24: a list answer without a [sortBy] parameter is ordered by
    creation date: newest first by default, oldest first exactly when
    [sortOrder] is [asc]. *)
Theorem getAllPosts_orders_by_creation (P : Platform) (req : Req.t)
    (s : Store) (ps : list Post.t) :
  assoc "sortBy" (Req.query req) = None ->
  data (json (fst (getAllPosts P req s))) = Some (Posts ps) ->
  (assoc "sortOrder" (Req.query req) = Some "asc" ->
   StronglySorted (fun a b => Post.createdAt a <= Post.createdAt b) ps)
  /\ (assoc "sortOrder" (Req.query req) <> Some "asc" ->
      StronglySorted (fun a b => Post.createdAt b <= Post.createdAt a) ps).
Proof.
  intros HsortBy.
  destruct (getAllPosts_outcome P req s) as [E|(q & _ & E & _)]; rewrite E;
    [discriminate|].
  cbn [json data ok_page]. intros H. injection H as <-.
  unfold page_of_selection, window, sortBy_of. rewrite HsortBy.
  pose proof (sorted_by_createdAt (sortOrder_of req) (matching P q s)) as Hs.
  apply (StronglySorted_skipn _ (Z.to_nat ((page_of req - 1) * limit_of req)))
    in Hs.
  apply (StronglySorted_firstn _ (Z.to_nat (Z.abs (limit_of req)))) in Hs.
  unfold sortOrder_of in *. split.
  - intros Hasc. rewrite Hasc in *. exact Hs.
  - intros Hdesc.
    destruct (assoc "sortOrder" (Req.query req)) as [o|]; [|exact Hs].
    destruct (String.eqb o "asc") eqn:Eo; [|exact Hs].
    apply String.eqb_eq in Eo. congruence.
Qed.

Lemma getAllPosts_orders_by_creation_witness :
  StronglySorted (fun a b => Post.createdAt a <= Post.createdAt b)
    [Demo.hello; Demo.garden; Demo.hexed].
Proof.
  apply (getAllPosts_orders_by_creation Demo.platform
           (Demo.request GET [] "" [("sortOrder", "asc")] None)
           Demo.store [Demo.hello; Demo.garden; Demo.hexed]
           eq_refl eq_refl).
  reflexivity.
Defined.

(** ** The mutating routes of the post router *)

(** X25: through the post router a post is created or updated only after
    [protect], the upload middleware and validation have all passed the
    request on, deleted only after [protect] has, and commented on only
    after [protect] and the comment validation have; a request stopped
    on the way gets the answer of the middleware that stopped it and the
    handler does not run. *)
Theorem post_mutations_are_gated (P : Platform)
    (protect uploadSingle : Middleware)
    (post_chains comment_chains : Req.t -> Req.t * list ValidationIssue)
    (req : Req.t) (s : Store) (seg tail : string) :
  let validated (chains : Req.t -> Req.t * list ValidationIssue)
        (h : Handler) (req2 : Req.t) (s2 : Store) :=
    match handleValidationErrors (snd (chains req2)) with
    | Some r => Some (r, s2)
    | None => Some (h (fst (chains req2)) s2)
    end in
  let uploaded (h : Handler) (req0 : Req.t) :=
    match protect req0 s with
    | Answer r s1 => Some (r, s1)
    | Next req1 s1 =>
        match uploadSingle req1 s1 with
        | Answer r s2 => Some (r, s2)
        | Next req2 s2 => validated post_chains h req2 s2
        end
    end in
  (Req.method req = POST -> Req.path req = [] ->
   dispatch (router P protect uploadSingle post_chains comment_chains) req s
   = uploaded (createPost P) req)
  /\ (Req.method req = PUT -> Req.path req = [seg] ->
      dispatch (router P protect uploadSingle post_chains comment_chains) req s
      = uploaded (updatePost P) (Req.with_params_id seg req))
  /\ (Req.method req = DELETE -> Req.path req = [seg] ->
      dispatch (router P protect uploadSingle post_chains comment_chains) req s
      = match protect (Req.with_params_id seg req) s with
        | Answer r s1 => Some (r, s1)
        | Next req1 s1 => Some (deletePost P req1 s1)
        end)
  /\ (Req.method req = POST -> Req.path req = [seg; tail] ->
      JS.toLowerCase tail = "comments" ->
      dispatch (router P protect uploadSingle post_chains comment_chains) req s
      = match protect (Req.with_params_id seg req) s with
        | Answer r s1 => Some (r, s1)
        | Next req1 s1 => validated comment_chains (addComment P) req1 s1
        end).
Proof.
  cbv zeta. unfold router, dispatch, validatePost, validateComment, validating.
  split; [|split; [|split]].
  - intros -> ->.
    cbn [route_method route_path route_stack method_eqb match_path run_stack].
    destruct (protect req s) as [r1 s1|req1 s1]; [reflexivity|].
    destruct (uploadSingle req1 s1) as [r2 s2|req2 s2]; [reflexivity|].
    destruct (post_chains req2) as [req3 issues]. cbn [fst snd].
    destruct (handleValidationErrors issues); [reflexivity|].
    unfold final. now destruct (createPost P req3 s2).
  - intros -> ->.
    cbn [route_method route_path route_stack method_eqb match_path run_stack].
    destruct (protect (Req.with_params_id seg req) s) as [r1 s1|req1 s1];
      [reflexivity|].
    destruct (uploadSingle req1 s1) as [r2 s2|req2 s2]; [reflexivity|].
    destruct (post_chains req2) as [req3 issues]. cbn [fst snd].
    destruct (handleValidationErrors issues); [reflexivity|].
    unfold final. now destruct (updatePost P req3 s2).
  - intros -> ->.
    cbn [route_method route_path route_stack method_eqb match_path run_stack].
    destruct (protect (Req.with_params_id seg req) s) as [r1 s1|req1 s1];
      [reflexivity|].
    unfold final. now destruct (deletePost P req1 s1).
  - intros -> -> Htail.
    cbn [route_method route_path route_stack method_eqb match_path].
    change (JS.toLowerCase "comments") with "comments". rewrite Htail.
    cbn [String.eqb Ascii.eqb Bool.eqb run_stack].
    destruct (protect (Req.with_params_id seg req) s) as [r1 s1|req1 s1];
      [reflexivity|].
    destruct (comment_chains req1) as [req3 issues]. cbn [fst snd].
    destruct (handleValidationErrors issues); [reflexivity|].
    unfold final. now destruct (addComment P req3 s1).
Qed.

Lemma post_mutations_are_gated_witness :
  dispatch (router Demo.platform Demo.pass Demo.pass
              (fun r => (r, [mkIssue "title"
                               "Title must be between 1 and 100 characters"
                               (Some "")]))
              (fun r => (r, [])))
    (Demo.request PUT ["bbbbbbbbbbbbbbbbbbbbbb01"] "" [] (Some Demo.alice))
    Demo.store
  = Some (mkResponse 400
            (mkJson false None
               (Some [mkFieldError "title"
                        "Title must be between 1 and 100 characters" (Some "")])
               None None None), Demo.store).
Proof.
  refine (eq_trans
            (proj1 (proj2
               (post_mutations_are_gated Demo.platform Demo.pass Demo.pass _ _
                  (Demo.request PUT ["bbbbbbbbbbbbbbbbbbbbbb01"] "" []
                     (Some Demo.alice))
                  Demo.store "bbbbbbbbbbbbbbbbbbbbbb01" "")) eq_refl eq_refl) _).
  reflexivity.
Defined.
